(** * telegram_mp3: the search session and the download pipeline of music_bot.py

    A shallow embedding of [src/music_bot.py].  Python values are modelled as
    the code uses them: [str] as a list of Unicode code points, [int] as [Z],
    dicts with a fixed key set as records with optional fields, the per-user
    [user_data] mapping as a [gmap], the files under /tmp as a [gset] of paths.
    Handlers are written in state-passing style over a [World]; a Python
    exception is a value of [Res]. *)

From Stdlib Require Import ZArith QArith List Ascii String Lia.
From stdpp Require Import base option list gmap.

Local Open Scope Z_scope.

(* ===================================================================== *)
(** ** Python strings and integers *)
(* ===================================================================== *)

Module Py.

(** A [str] is a sequence of code points. *)
Definition codepoint := N.
Definition pystr := list codepoint.

(** An ASCII literal of the source, read as code points. *)
Definition lit (s : string) : pystr := map N_of_ascii (list_ascii_of_string s).

(** Exceptions, by class, with the text [str(e)] gives. *)
Inductive exn_class :=
  | ValueError | KeyError | IndexError | TypeError | OverflowError
  | EngineError | TransportError.

Record exn := Exn { exn_cls : exn_class; exn_text : pystr }.

(** The outcome of evaluating a Python expression or statement. *)
Inductive Res (A : Type) :=
  | Ok (a : A)
  | Raise (e : exn).
Arguments Ok {A} a.
Arguments Raise {A} e.

Definition bind {A B} (r : Res A) (k : A -> Res B) : Res B :=
  match r with
  | Ok a => k a
  | Raise e => Raise e
  end.

Notation "x <- r ;; k" := (bind r (fun x => k))
  (at level 100, r at next level, right associativity).

(** [for x in l: f(x)] collecting results, stopping at the first exception. *)
Fixpoint mapM {A B} (f : A -> Res B) (l : list A) : Res (list B) :=
  match l with
  | [] => Ok []
  | a :: l' => b <- f a ;; bs <- mapM f l' ;; Ok (b :: bs)
  end.

Definition mem (c : codepoint) (cs : pystr) : bool := existsb (N.eqb c) cs.

(** [s.startswith(p)] *)
Fixpoint startswith (p s : pystr) : bool :=
  match p, s with
  | [], _ => true
  | _ :: _, [] => false
  | a :: p', b :: s' => N.eqb a b && startswith p' s'
  end.

(** [s.split(sep)] for a one-character separator: every occurrence splits,
    empty fields are kept. *)
Fixpoint split (sep : codepoint) (s : pystr) : list pystr :=
  match s with
  | [] => [[]]
  | c :: s' =>
      if N.eqb c sep then [] :: split sep s'
      else match split sep s' with
           | w :: ws => (c :: w) :: ws
           | [] => [[c]]
           end
  end.

(** [s.lstrip(chars)]: drops the longest prefix made of characters of [chars]. *)
Fixpoint lstrip (chars s : pystr) : pystr :=
  match s with
  | [] => []
  | c :: s' => if mem c chars then lstrip chars s' else s
  end.

Definition rstrip (chars s : pystr) : pystr := rev (lstrip chars (rev s)).

(** [s.replace(old, new)] for a non-empty [old]: occurrences are found left
    to right and do not overlap. *)
Fixpoint replace_fuel (fuel : nat) (old new s : pystr) : pystr :=
  match fuel with
  | O => s
  | S f =>
      match s with
      | [] => []
      | c :: s' =>
          if startswith old s
          then new ++ replace_fuel f old new (skipn (length old) s)
          else c :: replace_fuel f old new s'
      end
  end.

Definition replace (old new s : pystr) : pystr :=
  replace_fuel (length s) old new s.

(** [l[start:stop]] with Python's treatment of negative and oversized bounds. *)
Definition clamp_index (len i : Z) : Z :=
  if i <? 0 then Z.max 0 (i + len) else Z.min i len.

Definition slice {A} (l : list A) (start stop : Z) : list A :=
  let len := Z.of_nat (length l) in
  let a := clamp_index len start in
  let b := clamp_index len stop in
  firstn (Z.to_nat (b - a)) (skipn (Z.to_nat a) l).

(** [s[:n]] for a literal n >= 0. *)
Definition prefix {A} (l : list A) (n : Z) : list A := slice l 0 n.

(** Decimal digits. *)
Definition digit_char (d : Z) : codepoint := (48 + Z.to_N d)%N.

Definition is_digit (c : codepoint) : bool := (48 <=? c)%N && (c <=? 57)%N.

Definition digit_val (c : codepoint) : Z := Z.of_N c - 48.

(** The characters [str] of an int is made of: digits and the minus sign. *)
Definition numeral_char (c : codepoint) : Prop := is_digit c = true \/ c = 45%N.

Fixpoint digits_of (fuel : nat) (n : Z) : pystr :=
  match fuel with
  | O => []
  | S f =>
      if n <? 10 then [digit_char n]
      else digits_of f (n / 10) ++ [digit_char (n mod 10)]
  end.

(** [str(n)] for an int: decimal, no leading zeros, [-] for negatives. *)
Definition str_nonneg (n : Z) : pystr := digits_of (S (Z.to_nat (Z.log2 n))) n.

Definition str_int (z : Z) : pystr :=
  if z <? 0 then lit "-" ++ str_nonneg (- z) else str_nonneg z.

(** ["%02d" % n] for n >= 0. *)
Definition pad2 (n : Z) : pystr :=
  if n <? 10 then lit "0" ++ str_nonneg n else str_nonneg n.

(** The ASCII characters [int] skips as whitespace around the number: tab,
    newline, vertical tab, form feed, carriage return and space. *)
Definition whitespace : pystr := [9; 10; 11; 12; 13; 32]%N.

(** The code points beyond ASCII that count as whitespace. *)
Definition unicode_spaces : pystr :=
  [133; 160; 5760; 8192; 8193; 8194; 8195; 8196; 8197; 8198; 8199; 8200;
   8201; 8202; 8232; 8233; 8239; 8287; 12288]%N.

(** The decimal digits beyond ASCII come in blocks of ten, zero to nine;
    these are the zeros of the blocks (Unicode 14.0, the database of
    CPython 3.11). *)
Definition decimal_blocks : list codepoint :=
  [1632; 1776; 1984; 2406; 2534; 2662; 2790; 2918; 3046; 3174; 3302; 3430;
   3558; 3664; 3792; 3872; 4160; 4240; 6112; 6160; 6470; 6608; 6784; 6800;
   6992; 7088; 7232; 7248; 42528; 43216; 43264; 43472; 43504; 43600; 44016;
   65296; 66720; 68912; 69734; 69872; 69942; 70096; 70384; 70736; 70864;
   71248; 71360; 71472; 71904; 72016; 72784; 73040; 73120; 92768; 92864;
   93008; 120782; 120792; 120802; 120812; 120822; 123200; 123632; 125264;
   130032]%N.

(** The value of a decimal digit beyond ASCII, if the code point is one. *)
Definition unicode_decimal (c : codepoint) : option Z :=
  match List.find (fun zero => (zero <=? c)%N && (c <? zero + 10)%N) decimal_blocks with
  | Some zero => Some (Z.of_N (c - zero))
  | None => None
  end.

(** What [int] makes of a character before it parses: ASCII below DEL
    stays, a space beyond ASCII becomes a space, a decimal digit beyond ASCII
    becomes its ASCII digit, anything else a question mark. *)
Definition to_ascii (c : codepoint) : codepoint :=
  if (c <? 127)%N then c
  else if mem c unicode_spaces then 32%N
  else match unicode_decimal c with
       | Some d => (48 + Z.to_N d)%N
       | None => 63%N
       end.

Fixpoint parse_digits (acc : Z) (s : pystr) : option Z :=
  match s with
  | [] => Some acc
  | c :: s' => if is_digit c then parse_digits (10 * acc + digit_val c) s' else None
  end.

Definition parse_unsigned (s : pystr) : option Z :=
  match s with
  | [] => None
  | _ :: _ => parse_digits 0 s
  end.

(** Lower-case hexadecimal, on a fixed number of digits. *)
Definition hex_digit (d : N) : codepoint :=
  if (d <? 10)%N then (48 + d)%N else (87 + d)%N.

Fixpoint hex_fixed (width : nat) (n : N) : pystr :=
  match width with
  | O => []
  | S w => hex_fixed w (n / 16)%N ++ [hex_digit (n mod 16)%N]
  end.

(** The code points beyond ASCII that [repr] escapes, as closed ranges
    (Unicode 14.0, the database of CPython 3.11). *)
Definition nonprintable_ranges : list (N * N) :=
  [(128, 160); (173, 173); (888, 889); (896, 899); (907, 907); (909, 909);
   (930, 930); (1328, 1328); (1367, 1368); (1419, 1420); (1424, 1424);
   (1480, 1487); (1515, 1518); (1525, 1541); (1564, 1564); (1757, 1757);
   (1806, 1807); (1867, 1868); (1970, 1983); (2043, 2044); (2094, 2095);
   (2111, 2111); (2140, 2141); (2143, 2143); (2155, 2159); (2191, 2199);
   (2274, 2274); (2436, 2436); (2445, 2446); (2449, 2450); (2473, 2473);
   (2481, 2481); (2483, 2485); (2490, 2491); (2501, 2502); (2505, 2506);
   (2511, 2518); (2520, 2523); (2526, 2526); (2532, 2533); (2559, 2560);
   (2564, 2564); (2571, 2574); (2577, 2578); (2601, 2601); (2609, 2609);
   (2612, 2612); (2615, 2615); (2618, 2619); (2621, 2621); (2627, 2630);
   (2633, 2634); (2638, 2640); (2642, 2648); (2653, 2653); (2655, 2661);
   (2679, 2688); (2692, 2692); (2702, 2702); (2706, 2706); (2729, 2729);
   (2737, 2737); (2740, 2740); (2746, 2747); (2758, 2758); (2762, 2762);
   (2766, 2767); (2769, 2783); (2788, 2789); (2802, 2808); (2816, 2816);
   (2820, 2820); (2829, 2830); (2833, 2834); (2857, 2857); (2865, 2865);
   (2868, 2868); (2874, 2875); (2885, 2886); (2889, 2890); (2894, 2900);
   (2904, 2907); (2910, 2910); (2916, 2917); (2936, 2945); (2948, 2948);
   (2955, 2957); (2961, 2961); (2966, 2968); (2971, 2971); (2973, 2973);
   (2976, 2978); (2981, 2983); (2987, 2989); (3002, 3005); (3011, 3013);
   (3017, 3017); (3022, 3023); (3025, 3030); (3032, 3045); (3067, 3071);
   (3085, 3085); (3089, 3089); (3113, 3113); (3130, 3131); (3141, 3141);
   (3145, 3145); (3150, 3156); (3159, 3159); (3163, 3164); (3166, 3167);
   (3172, 3173); (3184, 3190); (3213, 3213); (3217, 3217); (3241, 3241);
   (3252, 3252); (3258, 3259); (3269, 3269); (3273, 3273); (3278, 3284);
   (3287, 3292); (3295, 3295); (3300, 3301); (3312, 3312); (3315, 3327);
   (3341, 3341); (3345, 3345); (3397, 3397); (3401, 3401); (3408, 3411);
   (3428, 3429); (3456, 3456); (3460, 3460); (3479, 3481); (3506, 3506);
   (3516, 3516); (3518, 3519); (3527, 3529); (3531, 3534); (3541, 3541);
   (3543, 3543); (3552, 3557); (3568, 3569); (3573, 3584); (3643, 3646);
   (3676, 3712); (3715, 3715); (3717, 3717); (3723, 3723); (3748, 3748);
   (3750, 3750); (3774, 3775); (3781, 3781); (3783, 3783); (3790, 3791);
   (3802, 3803); (3808, 3839); (3912, 3912); (3949, 3952); (3992, 3992);
   (4029, 4029); (4045, 4045); (4059, 4095); (4294, 4294); (4296, 4300);
   (4302, 4303); (4681, 4681); (4686, 4687); (4695, 4695); (4697, 4697);
   (4702, 4703); (4745, 4745); (4750, 4751); (4785, 4785); (4790, 4791);
   (4799, 4799); (4801, 4801); (4806, 4807); (4823, 4823); (4881, 4881);
   (4886, 4887); (4955, 4956); (4989, 4991); (5018, 5023); (5110, 5111);
   (5118, 5119); (5760, 5760); (5789, 5791); (5881, 5887); (5910, 5918);
   (5943, 5951); (5972, 5983); (5997, 5997); (6001, 6001); (6004, 6015);
   (6110, 6111); (6122, 6127); (6138, 6143); (6158, 6158); (6170, 6175);
   (6265, 6271); (6315, 6319); (6390, 6399); (6431, 6431); (6444, 6447);
   (6460, 6463); (6465, 6467); (6510, 6511); (6517, 6527); (6572, 6575);
   (6602, 6607); (6619, 6621); (6684, 6685); (6751, 6751); (6781, 6782);
   (6794, 6799); (6810, 6815); (6830, 6831); (6863, 6911); (6989, 6991);
   (7039, 7039); (7156, 7163); (7224, 7226); (7242, 7244); (7305, 7311);
   (7355, 7356); (7368, 7375); (7419, 7423); (7958, 7959); (7966, 7967);
   (8006, 8007); (8014, 8015); (8024, 8024); (8026, 8026); (8028, 8028);
   (8030, 8030); (8062, 8063); (8117, 8117); (8133, 8133); (8148, 8149);
   (8156, 8156); (8176, 8177); (8181, 8181); (8191, 8207); (8232, 8239);
   (8287, 8303); (8306, 8307); (8335, 8335); (8349, 8351); (8385, 8399);
   (8433, 8447); (8588, 8591); (9255, 9279); (9291, 9311); (11124, 11125);
   (11158, 11158); (11508, 11512); (11558, 11558); (11560, 11564); (11566,
   11567); (11624, 11630); (11633, 11646); (11671, 11679); (11687, 11687);
   (11695, 11695); (11703, 11703); (11711, 11711); (11719, 11719); (11727,
   11727); (11735, 11735); (11743, 11743); (11870, 11903); (11930, 11930);
   (12020, 12031); (12246, 12271); (12284, 12288); (12352, 12352); (12439,
   12440); (12544, 12548); (12592, 12592); (12687, 12687); (12772, 12783);
   (12831, 12831); (42125, 42127); (42183, 42191); (42540, 42559); (42744,
   42751); (42955, 42959); (42962, 42962); (42964, 42964); (42970, 42993);
   (43053, 43055); (43066, 43071); (43128, 43135); (43206, 43213); (43226,
   43231); (43348, 43358); (43389, 43391); (43470, 43470); (43482, 43485);
   (43519, 43519); (43575, 43583); (43598, 43599); (43610, 43611); (43715,
   43738); (43767, 43776); (43783, 43784); (43791, 43792); (43799, 43807);
   (43815, 43815); (43823, 43823); (43884, 43887); (44014, 44015); (44026,
   44031); (55204, 55215); (55239, 55242); (55292, 63743); (64110, 64111);
   (64218, 64255); (64263, 64274); (64280, 64284); (64311, 64311); (64317,
   64317); (64319, 64319); (64322, 64322); (64325, 64325); (64451, 64466);
   (64912, 64913); (64968, 64974); (64976, 65007); (65050, 65055); (65107,
   65107); (65127, 65127); (65132, 65135); (65141, 65141); (65277, 65280);
   (65471, 65473); (65480, 65481); (65488, 65489); (65496, 65497); (65501,
   65503); (65511, 65511); (65519, 65531); (65534, 65535); (65548, 65548);
   (65575, 65575); (65595, 65595); (65598, 65598); (65614, 65615); (65630,
   65663); (65787, 65791); (65795, 65798); (65844, 65846); (65935, 65935);
   (65949, 65951); (65953, 65999); (66046, 66175); (66205, 66207); (66257,
   66271); (66300, 66303); (66340, 66348); (66379, 66383); (66427, 66431);
   (66462, 66462); (66500, 66503); (66518, 66559); (66718, 66719); (66730,
   66735); (66772, 66775); (66812, 66815); (66856, 66863); (66916, 66926);
   (66939, 66939); (66955, 66955); (66963, 66963); (66966, 66966); (66978,
   66978); (66994, 66994); (67002, 67002); (67005, 67071); (67383, 67391);
   (67414, 67423); (67432, 67455); (67462, 67462); (67505, 67505); (67515,
   67583); (67590, 67591); (67593, 67593); (67638, 67638); (67641, 67643);
   (67645, 67646); (67670, 67670); (67743, 67750); (67760, 67807); (67827,
   67827); (67830, 67834); (67868, 67870); (67898, 67902); (67904, 67967);
   (68024, 68027); (68048, 68049); (68100, 68100); (68103, 68107); (68116,
   68116); (68120, 68120); (68150, 68151); (68155, 68158); (68169, 68175);
   (68185, 68191); (68256, 68287); (68327, 68330); (68343, 68351); (68406,
   68408); (68438, 68439); (68467, 68471); (68498, 68504); (68509, 68520);
   (68528, 68607); (68681, 68735); (68787, 68799); (68851, 68857); (68904,
   68911); (68922, 69215); (69247, 69247); (69290, 69290); (69294, 69295);
   (69298, 69375); (69416, 69423); (69466, 69487); (69514, 69551); (69580,
   69599); (69623, 69631); (69710, 69713); (69750, 69758); (69821, 69821);
   (69827, 69839); (69865, 69871); (69882, 69887); (69941, 69941); (69960,
   69967); (70007, 70015); (70112, 70112); (70133, 70143); (70162, 70162);
   (70207, 70271); (70279, 70279); (70281, 70281); (70286, 70286); (70302,
   70302); (70314, 70319); (70379, 70383); (70394, 70399); (70404, 70404);
   (70413, 70414); (70417, 70418); (70441, 70441); (70449, 70449); (70452,
   70452); (70458, 70458); (70469, 70470); (70473, 70474); (70478, 70479);
   (70481, 70486); (70488, 70492); (70500, 70501); (70509, 70511); (70517,
   70655); (70748, 70748); (70754, 70783); (70856, 70863); (70874, 71039);
   (71094, 71095); (71134, 71167); (71237, 71247); (71258, 71263); (71277,
   71295); (71354, 71359); (71370, 71423); (71451, 71452); (71468, 71471);
   (71495, 71679); (71740, 71839); (71923, 71934); (71943, 71944); (71946,
   71947); (71956, 71956); (71959, 71959); (71990, 71990); (71993, 71994);
   (72007, 72015); (72026, 72095); (72104, 72105); (72152, 72153); (72165,
   72191); (72264, 72271); (72355, 72367); (72441, 72703); (72713, 72713);
   (72759, 72759); (72774, 72783); (72813, 72815); (72848, 72849); (72872,
   72872); (72887, 72959); (72967, 72967); (72970, 72970); (73015, 73017);
   (73019, 73019); (73022, 73022); (73032, 73039); (73050, 73055); (73062,
   73062); (73065, 73065); (73103, 73103); (73106, 73106); (73113, 73119);
   (73130, 73439); (73465, 73647); (73649, 73663); (73714, 73726); (74650,
   74751); (74863, 74863); (74869, 74879); (75076, 77711); (77811, 77823);
   (78895, 82943); (83527, 92159); (92729, 92735); (92767, 92767); (92778,
   92781); (92863, 92863); (92874, 92879); (92910, 92911); (92918, 92927);
   (92998, 93007); (93018, 93018); (93026, 93026); (93048, 93052); (93072,
   93759); (93851, 93951); (94027, 94030); (94088, 94094); (94112, 94175);
   (94181, 94191); (94194, 94207); (100344, 100351); (101590, 101631);
   (101641, 110575); (110580, 110580); (110588, 110588); (110591, 110591);
   (110883, 110927); (110931, 110947); (110952, 110959); (111356, 113663);
   (113771, 113775); (113789, 113791); (113801, 113807); (113818, 113819);
   (113824, 118527); (118574, 118575); (118599, 118607); (118724, 118783);
   (119030, 119039); (119079, 119080); (119155, 119162); (119275, 119295);
   (119366, 119519); (119540, 119551); (119639, 119647); (119673, 119807);
   (119893, 119893); (119965, 119965); (119968, 119969); (119971, 119972);
   (119975, 119976); (119981, 119981); (119994, 119994); (119996, 119996);
   (120004, 120004); (120070, 120070); (120075, 120076); (120085, 120085);
   (120093, 120093); (120122, 120122); (120127, 120127); (120133, 120133);
   (120135, 120137); (120145, 120145); (120486, 120487); (120780, 120781);
   (121484, 121498); (121504, 121504); (121520, 122623); (122655, 122879);
   (122887, 122887); (122905, 122906); (122914, 122914); (122917, 122917);
   (122923, 123135); (123181, 123183); (123198, 123199); (123210, 123213);
   (123216, 123535); (123567, 123583); (123642, 123646); (123648, 124895);
   (124903, 124903); (124908, 124908); (124911, 124911); (124927, 124927);
   (125125, 125126); (125143, 125183); (125260, 125263); (125274, 125277);
   (125280, 126064); (126133, 126208); (126270, 126463); (126468, 126468);
   (126496, 126496); (126499, 126499); (126501, 126502); (126504, 126504);
   (126515, 126515); (126520, 126520); (126522, 126522); (126524, 126529);
   (126531, 126534); (126536, 126536); (126538, 126538); (126540, 126540);
   (126544, 126544); (126547, 126547); (126549, 126550); (126552, 126552);
   (126554, 126554); (126556, 126556); (126558, 126558); (126560, 126560);
   (126563, 126563); (126565, 126566); (126571, 126571); (126579, 126579);
   (126584, 126584); (126589, 126589); (126591, 126591); (126602, 126602);
   (126620, 126624); (126628, 126628); (126634, 126634); (126652, 126703);
   (126706, 126975); (127020, 127023); (127124, 127135); (127151, 127152);
   (127168, 127168); (127184, 127184); (127222, 127231); (127406, 127461);
   (127491, 127503); (127548, 127551); (127561, 127567); (127570, 127583);
   (127590, 127743); (128728, 128732); (128749, 128751); (128765, 128767);
   (128884, 128895); (128985, 128991); (129004, 129007); (129009, 129023);
   (129036, 129039); (129096, 129103); (129114, 129119); (129160, 129167);
   (129198, 129199); (129202, 129279); (129620, 129631); (129646, 129647);
   (129653, 129655); (129661, 129663); (129671, 129679); (129709, 129711);
   (129723, 129727); (129734, 129743); (129754, 129759); (129768, 129775);
   (129783, 129791); (129939, 129939); (129995, 130031); (130042, 131071);
   (173792, 173823); (177977, 177983); (178206, 178207); (183970, 183983);
   (191457, 194559); (195102, 196607); (201547, 917759); (918000, 1114111)]%N.

Definition in_ranges (c : codepoint) (ranges : list (N * N)) : bool :=
  existsb (fun r => (fst r <=? c)%N && (c <=? snd r)%N) ranges.

(** One character inside [repr(s)], for the chosen quote. *)
Definition repr_char (quote c : codepoint) : pystr :=
  if N.eqb c quote || N.eqb c 92 then [92%N; c]
  else if N.eqb c 9 then lit "\t"
  else if N.eqb c 10 then lit "\n"
  else if N.eqb c 13 then lit "\r"
  else if (c <? 32)%N || N.eqb c 127 then lit "\x" ++ hex_fixed 2 c
  else if (c <? 127)%N then [c]
  else if negb (in_ranges c nonprintable_ranges) then [c]
  else if (c <=? 255)%N then lit "\x" ++ hex_fixed 2 c
  else if (c <=? 65535)%N then lit "\u" ++ hex_fixed 4 c
  else lit "\U" ++ hex_fixed 8 c.

(** [repr(s)] of a str: single quotes, unless the string has a single quote
    and no double quote. *)
Definition repr (s : pystr) : pystr :=
  let quote := if mem 39%N s && negb (mem 34%N s) then 34%N else 39%N in
  [quote] ++ flat_map (repr_char quote) s ++ [quote].

(** The ValueError of [int]; the repr of the argument is cut to 200
    characters. *)
Definition invalid_literal (s : pystr) : exn :=
  Exn ValueError (lit "invalid literal for int() with base 10: " ++ firstn 200 (repr s)).

(** [l[i]] for i >= 0. *)
Definition index {A} (l : list A) (i : nat) : Res A :=
  match l !! i with
  | Some a => Ok a
  | None => Raise (Exn IndexError (lit "list index out of range"))
  end.

(** [sep.join(l)] *)
Fixpoint join (sep : pystr) (l : list pystr) : pystr :=
  match l with
  | [] => []
  | [s] => s
  | s :: l' => s ++ sep ++ join sep l'
  end.

(** [enumerate(l, start)] *)
Fixpoint enumerate {A} (l : list A) (start : Z) : list (Z * A) :=
  match l with
  | [] => []
  | a :: l' => (start, a) :: enumerate l' (start + 1)
  end.

(** [re.sub('[...]', repl, s)] for a pattern that is one character class. *)
Definition re_sub_class (class repl s : pystr) : pystr :=
  flat_map (fun c => if mem c class then repl else [c]) s.

(** [int(s)] on a string without underscores (the argument is always a field
    of [split('_')]): after [to_ascii], whitespace around the number is
    skipped, then come an optional sign and one or more digits; leading zeros
    are fine.  The limit on the number of digits (4300 by default) is a
    setting of the interpreter and is not modelled. *)
Definition int (s : pystr) : Res Z :=
  let body := rstrip whitespace (lstrip whitespace (map to_ascii s)) in
  let parsed :=
    match body with
    | c :: rest =>
        if N.eqb c 45 then Z.opp <$> parse_unsigned rest
        else if N.eqb c 43 then parse_unsigned rest
        else parse_unsigned body
    | [] => None
    end in
  match parsed with
  | Some z => Ok z
  | None => Raise (invalid_literal s)
  end.

End Py.

(* ===================================================================== *)
(** ** The bot: data, helpers, catalog search *)
(* ===================================================================== *)

Module Bot.
Import Py.

(** Number of results on a page. *)
Definition RESULTS_PER_PAGE : Z := 10.

(** A text field as the engine delivers it: a string or [None]. *)
Inductive pyval := VNone | VStr (s : pystr).

Definition truthy (v : pyval) : bool :=
  match v with
  | VNone | VStr [] => false
  | VStr (_ :: _) => true
  end.

(** How an f-string shows the value. *)
Definition fmt (v : pyval) : pystr :=
  match v with
  | VNone => lit "None"
  | VStr s => s
  end.

(** [v[:n]]: [None] is not subscriptable. *)
Definition val_prefix (v : pyval) (n : Z) : Res pystr :=
  match v with
  | VStr s => Ok (prefix s n)
  | VNone => Raise (Exn TypeError (lit "'NoneType' object is not subscriptable"))
  end.

(** A duration as the engine delivers it: [None], an int, or a finite float
    (given by its exact rational value). *)
Inductive pydur := DNone | DInt (n : Z) | DFloat (q : Q).

Definition dur_truthy (d : pydur) : bool :=
  match d with
  | DNone => false
  | DInt n => negb (n =? 0)
  | DFloat q => negb (Qnum q =? 0)
  end.

(** [int(d)]: truncation toward zero. *)
Definition dur_int (d : pydur) : Res Z :=
  match d with
  | DInt n => Ok n
  | DFloat q => Ok (Z.quot (Qnum q) (Z.pos (Qden q)))
  | DNone =>
      Raise (Exn TypeError
               (lit "int() argument must be a string, a bytes-like object or a real number, not 'NoneType'"))
  end.

(** [timedelta(seconds=n)], normalised to (days, seconds of the day).  The
    days must fit a C int and stay within 999999999 in magnitude. *)
Definition timedelta (n : Z) : Res (Z * Z) :=
  let days := n / 86400 in
  if Z.abs days <=? 999999999 then Ok (days, n mod 86400)
  else if (-2147483648 <=? days) && (days <=? 2147483647) then
    Raise (Exn OverflowError
             (lit "days=" ++ str_int days ++ lit "; must have magnitude <= 999999999"))
  else Raise (Exn OverflowError (lit "Python int too large to convert to C int")).

(** [str(td)] for a timedelta without microseconds. *)
Definition str_timedelta (td : Z * Z) : pystr :=
  let '(days, secs) := td in
  let mm := secs / 60 in
  let ss := secs mod 60 in
  let hh := mm / 60 in
  let mm := mm mod 60 in
  let s := str_int hh ++ lit ":" ++ pad2 mm ++ lit ":" ++ pad2 ss in
  if days =? 0 then s
  else str_int days ++ lit " day" ++ (if Z.abs days =? 1 then [] else lit "s")
         ++ lit ", " ++ s.

Definition unknown_duration : pystr := lit "??:??".

Definition format_duration (seconds : pydur) : Res pystr :=
  if negb (dur_truthy seconds) then Ok unknown_duration
  else
    n <- dur_int seconds ;;
    td <- timedelta n ;;
    Ok (lstrip (lit "0:") (str_timedelta td)).

(** The character class of [clean_filename]: backslash, slash, star,
    question mark, colon, double quote, less-than, greater-than, bar. *)
Definition forbidden_chars : pystr := [92; 47; 42; 63; 58; 34; 60; 62; 124]%N.

Definition clean_filename (title : pystr) : pystr :=
  re_sub_class forbidden_chars [] title.

(** A track dict as [search_youtube] builds it. *)
Record Track := {
  tr_id : pystr;
  tr_title : pyval;
  tr_artist : pyval;
  tr_full_name : pystr;
  tr_source : pystr;
  tr_duration : pydur;
  tr_video_id : pystr
}.

(** A non-empty entry dict of the engine; [None] in a field is an absent key. *)
Record Entry := {
  e_id : option pystr;
  e_title : option pyval;
  e_channel : option pyval;
  e_uploader : option pyval;
  e_duration : option pydur
}.

(** [d.get(key, default)] *)
Definition get {A} (field : option A) (default : A) : A :=
  match field with
  | Some a => a
  | None => default
  end.

(** [d[key]] *)
Definition getitem {A} (key : pystr) (field : option A) : Res A :=
  match field with
  | Some a => Ok a
  | None => Raise (Exn KeyError (repr key))
  end.

(** The body of the loop of [search_youtube] for one truthy entry. *)
Definition track_of_entry (entry : Entry) : Res Track :=
  let duration := get (e_duration entry) (DInt 0) in
  let title := get (e_title entry) (VStr (lit "Unknown Title")) in
  let channel := get (e_channel entry) (VStr (lit "Unknown Artist")) in
  let channel :=
    if negb (truthy channel)
    then get (e_uploader entry) (VStr (lit "Unknown Artist"))
    else channel in
  i <- getitem (lit "id") (e_id entry) ;;
  Ok {| tr_id := i;
        tr_title := title;
        tr_artist := channel;
        tr_full_name := fmt channel ++ lit " - " ++ fmt title;
        tr_source := lit "youtube";
        tr_duration := duration;
        tr_video_id := i |}.

(** The loop over [info['entries']]; a falsy entry ([None] or an empty dict)
    is [None] here and is skipped. *)
Fixpoint collect_tracks (entries : list (option Entry)) (tracks : list Track)
  : Res (list Track) :=
  match entries with
  | [] => Ok tracks
  | None :: rest => collect_tracks rest tracks
  | Some entry :: rest =>
      t <- track_of_entry entry ;;
      collect_tracks rest (tracks ++ [t])
  end.

(** What [extract_info] gives for a search: [None] for a falsy info (None or
    an empty dict), else the value under 'entries' if the key is there. *)
Definition SearchInfo := option (option (list (option Entry))).

(** The collaborators outside the program, as they answer during the
    handling of one update.  [ydl_download url outtmpl files] gives the files
    after the engine ran and whether a truthy info came back.  Of the calls
    of the transport only [reply_audio] can fail here; the other calls
    (reply_text, edit_text, answer, delete) are taken to go through, an
    assumption that module [Fallible] drops. *)
Record Env := {
  ydl_search : pystr -> Res SearchInfo;
  ydl_download : pystr -> pystr -> gset pystr -> gset pystr * Res bool;
  uuid4_hex : pystr;
  send_audio : Res unit
}.

Definition search_youtube_try (env : Env) (query : pystr) (max_results : Z)
  : Res (list Track) :=
  let search_query := lit "ytsearch" ++ str_int max_results ++ lit ":" ++ query in
  info <- ydl_search env search_query ;;
  match info with
  | None | Some None => Ok []
  | Some (Some entries) => collect_tracks entries []
  end.

(** [except Exception] logs and returns the empty list. *)
Definition search_youtube (env : Env) (query : pystr) (max_results : Z)
  : Res (list Track) :=
  match search_youtube_try env query max_results with
  | Ok tracks => Ok tracks
  | Raise _ => Ok []
  end.

(* ===================================================================== *)
(** ** Texts of the user interface, as code points *)
(* ===================================================================== *)

(** 'Укажи запрос. Например: /search Imagine Dragons - Believer' *)
Definition msg_usage : pystr :=
  [1059; 1082; 1072; 1078; 1080; 32; 1079; 1072; 1087; 1088; 1086; 1089;
   46; 32; 1053; 1072; 1087; 1088; 1080; 1084; 1077; 1088; 58; 32; 47;
   115; 101; 97; 114; 99; 104; 32; 73; 109; 97; 103; 105; 110; 101; 32;
   68; 114; 97; 103; 111; 110; 115; 32; 45; 32; 66; 101; 108; 105; 101;
   118; 101; 114]%N.

(** '🔍 Ищу: ' *)
Definition msg_searching : pystr :=
  [128269; 32; 1048; 1097; 1091; 58; 32]%N.

(** '😕 Ничего не найдено. Попробуй другой запрос.' *)
Definition msg_nothing_found : pystr :=
  [128533; 32; 1053; 1080; 1095; 1077; 1075; 1086; 32; 1085; 1077; 32;
   1085; 1072; 1081; 1076; 1077; 1085; 1086; 46; 32; 1055; 1086; 1087;
   1088; 1086; 1073; 1091; 1081; 32; 1076; 1088; 1091; 1075; 1086; 1081;
   32; 1079; 1072; 1087; 1088; 1086; 1089; 46]%N.

(** '❌ Ошибка: ' *)
Definition msg_error : pystr :=
  [10060; 32; 1054; 1096; 1080; 1073; 1082; 1072; 58; 32]%N.

(** '📋 Результаты поиска (стр. ' *)
Definition msg_results_head : pystr :=
  [128203; 32; 1056; 1077; 1079; 1091; 1083; 1100; 1090; 1072; 1090;
   1099; 32; 1087; 1086; 1080; 1089; 1082; 1072; 32; 40; 1089; 1090;
   1088; 46; 32]%N.

(** '):' and two newlines *)
Definition msg_results_tail : pystr := [41; 58; 10; 10]%N.

(** ']' and a newline *)
Definition line_tail : pystr := [93; 10]%N.

(** '⬅️ Назад' *)
Definition label_back : pystr :=
  [11013; 65039; 32; 1053; 1072; 1079; 1072; 1076]%N.

(** 'Далее ➡️' *)
Definition label_next : pystr :=
  [1044; 1072; 1083; 1077; 1077; 32; 10145; 65039]%N.

(** '❌ Трек не найден.' *)
Definition msg_track_not_found : pystr :=
  [10060; 32; 1058; 1088; 1077; 1082; 32; 1085; 1077; 32; 1085; 1072;
   1081; 1076; 1077; 1085; 46]%N.

(** '⬇️ Скачиваю: ' *)
Definition msg_downloading : pystr :=
  [11015; 65039; 32; 1057; 1082; 1072; 1095; 1080; 1074; 1072; 1102; 58;
   32]%N.

(** '❌ Не удалось скачать трек. Попробуй другой.' *)
Definition msg_download_failed : pystr :=
  [10060; 32; 1053; 1077; 32; 1091; 1076; 1072; 1083; 1086; 1089; 1100;
   32; 1089; 1082; 1072; 1095; 1072; 1090; 1100; 32; 1090; 1088; 1077;
   1082; 46; 32; 1055; 1086; 1087; 1088; 1086; 1073; 1091; 1081; 32;
   1076; 1088; 1091; 1075; 1086; 1081; 46]%N.

(** '❌ Ошибка скачивания: ' *)
Definition msg_download_error : pystr :=
  [10060; 32; 1054; 1096; 1080; 1073; 1082; 1072; 32; 1089; 1082; 1072;
   1095; 1080; 1074; 1072; 1085; 1080; 1103; 58; 32]%N.

(** '🎵 ' *)
Definition caption_head : pystr := [127925; 32]%N.

(* ===================================================================== *)
(** ** The world the handlers act on *)
(* ===================================================================== *)

Record Button := { label : pystr; callback_data : pystr }.

Definition Keyboard := list (list Button).

(** The two messages a handler edits or deletes: the status message it sent
    itself, and the message that carries the pressed keyboard. *)
Inductive MsgRef := StatusMsg | QueryMsg.

Record Audio := {
  au_path : pystr;
  au_title : pystr;
  au_performer : pystr;
  au_caption : pystr;
  au_duration : pydur
}.

(** What the bot did towards the user, in order. *)
Inductive Event :=
  | AnswerCallback
  | ReplyText (text : pystr) (markup : option Keyboard)
  | EditText (target : MsgRef) (text : pystr) (markup : option Keyboard)
  | ReplyAudio (audio : Audio)
  | DeleteMessage (target : MsgRef).

(** [context.user_data]: a dict with the keys 'search_results' and 'page'. *)
Record UserData := {
  search_results : option (list Track);
  page : option Z
}.

Definition empty_user_data : UserData :=
  {| search_results := None; page := None |}.

(** Session store by user id, temp files, and the messages sent so far.
    Of the transport calls only [reply_audio] is modelled as fallible
    ([send_audio] of [Env]); logging is not modelled. *)
Record World := {
  user_data : gmap Z UserData;
  files : gset pystr;
  outbox : list Event
}.

(** The dict of a user; a user never seen has an empty one. *)
Definition user_data_of (w : World) (user : Z) : UserData :=
  default empty_user_data (user_data w !! user).

Definition set_user_data (w : World) (user : Z) (ud : UserData) : World :=
  {| user_data := <[user := ud]> (user_data w);
     files := files w;
     outbox := outbox w |}.

Definition set_files (w : World) (fs : gset pystr) : World :=
  {| user_data := user_data w; files := fs; outbox := outbox w |}.

Definition emit (w : World) (ev : Event) : World :=
  {| user_data := user_data w; files := files w; outbox := outbox w ++ [ev] |}.

(* ===================================================================== *)
(** ** Paging and rendering *)
(* ===================================================================== *)

(** The page total shown in the header: [(len(tracks)-1)//per_page + 1]. *)
Definition page_count (total : Z) : Z := (total - 1) / RESULTS_PER_PAGE + 1.

Definition start_index (page : Z) : Z := page * RESULTS_PER_PAGE.

Definition end_index (total page : Z) : Z :=
  Z.min (start_index page + RESULTS_PER_PAGE) total.

Definition page_tracks (tracks : list Track) (page : Z) : list Track :=
  slice tracks (start_index page) (end_index (Z.of_nat (length tracks)) page).

Definition encode_dl (rank : Z) : pystr := lit "dl_" ++ str_int rank.

Definition encode_page (page : Z) : pystr := lit "page_" ++ str_int page.

(** One turn of the loop over the page: the text line and the keyboard row
    of the track numbered [i]. *)
Definition render_row (item : Z * Track) : Res (pystr * list Button) :=
  let '(i, track) := item in
  duration_str <- format_duration (tr_duration track) ;;
  Ok (str_int i ++ lit ". " ++ tr_full_name track ++ lit " [" ++ duration_str
        ++ line_tail,
      [ {| label := str_int i ++ lit ". " ++ prefix (tr_full_name track) 40;
           callback_data := encode_dl (i - 1) |} ]).

Definition has_prev (page : Z) : bool := page >? 0.

Definition has_next (total page : Z) : bool := end_index total page <? total.

Definition nav_buttons (total page : Z) : list Button :=
  (if has_prev page
   then [ {| label := label_back; callback_data := encode_page (page - 1) |} ]
   else [])
  ++
  (if has_next total page
   then [ {| label := label_next; callback_data := encode_page (page + 1) |} ]
   else []).

(** Text and keyboard of [send_results_page] for a non-empty [tracks]. *)
Definition render_page (tracks : list Track) (page : Z) : Res (pystr * Keyboard) :=
  let total := Z.of_nat (length tracks) in
  let head := msg_results_head ++ str_int (page + 1) ++ lit "/"
                ++ str_int (page_count total) ++ msg_results_tail in
  rows <- mapM render_row (enumerate (page_tracks tracks page) (start_index page + 1)) ;;
  let text := head ++ concat (map fst rows) in
  let keyboard := map snd rows in
  let nav := nav_buttons total page in
  Ok (text, keyboard ++ (match nav with [] => [] | _ :: _ => [nav] end)).

Definition send_results_page (w : World) (user : Z) (message_to_edit : option MsgRef)
  : World * Res unit :=
  let tracks := get (search_results (user_data_of w user)) [] in
  let page := get (page (user_data_of w user)) 0 in
  match tracks with
  | [] => (w, Ok tt)
  | _ :: _ =>
      match render_page tracks page with
      | Raise e => (w, Raise e)
      | Ok (text, keyboard) =>
          match message_to_edit with
          | Some m => (emit w (EditText m text (Some keyboard)), Ok tt)
          | None => (emit w (ReplyText text (Some keyboard)), Ok tt)
          end
      end
  end.

(* ===================================================================== *)
(** ** Handlers *)
(* ===================================================================== *)

Definition search_command (env : Env) (w : World) (user : Z) (args : list pystr)
  : World * Res unit :=
  match args with
  | [] => (emit w (ReplyText msg_usage None), Ok tt)
  | _ :: _ =>
      let query := join (lit " ") args in
      let w := emit w (ReplyText (msg_searching ++ query ++ lit "...") None) in
      let '(w', r) :=
        match search_youtube env query 20 with
        | Raise e => (w, Raise e)
        | Ok [] => (emit w (EditText StatusMsg msg_nothing_found None), Ok tt)
        | Ok tracks =>
            let ud := user_data_of w user in
            let w := set_user_data w user
                       {| search_results := Some tracks; page := page ud |} in
            let ud := user_data_of w user in
            let w := set_user_data w user
                       {| search_results := search_results ud; page := Some 0 |} in
            send_results_page w user (Some StatusMsg)
        end in
      match r with
      | Ok _ => (w', Ok tt)
      | Raise e => (emit w' (EditText StatusMsg (msg_error ++ exn_text e) None), Ok tt)
      end
  end.

Definition output_template (env : Env) (track_info : Track) : pystr :=
  lit "/tmp/" ++ clean_filename (tr_full_name track_info) ++ lit "_"
    ++ prefix (uuid4_hex env) 8 ++ lit ".%(ext)s".

Definition downloaded_file (env : Env) (track_info : Track) : pystr :=
  replace (lit ".%(ext)s") (lit ".mp3") (output_template env track_info).

(** Returns the path, or [None]; an exception of the engine is logged. *)
Definition download_track_as_mp3 (env : Env) (w : World) (video_id : pystr)
    (track_info : Track) : World * option pystr :=
  let url := lit "https://www.youtube.com/watch?v=" ++ video_id in
  let '(fs, info) := ydl_download env url (output_template env track_info) (files w) in
  let w := set_files w fs in
  match info with
  | Ok true =>
      if decide (downloaded_file env track_info ∈ files w)
      then (w, Some (downloaded_file env track_info))
      else (w, None)
  | Ok false => (w, None)
  | Raise _ => (w, None)
  end.

(** The [try] block of the download branch. *)
Definition download_and_send (env : Env) (w : World) (track : Track)
  : World * Res unit :=
  let '(w, file_path) := download_track_as_mp3 env w (tr_video_id track) track in
  match file_path with
  | Some path =>
      if decide (path ∈ files w) then
        match val_prefix (tr_title track) 200 with
        | Raise e => (w, Raise e)
        | Ok title =>
            match val_prefix (tr_artist track) 200 with
            | Raise e => (w, Raise e)
            | Ok performer =>
                match send_audio env with
                | Raise e => (w, Raise e)
                | Ok _ =>
                    let w := emit w (ReplyAudio
                               {| au_path := path;
                                  au_title := title;
                                  au_performer := performer;
                                  au_caption := caption_head ++ tr_full_name track;
                                  au_duration := tr_duration track |}) in
                    let w := set_files w (files w ∖ {[ path ]}) in
                    (emit w (DeleteMessage StatusMsg), Ok tt)
                end
            end
        end
      else (emit w (EditText StatusMsg msg_download_failed None), Ok tt)
  | None => (emit w (EditText StatusMsg msg_download_failed None), Ok tt)
  end.

(** The download branch once the track is resolved: the status message,
    the [try] block, and the [except] handler. *)
Definition download_job (env : Env) (w : World) (track : Track)
  : World * Res unit :=
  let w := emit w (ReplyText
             (msg_downloading ++ tr_full_name track ++ lit "...") None) in
  match download_and_send env w track with
  | (w, Ok _) => (w, Ok tt)
  | (w, Raise e) =>
      (emit w (EditText StatusMsg (msg_download_error ++ exn_text e) None), Ok tt)
  end.

(** [int(data.split('_')[1])] *)
Definition callback_arg (data : pystr) : Res Z :=
  field <- index (split 95%N data) 1 ;;
  int field.

Definition button_handler (env : Env) (w : World) (user : Z) (data : pystr)
  : World * Res unit :=
  let w := emit w AnswerCallback in
  if startswith (lit "page_") data then
    match callback_arg data with
    | Raise e => (w, Raise e)
    | Ok target =>
        let ud := user_data_of w user in
        let w := set_user_data w user
                   {| search_results := search_results ud; page := Some target |} in
        send_results_page w user (Some QueryMsg)
    end
  else if startswith (lit "dl_") data then
    match callback_arg data with
    | Raise e => (w, Raise e)
    | Ok idx =>
        let tracks := get (search_results (user_data_of w user)) [] in
        if (idx <? 0) || (idx >=? Z.of_nat (length tracks)) then
          (emit w (EditText QueryMsg msg_track_not_found None), Ok tt)
        else
          match index tracks (Z.to_nat idx) with
          | Raise e => (w, Raise e)
          | Ok track => download_job env w track
          end
    end
  else (w, Ok tt).

(** The greeting of [start]: 'Привет! Я музыкальный бот.' and the usage
    hint, five lines. *)
Definition msg_start : pystr :=
  [127925; 32; 1055; 1088; 1080; 1074; 1077; 1090; 33; 32; 1071; 32;
   1084; 1091; 1079; 1099; 1082; 1072; 1083; 1100; 1085; 1099; 1081; 32;
   1073; 1086; 1090; 46; 10; 10; 1055; 1088; 1086; 1089; 1090; 1086; 32;
   1086; 1090; 1087; 1088; 1072; 1074; 1100; 32; 1084; 1085; 1077; 32;
   1085; 1072; 1079; 1074; 1072; 1085; 1080; 1077; 32; 1087; 1077; 1089;
   1085; 1080; 32; 1080; 32; 1080; 1089; 1087; 1086; 1083; 1085; 1080;
   1090; 1077; 1083; 1103; 44; 32; 1085; 1072; 1087; 1088; 1080; 1084;
   1077; 1088; 58; 10; 96; 73; 109; 97; 103; 105; 110; 101; 32; 68; 114;
   97; 103; 111; 110; 115; 32; 45; 32; 66; 101; 108; 105; 101; 118; 101;
   114; 96; 10; 10; 1048; 1083; 1080; 32; 1080; 1089; 1087; 1086; 1083;
   1100; 1079; 1091; 1081; 32; 1082; 1086; 1084; 1072; 1085; 1076; 1091;
   32; 47; 115; 101; 97; 114; 99; 104; 32; 60; 1079; 1072; 1087; 1088;
   1086; 1089; 62]%N.

Definition start (w : World) : World * Res unit :=
  (emit w (ReplyText msg_start None), Ok tt).

(** An update as the transport hands it over. *)
Inductive Update :=
  | Command (name : pystr) (args : list pystr)
  | Callback (data : pystr).

(** The handlers [run_bot] registers: the commands start and search, and
    one handler for every callback query. *)
Definition dispatch (env : Env) (w : World) (user : Z) (u : Update)
  : World * Res unit :=
  match u with
  | Command name args =>
      if decide (name = lit "start") then start w
      else if decide (name = lit "search") then search_command env w user args
      else (w, Ok tt)
  | Callback data => button_handler env w user data
  end.

(* ===================================================================== *)
(** ** Notions the properties are stated with *)
(* ===================================================================== *)

(** The session of a user as the handlers read it. *)
Definition results_of (w : World) (user : Z) : list Track :=
  get (search_results (user_data_of w user)) [].

Definition page_of (w : World) (user : Z) : Z :=
  get (page (user_data_of w user)) 0.

(** The stored page has at least one item whenever there are results. *)
Definition session_invariant (w : World) (user : Z) : Prop :=
  results_of w user <> [] ->
  page_of w user * RESULTS_PER_PAGE < Z.of_nat (length (results_of w user)).

(** A page index the result set has. *)
Definition valid_page (total page : Z) : Prop := 0 <= page < page_count total.

(** A navigation update whose target is a page of the stored result set;
    every other update passes. *)
Definition navigation_in_range (w : World) (user : Z) (u : Update) : Prop :=
  match u with
  | Callback data =>
      startswith (lit "page_") data = true ->
      forall target, callback_arg data = Ok target ->
        valid_page (Z.of_nat (length (results_of w user))) target
  | Command _ _ => True
  end.

(** Events that put something in front of the user. *)
Definition user_visible (ev : Event) : bool :=
  match ev with
  | ReplyText _ _ | EditText _ _ _ | ReplyAudio _ => true
  | AnswerCallback | DeleteMessage _ => false
  end.

(** Lower-case hexadecimal digits, as [uuid4().hex] is made of. *)
Definition is_hex (c : codepoint) : bool :=
  is_digit c || ((97 <=? c)%N && (c <=? 102)%N).

(** A single path component: no separator, no NUL, not empty, not a dot
    entry. *)
Definition path_component (name : pystr) : bool :=
  negb (mem 47%N name) && negb (mem 0%N name) &&
  match name with
  | [] => false
  | [c] => negb (N.eqb c 46)
  | [c1; c2] => negb (N.eqb c1 46 && N.eqb c2 46)
  | _ => true
  end.

(** Duration strings of the two documented shapes.  Minutes may be one digit
    or more here, so that 3:25 counts as minutes and seconds; seconds, and
    minutes after hours, are two digits. *)
Definition all_digits (s : pystr) : bool :=
  forallb is_digit s && negb (length s =? 0)%nat.

Definition two_digits (s : pystr) : bool :=
  forallb is_digit s && (length s =? 2)%nat.

Definition form_mm_ss (s : pystr) : bool :=
  match split 58%N s with
  | [mm; ss] => all_digits mm && two_digits ss
  | _ => false
  end.

Definition form_h_mm_ss (s : pystr) : bool :=
  match split 58%N s with
  | [h; mm; ss] =>
      all_digits h && two_digits mm && two_digits ss
  | _ => false
  end.

End Bot.

(* ===================================================================== *)
(** ** Concrete sessions and collaborators *)
(* ===================================================================== *)

Module Scenario.
Import Py Bot.

(** Track number [n] of a catalog answer; it lasts n minutes and 5 seconds. *)
Definition track (n : Z) : Track :=
  {| tr_id := lit "id" ++ str_int n;
     tr_title := VStr (lit "Song " ++ str_int n);
     tr_artist := VStr (lit "Band");
     tr_full_name := lit "Band - Song " ++ str_int n;
     tr_source := lit "youtube";
     tr_duration := DInt (60 * n + 5);
     tr_video_id := lit "id" ++ str_int n |}.

Definition tracks20 : list Track := map (fun k => track (Z.of_nat k)) (seq 0 20).

Definition no_user_data : gmap Z UserData := ∅.

Definition empty_world : World :=
  {| user_data := no_user_data; files := ∅; outbox := [] |}.

(** User 1 has searched and looks at the first page of 20 results. *)
Definition world20 : World :=
  set_user_data empty_world 1
    {| search_results := Some tracks20; page := Some 0 |}.

Definition hex32 : pystr := lit "0123456789abcdef0123456789abcdef".

(** The engine finds nothing and downloads nothing. *)
Definition env_quiet : Env :=
  {| ydl_search := fun _ => Ok (Some (Some []));
     ydl_download := fun _ _ fs => (fs, Ok false);
     uuid4_hex := hex32;
     send_audio := Ok tt |}.

(** The engine cannot be reached. *)
Definition env_engine_down : Env :=
  {| ydl_search := fun _ => Raise (Exn EngineError (lit "network unreachable"));
     ydl_download := fun _ _ fs => (fs, Raise (Exn EngineError (lit "network unreachable")));
     uuid4_hex := hex32;
     send_audio := Ok tt |}.

(** The engine writes the mp3 where the template says. *)
Definition writes_mp3 (outtmpl : pystr) (fs : gset pystr) : gset pystr * Res bool :=
  ({[ replace (lit ".%(ext)s") (lit ".mp3") outtmpl ]} ∪ fs, Ok true).

(** Download works, delivery to the user does not. *)
Definition env_delivery_fails : Env :=
  {| ydl_search := fun _ => Ok (Some (Some []));
     ydl_download := fun _ => writes_mp3;
     uuid4_hex := hex32;
     send_audio := Raise (Exn TransportError (lit "Timed out")) |}.

(** The engine answers a search with three entries. *)
Definition entry (n : Z) : Entry :=
  {| e_id := Some (lit "id" ++ str_int n);
     e_title := Some (VStr (lit "Song " ++ str_int n));
     e_channel := Some (VStr (lit "Band"));
     e_uploader := None;
     e_duration := Some (DInt (60 * n + 5)) |}.

Definition env_three : Env :=
  {| ydl_search := fun _ => Ok (Some (Some [Some (entry 0); Some (entry 1); Some (entry 2)]));
     ydl_download := fun _ => writes_mp3;
     uuid4_hex := hex32;
     send_audio := Ok tt |}.

(** User 1 searched again and got three results; the keyboard of the
    first search, with its button to page 1, is still on the screen. *)
Definition world_after_new_search : World :=
  fst (search_command env_three world20 1 [lit "Believer"]).

(** A track whose display name has characters a file name must not have. *)
Definition track_acdc : Track :=
  {| tr_id := lit "acdc1";
     tr_title := VStr (lit "T.N.T. <live> 1/2");
     tr_artist := VStr (lit "AC/DC");
     tr_full_name := lit "AC/DC - T.N.T. <live> 1/2";
     tr_source := lit "youtube";
     tr_duration := DInt 214;
     tr_video_id := lit "acdc1" |}.

End Scenario.

Module MoreScenario.
Import Py Bot.

(** An entry whose title key is there with the value [None], as the engine
    gives for some videos, and the track the search makes of it. *)
Definition entry_untitled : Entry :=
  {| e_id := Some (lit "id7");
     e_title := Some VNone;
     e_channel := Some (VStr (lit "Band"));
     e_uploader := None;
     e_duration := Some DNone |}.

Definition track_untitled : Track :=
  {| tr_id := lit "id7";
     tr_title := VNone;
     tr_artist := VStr (lit "Band");
     tr_full_name := lit "Band - None";
     tr_source := lit "youtube";
     tr_duration := DNone;
     tr_video_id := lit "id7" |}.

(** An entry without the id key. *)
Definition entry_without_id : Entry :=
  {| e_id := None;
     e_title := Some (VStr (lit "Song"));
     e_channel := Some (VStr (lit "Band"));
     e_uploader := None;
     e_duration := Some (DInt 100) |}.

(** The engine answers with a complete entry, a falsy one, and one that
    lacks the id. *)
Definition env_broken_entry : Env :=
  {| ydl_search := fun _ =>
       Ok (Some (Some [Some (Scenario.entry 0); None; Some entry_without_id]));
     ydl_download := fun _ => Scenario.writes_mp3;
     uuid4_hex := Scenario.hex32;
     send_audio := Ok tt |}.

(** The engine answers with a falsy entry between two complete ones. *)
Definition env_gap : Env :=
  {| ydl_search := fun _ =>
       Ok (Some (Some [Some (Scenario.entry 0); None; Some (Scenario.entry 1)]));
     ydl_download := fun _ => Scenario.writes_mp3;
     uuid4_hex := Scenario.hex32;
     send_audio := Ok tt |}.

(** A second job for the same track draws another random suffix. *)
Definition env_other_suffix : Env :=
  {| ydl_search := fun _ => Ok (Some (Some []));
     ydl_download := fun _ => Scenario.writes_mp3;
     uuid4_hex := lit "fedcba9876543210fedcba9876543210";
     send_audio := Ok tt |}.

(** User 1 holds the 20 results and looks at the second page. *)
Definition world20_page1 : World :=
  set_user_data Scenario.empty_world 1
    {| search_results := Some Scenario.tracks20; page := Some 1 |}.

(** A track whose display name has a NUL character in it. *)
Definition track_nul : Track :=
  {| tr_id := lit "id8";
     tr_title := VStr (lit "a" ++ [0%N] ++ lit "b");
     tr_artist := VStr (lit "Band");
     tr_full_name := lit "Band - a" ++ [0%N] ++ lit "b";
     tr_source := lit "youtube";
     tr_duration := DInt 60;
     tr_video_id := lit "id8" |}.

End MoreScenario.

(* ===================================================================== *)
(** ** The handlers with a transport that can refuse a call *)
(* ===================================================================== *)

(** In [Bot] every call of the transport but [reply_audio] goes through.
    Here each call may raise: the handlers are the same code, written over a
    state-and-exception monad, and agree with those of [Bot] when the
    transport accepts everything. *)
Module Fallible.
Import Py Bot.

(** The engine and the audio delivery as before, and for every other call
    of the transport (reply, edit, delete, answer) whether it goes through,
    given what has been delivered so far. *)
Record Env := {
  engine : Bot.Env;
  transport : list Event -> Event -> Res unit
}.

(** A statement: it changes the world and returns or raises.  What it did
    before raising stays done. *)
Definition M (A : Type) : Type := World -> World * Res A.

Definition ret {A} (a : A) : M A := fun w => (w, Ok a).

Definition mbind {A B} (m : M A) (k : A -> M B) : M B :=
  fun w =>
    match m w with
    | (w', Ok a) => k a w'
    | (w', Raise e) => (w', Raise e)
    end.

(** An expression that may raise. *)
Definition lift {A} (r : Res A) : M A := fun w => (w, r).

Definition modify (f : World -> World) : M unit := fun w => (f w, Ok tt).

(** [try: body / except Exception as e: handler(e)] *)
Definition try_except {A} (body : M A) (handler : exn -> M A) : M A :=
  fun w =>
    match body w with
    | (w', Ok a) => (w', Ok a)
    | (w', Raise e) => handler e w'
    end.

Notation "x <~ m ;; k" := (mbind m (fun x => k))
  (at level 100, m at next level, right associativity).

(** One call of the transport: delivered and recorded, or refused. *)
Definition send (env : Env) (ev : Event) : M unit :=
  fun w =>
    let answer :=
      match ev with
      | ReplyAudio _ => send_audio (engine env)
      | _ => transport env (outbox w) ev
      end in
    match answer with
    | Ok _ => (emit w ev, Ok tt)
    | Raise e => (w, Raise e)
    end.

Definition start (env : Env) : M unit := send env (ReplyText msg_start None).

Definition send_results_page (env : Env) (user : Z) (message_to_edit : option MsgRef)
  : M unit :=
  fun w =>
    let tracks := get (search_results (user_data_of w user)) [] in
    let page := get (page (user_data_of w user)) 0 in
    match tracks with
    | [] => (w, Ok tt)
    | _ :: _ =>
        (rendered <~ lift (render_page tracks page) ;;
         match message_to_edit with
         | Some m => send env (EditText m (fst rendered) (Some (snd rendered)))
         | None => send env (ReplyText (fst rendered) (Some (snd rendered)))
         end) w
    end.

Definition search_command (env : Env) (user : Z) (args : list pystr) : M unit :=
  match args with
  | [] => send env (ReplyText msg_usage None)
  | _ :: _ =>
      let query := join (lit " ") args in
      _ <~ send env (ReplyText (msg_searching ++ query ++ lit "...") None) ;;
      try_except
        (tracks <~ lift (search_youtube (engine env) query 20) ;;
         match tracks with
         | [] => send env (EditText StatusMsg msg_nothing_found None)
         | _ :: _ =>
             _ <~ modify (fun w => set_user_data w user
                            {| search_results := Some tracks;
                               page := page (user_data_of w user) |}) ;;
             _ <~ modify (fun w => set_user_data w user
                            {| search_results := search_results (user_data_of w user);
                               page := Some 0 |}) ;;
             send_results_page env user (Some StatusMsg)
         end)
        (fun e => send env (EditText StatusMsg (msg_error ++ exn_text e) None))
  end.

Definition download_track_as_mp3 (env : Env) (video_id : pystr) (track_info : Track)
  : M (option pystr) :=
  fun w =>
    (fst (Bot.download_track_as_mp3 (engine env) w video_id track_info),
     Ok (snd (Bot.download_track_as_mp3 (engine env) w video_id track_info))).

(** The [try] block of the download branch. *)
Definition download_and_send (env : Env) (track : Track) : M unit :=
  file_path <~ download_track_as_mp3 env (tr_video_id track) track ;;
  fun w =>
    match file_path with
    | Some path =>
        if decide (path ∈ files w) then
          (title <~ lift (val_prefix (tr_title track) 200) ;;
           performer <~ lift (val_prefix (tr_artist track) 200) ;;
           _ <~ send env (ReplyAudio
                           {| au_path := path;
                              au_title := title;
                              au_performer := performer;
                              au_caption := caption_head ++ tr_full_name track;
                              au_duration := tr_duration track |}) ;;
           _ <~ modify (fun w => set_files w (files w ∖ {[ path ]})) ;;
           send env (DeleteMessage StatusMsg)) w
        else send env (EditText StatusMsg msg_download_failed None) w
    | None => send env (EditText StatusMsg msg_download_failed None) w
    end.

Definition download_job (env : Env) (track : Track) : M unit :=
  _ <~ send env (ReplyText (msg_downloading ++ tr_full_name track ++ lit "...") None) ;;
  try_except
    (download_and_send env track)
    (fun e => send env (EditText StatusMsg (msg_download_error ++ exn_text e) None)).

Definition button_handler (env : Env) (user : Z) (data : pystr) : M unit :=
  _ <~ send env AnswerCallback ;;
  if startswith (lit "page_") data then
    target <~ lift (callback_arg data) ;;
    _ <~ modify (fun w => set_user_data w user
                   {| search_results := search_results (user_data_of w user);
                      page := Some target |}) ;;
    send_results_page env user (Some QueryMsg)
  else if startswith (lit "dl_") data then
    idx <~ lift (callback_arg data) ;;
    fun w =>
      let tracks := get (search_results (user_data_of w user)) [] in
      if (idx <? 0) || (idx >=? Z.of_nat (length tracks)) then
        send env (EditText QueryMsg msg_track_not_found None) w
      else
        (track <~ lift (index tracks (Z.to_nat idx)) ;;
         download_job env track) w
  else ret tt.

Definition dispatch (env : Env) (user : Z) (u : Update) : M unit :=
  match u with
  | Command name args =>
      if decide (name = lit "start") then start env
      else if decide (name = lit "search") then search_command env user args
      else ret tt
  | Callback data => button_handler env user data
  end.

(** A transport that accepts every call. *)
Definition accepts_all (env : Env) : Prop :=
  forall delivered ev, transport env delivered ev = Ok tt.

(** Concrete transports: one refuses to delete messages, one refuses edits
    that carry a keyboard. *)
Definition refuses_delete : list Event -> Event -> Res unit :=
  fun _ ev =>
    match ev with
    | DeleteMessage _ => Raise (Exn TransportError (lit "Message can't be deleted"))
    | _ => Ok tt
    end.

Definition refuses_keyboards : list Event -> Event -> Res unit :=
  fun _ ev =>
    match ev with
    | EditText _ _ (Some _) => Raise (Exn TransportError (lit "Button_data_invalid"))
    | _ => Ok tt
    end.

(** The engine downloads and the audio goes out, but the transport does not
    delete messages. *)
Definition env_refuses_delete : Env :=
  {| engine := Scenario.env_three; transport := refuses_delete |}.

(** The engine finds three tracks, but the transport does not take an edit
    with a keyboard. *)
Definition env_refuses_keyboards : Env :=
  {| engine := Scenario.env_three; transport := refuses_keyboards |}.

End Fallible.

(* ===================================================================== *)
(** ** Facts about the Python primitives *)
(* ===================================================================== *)

Module PyFacts.
Import Py.

(** *** The primitives on small inputs *)

Example str_int_12345 : str_int 12345 = lit "12345".
Proof. reflexivity. Qed.

Example str_int_minus_42 : str_int (-42) = lit "-42".
Proof. reflexivity. Qed.

Example int_padded : int (lit " 12 ") = Ok 12.
Proof. reflexivity. Qed.

Example int_signed : int (lit "-5") = Ok (-5) /\ int (lit "+5") = Ok 5.
Proof. split; reflexivity. Qed.

Example int_rejects :
  int (lit "") = Raise (invalid_literal (lit ""))
  /\ int (lit "1a") = Raise (invalid_literal (lit "1a"))
  /\ int (lit "-") = Raise (invalid_literal (lit "-")).
Proof. repeat split; reflexivity. Qed.

Example split_page : split 95%N (lit "page_12") = [lit "page"; lit "12"].
Proof. reflexivity. Qed.

Example split_empty_field : split 95%N (lit "dl_") = [lit "dl"; []].
Proof. reflexivity. Qed.

Example slice_negative :
  slice [1; 2; 3; 4; 5] (-2) 5 = [4; 5]
  /\ slice [1; 2; 3; 4; 5] (-10) 0 = []
  /\ slice [1; 2; 3; 4; 5] (-4) (-2) = [2; 3]
  /\ slice [1; 2; 3; 4; 5] 3 10 = [4; 5].
Proof. repeat split; reflexivity. Qed.

Example lstrip_set : lstrip (lit "0:") (lit "0:00:05") = lit "5".
Proof. reflexivity. Qed.

Example replace_all :
  replace (lit ".%(ext)s") (lit ".mp3") (lit "/tmp/a.%(ext)s_b.%(ext)s")
  = lit "/tmp/a.mp3_b.mp3".
Proof. reflexivity. Qed.

Lemma bind_ok {A B} (r : Res A) (k : A -> Res B) (b : B) :
  bind r k = Ok b -> exists a, r = Ok a /\ k a = Ok b.
Proof. destruct r as [a|e]; simpl; intros H; [eauto | discriminate]. Qed.

Lemma mem_In (c : codepoint) (cs : pystr) : mem c cs = true <-> In c cs.
Proof.
  unfold mem. rewrite existsb_exists. split.
  - intros (x & Hx & Heq). apply N.eqb_eq in Heq. now subst.
  - intros H. exists c. split; [assumption | apply N.eqb_refl].
Qed.

Lemma mem_false (c : codepoint) (cs : pystr) : mem c cs = false <-> ~ In c cs.
Proof.
  rewrite <- mem_In. destruct (mem c cs); split; intros H; congruence.
Qed.

(** *** Decimal numerals *)

Lemma is_digit_digit_char (d : Z) :
  0 <= d < 10 -> is_digit (digit_char d) = true /\ digit_val (digit_char d) = d.
Proof.
  intros Hd. unfold is_digit, digit_char, digit_val. split.
  - apply andb_true_intro. split; apply N.leb_le; lia.
  - lia.
Qed.

Lemma parse_digits_app (s1 s2 : pystr) (acc : Z) :
  parse_digits acc (s1 ++ s2) =
  match parse_digits acc s1 with
  | Some a => parse_digits a s2
  | None => None
  end.
Proof.
  revert acc. induction s1 as [|c s1 IH]; intros acc; simpl; [reflexivity|].
  destruct (is_digit c); [apply IH | reflexivity].
Qed.

Lemma digits_of_S (f : nat) (n : Z) :
  digits_of (S f) n =
  if n <? 10 then [digit_char n]
  else digits_of f (n / 10) ++ [digit_char (n mod 10)].
Proof. reflexivity. Qed.

Lemma digits_of_spec (fuel : nat) : forall n,
  0 <= n < 10 ^ Z.of_nat (S fuel) ->
  parse_digits 0 (digits_of (S fuel) n) = Some n
  /\ Forall (fun c => is_digit c = true) (digits_of (S fuel) n)
  /\ digits_of (S fuel) n <> [].
Proof.
  induction fuel as [|f IH]; intros n Hn;
    rewrite digits_of_S; destruct (Z.ltb_spec n 10) as [Hlt|Hge].
  1, 3: destruct (is_digit_digit_char n) as [Hd Hv]; [lia|];
    cbn [parse_digits]; rewrite Hd, Hv; split; [|split];
    [ f_equal; lia | repeat constructor; exact Hd | discriminate ].
  - change (Z.of_nat 1) with 1 in Hn. rewrite Z.pow_1_r in Hn. lia.
  - assert (Hq : 0 <= n / 10 < 10 ^ Z.of_nat (S f)).
    { split; [apply Z.div_pos; lia|].
      apply Z.div_lt_upper_bound; [lia|].
      rewrite (Nat2Z.inj_succ (S f)), Z.pow_succ_r in Hn; lia. }
    destruct (IH _ Hq) as (Hp & Hall & Hne).
    destruct (is_digit_digit_char (n mod 10)) as [Hd Hv].
    { apply Z.mod_pos_bound; lia. }
    split; [|split].
    + rewrite parse_digits_app, Hp. cbn [parse_digits]. rewrite Hd, Hv.
      f_equal. pose proof (Z.div_mod n 10). lia.
    + apply Forall_app. split; [exact Hall | repeat constructor; exact Hd].
    + intros Habs. apply app_eq_nil in Habs. destruct Habs as [_ Habs].
      discriminate.
Qed.

Lemma fuel_enough (n : Z) :
  0 <= n -> n < 10 ^ Z.of_nat (S (Z.to_nat (Z.log2 n))).
Proof.
  intros Hn. rewrite Nat2Z.inj_succ, Z2Nat.id by apply Z.log2_nonneg.
  destruct (Z.eq_dec n 0) as [->|Hnz]; [reflexivity|].
  assert (H2 : n < 2 ^ Z.succ (Z.log2 n)) by (apply Z.log2_spec; lia).
  assert (H10 : 2 ^ Z.succ (Z.log2 n) <= 10 ^ Z.succ (Z.log2 n)).
  { apply Z.pow_le_mono_l. lia. }
  lia.
Qed.

Lemma str_nonneg_spec (n : Z) :
  0 <= n ->
  parse_digits 0 (str_nonneg n) = Some n
  /\ Forall (fun c => is_digit c = true) (str_nonneg n)
  /\ str_nonneg n <> [].
Proof.
  intros Hn. apply digits_of_spec. split; [assumption | now apply fuel_enough].
Qed.

Lemma digit_not_whitespace (c : codepoint) :
  is_digit c = true -> mem c whitespace = false.
Proof.
  unfold is_digit. intros H. apply andb_prop in H. destruct H as [H1 H2].
  apply N.leb_le in H1. apply mem_false. unfold whitespace. simpl. lia.
Qed.

Lemma lstrip_head (chars : pystr) (c : codepoint) (s : pystr) :
  mem c chars = false -> lstrip chars (c :: s) = c :: s.
Proof. intros H. simpl. now rewrite H. Qed.

(** A non-empty string whose first and last characters are not in [chars]
    is left alone by both strips. *)
Lemma strip_id (chars s : pystr) (c d : codepoint) (mid : pystr) :
  s = c :: mid ++ [d] \/ (s = [c] /\ d = c) ->
  mem c chars = false -> mem d chars = false ->
  rstrip chars (lstrip chars s) = s.
Proof.
  intros Hs Hc Hd. unfold rstrip. destruct Hs as [-> | [-> ->]].
  - rewrite lstrip_head by assumption.
    assert (Hrev : rev (c :: mid ++ [d]) = d :: rev (c :: mid)).
    { change (c :: mid ++ [d]) with ((c :: mid) ++ [d]).
      now rewrite rev_app_distr. }
    rewrite Hrev, lstrip_head by assumption.
    rewrite <- Hrev. apply rev_involutive.
  - rewrite lstrip_head by assumption. simpl. now rewrite Hd.
Qed.

Lemma ends_cases (c : codepoint) (s : pystr) :
  exists d mid, (c :: s = c :: mid ++ [d] \/ (c :: s = [c] /\ d = c))
                /\ In d (c :: s).
Proof.
  destruct s as [|x s'].
  - exists c, []. split; [right; split; reflexivity | now left].
  - destruct (@exists_last _ (x :: s')) as (mid & d & Heq); [discriminate|].
    rewrite Heq. exists d, mid. split; [now left|].
    right. apply in_or_app. right. now left.
Qed.

Lemma is_digit_range (c : codepoint) :
  is_digit c = true -> (48 <= c <= 57)%N.
Proof.
  unfold is_digit. intros H. apply andb_prop in H. destruct H as [H1 H2].
  apply N.leb_le in H1. apply N.leb_le in H2. lia.
Qed.

Lemma parse_unsigned_str_nonneg (n : Z) :
  0 <= n -> parse_unsigned (str_nonneg n) = Some n.
Proof.
  intros Hn. destruct (str_nonneg_spec n Hn) as (Hp & _ & Hne).
  unfold parse_unsigned. destruct (str_nonneg n); [congruence | exact Hp].
Qed.

Lemma str_int_chars (z : Z) : Forall numeral_char (str_int z) /\ str_int z <> [].
Proof.
  unfold str_int. destruct (Z.ltb_spec z 0) as [Hneg|Hpos].
  - destruct (str_nonneg_spec (- z)) as (_ & Hall & _); [lia|].
    split; [|discriminate]. change (lit "-") with [45%N]. simpl.
    constructor; [now right|].
    eapply Forall_impl; [exact Hall|]. intros c Hc. now left.
  - destruct (str_nonneg_spec z Hpos) as (_ & Hall & Hne).
    split; [|exact Hne].
    eapply Forall_impl; [exact Hall|]. intros c Hc. now left.
Qed.

Lemma numeral_char_not_whitespace (c : codepoint) :
  numeral_char c -> mem c whitespace = false.
Proof.
  intros [Hd | ->]; [now apply digit_not_whitespace | reflexivity].
Qed.

Lemma to_ascii_below_del (c : codepoint) : (c < 127)%N -> to_ascii c = c.
Proof. intros H. unfold to_ascii. now destruct (N.ltb_spec c 127); [|lia]. Qed.

Lemma map_to_ascii_id (s : pystr) :
  Forall (fun c => (c < 127)%N) s -> map to_ascii s = s.
Proof.
  induction 1 as [|c s Hc _ IH]; [reflexivity|].
  cbn [map]. now rewrite to_ascii_below_del, IH.
Qed.

Lemma numeral_char_ascii (c : codepoint) : numeral_char c -> (c < 127)%N.
Proof.
  intros [Hd | ->]; [apply is_digit_range in Hd; lia | reflexivity].
Qed.

(** [int(str(z)) == z] *)
Lemma int_str_int (z : Z) : int (str_int z) = Ok z.
Proof.
  destruct (str_int_chars z) as [Hall Hne].
  assert (Hascii : map to_ascii (str_int z) = str_int z).
  { apply map_to_ascii_id. eapply Forall_impl; [exact Hall|].
    intros c Hc. now apply numeral_char_ascii. }
  assert (Hws : forall c, In c (str_int z) -> mem c whitespace = false).
  { intros c Hc. apply numeral_char_not_whitespace.
    rewrite List.Forall_forall in Hall. now apply Hall. }
  unfold int. rewrite Hascii.
  assert (Hbody : rstrip whitespace (lstrip whitespace (str_int z)) = str_int z).
  { destruct (str_int z) as [|c s] eqn:E; [congruence|].
    destruct (ends_cases c s) as (d & mid & Hshape & Hin).
    eapply strip_id; [exact Hshape | apply Hws; now left | now apply Hws]. }
  rewrite Hbody. clear Hbody Hws Hall Hne.
  unfold str_int. destruct (Z.ltb_spec z 0) as [Hneg|Hpos].
  - change (lit "-") with [45%N]. cbn [app]. rewrite N.eqb_refl.
    rewrite parse_unsigned_str_nonneg by lia. simpl. f_equal. lia.
  - pose proof (parse_unsigned_str_nonneg z Hpos) as Hp.
    destruct (str_nonneg_spec z Hpos) as (_ & Hall & _).
    destruct (str_nonneg z) as [|c s]; [discriminate|].
    inversion Hall as [|? ? Hc _]; subst.
    apply is_digit_range in Hc.
    destruct (N.eqb_spec c 45) as [->|_]; [lia|].
    destruct (N.eqb_spec c 43) as [->|_]; [lia|].
    now rewrite Hp.
Qed.

Lemma str_int_inj (a b : Z) : str_int a = str_int b -> a = b.
Proof.
  intros H. pose proof (int_str_int a) as Ha. rewrite H, int_str_int in Ha.
  congruence.
Qed.

(** *** Splitting *)

Lemma split_no_sep (sep : codepoint) (s : pystr) :
  ~ In sep s -> split sep s = [s].
Proof.
  induction s as [|c s IH]; intros Hn; [reflexivity|].
  simpl. destruct (N.eqb_spec c sep) as [->|Hne].
  - exfalso. apply Hn. now left.
  - rewrite IH; [reflexivity|]. intros Hin. apply Hn. now right.
Qed.

Lemma split_cons_sep (sep : codepoint) (s : pystr) :
  split sep (sep :: s) = [] :: split sep s.
Proof. simpl. now rewrite N.eqb_refl. Qed.

Lemma split_cons_other (sep c : codepoint) (s w : pystr) (ws : list pystr) :
  c <> sep -> split sep s = w :: ws -> split sep (c :: s) = (c :: w) :: ws.
Proof.
  intros Hne Hs. simpl. rewrite Hs.
  now destruct (N.eqb_spec c sep).
Qed.

Lemma str_int_no_underscore (z : Z) : ~ In 95%N (str_int z).
Proof.
  intros Hin. destruct (str_int_chars z) as [Hall _].
  rewrite List.Forall_forall in Hall. destruct (Hall _ Hin) as [Hd | Heq].
  - apply is_digit_range in Hd. lia.
  - discriminate.
Qed.

(** *** Prefixes, replacement, slices *)

Lemma startswith_app (p s : pystr) :
  startswith p s = true -> s = p ++ skipn (length p) s.
Proof.
  revert s. induction p as [|a p IH]; intros s H; [reflexivity|].
  destruct s as [|b s]; [discriminate|]. simpl in H.
  apply andb_prop in H. destruct H as [Hab Hps].
  apply N.eqb_eq in Hab. subst b. simpl. f_equal. now apply IH.
Qed.

Lemma In_skipn {A} (n : nat) (l : list A) (x : A) : In x (skipn n l) -> In x l.
Proof.
  intros H. rewrite <- (firstn_skipn n l). apply in_or_app. now right.
Qed.

Lemma In_firstn {A} (n : nat) (l : list A) (x : A) : In x (firstn n l) -> In x l.
Proof.
  intros H. rewrite <- (firstn_skipn n l). apply in_or_app. now left.
Qed.

Lemma In_slice {A} (l : list A) (a b : Z) (x : A) : In x (slice l a b) -> In x l.
Proof. unfold slice. intros H. eapply In_skipn, In_firstn, H. Qed.

Section Replace.
Variables old new : pystr.
Hypothesis old_nonempty : old <> [].

Lemma skip_old_shorter (s : pystr) (f : nat) :
  (length s <= S f)%nat -> (length (skipn (length old) s) <= f)%nat.
Proof using old_nonempty.
  intros H. rewrite length_skipn. destruct old; [congruence|]. simpl. lia.
Qed.

(** Replacement brings in no character that is not in the input or in [new]. *)
Lemma replace_fuel_chars (fuel : nat) : forall s c,
  (length s <= fuel)%nat ->
  In c (replace_fuel fuel old new s) -> In c s \/ In c new.
Proof using old_nonempty.
  induction fuel as [|f IH]; intros s c Hlen Hin; [now left|].
  destruct s as [|x s']; [now left|]. cbn [replace_fuel] in Hin.
  destruct (startswith old (x :: s')) eqn:E.
  - apply in_app_or in Hin. destruct Hin as [Hin|Hin]; [now right|].
    apply IH in Hin; [|now apply skip_old_shorter].
    destruct Hin as [Hin|Hin]; [left; eapply In_skipn, Hin | now right].
  - destruct Hin as [->|Hin]; [left; now left|].
    apply IH in Hin; [|simpl in Hlen; lia].
    destruct Hin as [Hin|Hin]; [left; now right | now right].
Qed.

(** A character that does not occur in [old] survives replacement. *)
Lemma replace_fuel_keeps (fuel : nat) : forall s c,
  (length s <= fuel)%nat -> ~ In c old ->
  In c s -> In c (replace_fuel fuel old new s).
Proof using old_nonempty.
  induction fuel as [|f IH]; intros s c Hlen Hold Hin; [exact Hin|].
  destruct s as [|x s']; [destruct Hin|]. cbn [replace_fuel].
  destruct (startswith old (x :: s')) eqn:E.
  - apply in_or_app. right. apply IH; [now apply skip_old_shorter | exact Hold |].
    rewrite (startswith_app _ _ E) in Hin. apply in_app_or in Hin.
    destruct Hin as [Hin|Hin]; [contradiction | exact Hin].
  - destruct Hin as [->|Hin]; [now left|]. right.
    apply IH; [simpl in Hlen; lia | exact Hold | exact Hin].
Qed.

Lemma replace_chars (s : pystr) (c : codepoint) :
  In c (replace old new s) -> In c s \/ In c new.
Proof using old_nonempty. apply replace_fuel_chars. reflexivity. Qed.

Lemma replace_keeps (s : pystr) (c : codepoint) :
  ~ In c old -> In c s -> In c (replace old new s).
Proof using old_nonempty. apply replace_fuel_keeps. reflexivity. Qed.

(** The fuel [replace] starts with is enough: more fuel changes nothing. *)
Lemma replace_fuel_enough (f1 : nat) : forall f2 s,
  (length s <= f1)%nat -> (length s <= f2)%nat ->
  replace_fuel f1 old new s = replace_fuel f2 old new s.
Proof using old_nonempty.
  induction f1 as [|f1 IH]; intros f2 s H1 H2.
  - destruct s; [|simpl in H1; lia]. now destruct f2.
  - destruct f2 as [|f2]; [destruct s; [reflexivity | simpl in H2; lia]|].
    destruct s as [|x s']; [reflexivity|]. cbn [replace_fuel].
    destruct (startswith old (x :: s')).
    + f_equal. apply IH; now apply skip_old_shorter.
    + f_equal. apply IH; simpl in H1, H2; lia.
Qed.

(** A first character that does not start [old] is copied. *)
Lemma replace_cons (c : codepoint) (s : pystr) :
  startswith old (c :: s) = false ->
  replace old new (c :: s) = c :: replace old new s.
Proof using Type. intros H. unfold replace. simpl length. cbn [replace_fuel]. now rewrite H. Qed.
End Replace.

(** *** Substitution of a character class by nothing is a filter *)

Lemma re_sub_class_filter (class s : pystr) :
  re_sub_class class [] s = List.filter (fun c => negb (mem c class)) s.
Proof.
  unfold re_sub_class. induction s as [|c s IH]; [reflexivity|].
  simpl. rewrite IH. now destruct (mem c class).
Qed.

(** *** Loops with exceptions, enumeration, lookups *)

Lemma lookup_map {A B} (f : A -> B) (l : list A) (k : nat) :
  map f l !! k = f <$> (l !! k).
Proof.
  revert k. induction l as [|a l IH]; intros [|k]; simpl; auto.
Qed.

Lemma mapM_lookup {A B} (f : A -> Res B) (l : list A) (rs : list B) (k : nat) (a : A) :
  mapM f l = Ok rs -> l !! k = Some a ->
  exists r, rs !! k = Some r /\ f a = Ok r.
Proof.
  revert rs k. induction l as [|x l IH]; intros rs k HM Hk; [discriminate|].
  simpl in HM. apply bind_ok in HM. destruct HM as (b & Hb & HM).
  apply bind_ok in HM. destruct HM as (bs & Hbs & HM).
  injection HM as <-. destruct k as [|k]; simpl in Hk |- *.
  - injection Hk as ->. eauto.
  - eapply IH; eauto.
Qed.

Lemma enumerate_lookup {A} (l : list A) (start : Z) (k : nat) :
  enumerate l start !! k = (fun a => (start + Z.of_nat k, a)) <$> (l !! k).
Proof.
  revert start k. induction l as [|x l IH]; intros start [|k]; simpl; auto.
  - do 2 f_equal. lia.
  - rewrite IH. destruct (l !! k); simpl; [|reflexivity]. do 2 f_equal. lia.
Qed.

(** Items of a slice with non-negative bounds sit at their offset. *)
Lemma slice_lookup {A} (l : list A) (a b : Z) (k : nat) :
  0 <= a -> 0 <= b -> (a + Z.of_nat k < b) ->
  slice l a b !! k = l !! (Z.to_nat a + k)%nat.
Proof.
  intros Ha Hb Hk. unfold slice, clamp_index.
  destruct (Z.ltb_spec a 0); [lia|]. destruct (Z.ltb_spec b 0); [lia|].
  set (len := Z.of_nat (length l)).
  destruct (Z_lt_le_dec (a + Z.of_nat k) len) as [Hin|Hout].
  - rewrite lookup_take_lt by lia. rewrite lookup_drop. f_equal. lia.
  - rewrite (lookup_ge_None_2 l) by (subst len; lia).
    apply lookup_ge_None_2. rewrite length_take, length_drop. subst len. lia.
Qed.

End PyFacts.




(* ===================================================================== *)
(** ** Facts about the bot *)
(* ===================================================================== *)

Module BotFacts.
Import Py Bot PyFacts.

(** *** The helpers on small inputs *)

Example timedelta_one_day : str_timedelta (1, 3600) = lit "1 day, 1:00:00".
Proof. reflexivity. Qed.

Example format_duration_hour : format_duration (DInt 3600) = Ok (lit "1:00:00").
Proof. reflexivity. Qed.

Example format_duration_float :
  format_duration (DFloat (427 # 2)) = Ok (lit "3:33")
  /\ format_duration (DFloat (1 # 2)) = Ok [].
Proof. split; reflexivity. Qed.

Example format_duration_negative :
  format_duration (DInt (-5)) = Ok (lit "-1 day, 23:59:55").
Proof. reflexivity. Qed.

Example clean_filename_acdc :
  clean_filename (lit "AC/DC - T.N.T. <live> 1/2") = lit "ACDC - T.N.T. live 12".
Proof. reflexivity. Qed.

Example page_count_values :
  page_count 1 = 1 /\ page_count 10 = 1 /\ page_count 11 = 2 /\ page_count 20 = 2.
Proof. repeat split; reflexivity. Qed.

(** *** File names *)

Lemma clean_filename_filter (title : pystr) :
  clean_filename title = List.filter (fun c => negb (mem c forbidden_chars)) title.
Proof. apply re_sub_class_filter. Qed.

Lemma clean_filename_chars (title : pystr) (c : codepoint) :
  In c (clean_filename title) -> In c title /\ mem c forbidden_chars = false.
Proof.
  rewrite clean_filename_filter, filter_In. intros [Hin Hc].
  split; [exact Hin | now apply negb_true_iff].
Qed.

Lemma is_hex_not_slash (c : codepoint) : is_hex c = true -> c <> 47%N.
Proof.
  unfold is_hex, is_digit. intros H ->. vm_compute in H. discriminate.
Qed.

Lemma ext_pattern_nonempty : lit ".%(ext)s" <> [].
Proof. discriminate. Qed.

(** The path starts with the directory; the rest is the replaced file name. *)
Lemma downloaded_file_shape (env : Env) (track : Track) :
  downloaded_file env track =
  lit "/tmp/" ++
  replace (lit ".%(ext)s") (lit ".mp3")
    (clean_filename (tr_full_name track) ++ lit "_"
       ++ prefix (uuid4_hex env) 8 ++ lit ".%(ext)s").
Proof.
  unfold downloaded_file, output_template.
  change (lit "/tmp/") with [47; 116; 109; 112; 47]%N. cbn [app].
  now rewrite !replace_cons by reflexivity.
Qed.

Lemma path_component_intro (name : pystr) :
  ~ In 47%N name -> ~ In 0%N name -> In 95%N name -> path_component name = true.
Proof.
  intros Hslash Hnul Hus. unfold path_component.
  apply mem_false in Hslash. apply mem_false in Hnul. rewrite Hslash, Hnul.
  cbn [negb andb].
  destruct name as [|c1 [|c2 [|c3 rest]]]; [destruct Hus | | | reflexivity].
  - destruct Hus as [->|[]]. reflexivity.
  - destruct Hus as [->|[->|[]]]; [reflexivity|].
    now rewrite andb_false_r.
Qed.

Lemma is_hex_not_nul (c : codepoint) : is_hex c = true -> c <> 0%N.
Proof. intros H ->. vm_compute in H. discriminate. Qed.

(** *** Paging arithmetic *)

Lemma has_next_spec (total page : Z) :
  has_next total page = (page <? page_count total - 1).
Proof.
  unfold has_next, end_index, start_index, page_count, RESULTS_PER_PAGE.
  destruct (Z.ltb_spec (Z.min (page * 10 + 10) total) total);
    destruct (Z.ltb_spec page ((total - 1) / 10 + 1 - 1));
    try reflexivity; exfalso; Z.div_mod_to_equations; lia.
Qed.

Lemma has_prev_spec (page : Z) : has_prev page = (0 <? page).
Proof. unfold has_prev. now rewrite Z.gtb_ltb. Qed.

(** The page total is the ceiling of total / page size. *)
Lemma page_count_ceiling (total : Z) :
  0 < total ->
  (page_count total - 1) * RESULTS_PER_PAGE < total
  /\ total <= page_count total * RESULTS_PER_PAGE.
Proof.
  unfold page_count, RESULTS_PER_PAGE. intros H.
  Z.div_mod_to_equations. lia.
Qed.

Lemma valid_page_start (total page : Z) :
  valid_page total page <-> 0 <= page /\ start_index page < total.
Proof.
  unfold valid_page, start_index, page_count, RESULTS_PER_PAGE.
  split; intros H; Z.div_mod_to_equations; lia.
Qed.

(** *** The session store under the handlers *)

Lemma user_data_of_set (w : World) (user : Z) (ud : UserData) :
  user_data_of (set_user_data w user ud) user = ud.
Proof. unfold user_data_of, set_user_data. simpl. now rewrite lookup_insert_eq. Qed.

Lemma user_data_of_emit (w : World) (ev : Event) (user : Z) :
  user_data_of (emit w ev) user = user_data_of w user.
Proof. reflexivity. Qed.

Lemma user_data_of_eq (w w' : World) (user : Z) :
  user_data w' = user_data w -> user_data_of w' user = user_data_of w user.
Proof. unfold user_data_of. now intros ->. Qed.

(** Rendering a page changes neither the store nor the files. *)
Lemma send_results_page_state (w : World) (user : Z) (m : option MsgRef) :
  user_data (fst (send_results_page w user m)) = user_data w
  /\ files (fst (send_results_page w user m)) = files w.
Proof.
  unfold send_results_page. repeat case_match; simpl; auto.
Qed.

(** A download job changes the files and the messages, never the store. *)
Lemma download_job_user_data (env : Env) (w : World) (track : Track) :
  user_data (fst (download_job env w track)) = user_data w.
Proof.
  unfold download_job, download_and_send, download_track_as_mp3.
  repeat case_match; simplify_eq; reflexivity.
Qed.

(** The search never raises. *)
Lemma search_youtube_total (env : Env) (query : pystr) (max_results : Z) :
  exists tracks, search_youtube env query max_results = Ok tracks.
Proof.
  unfold search_youtube. destruct (search_youtube_try env query max_results); eauto.
Qed.

(** What a search does to the store. *)
Lemma search_command_user_data (env : Env) (w : World) (user : Z) (args : list pystr) :
  user_data (fst (search_command env w user args)) =
  match args with
  | [] => user_data w
  | _ :: _ =>
      match search_youtube env (join (lit " ") args) 20 with
      | Ok (t :: ts) =>
          <[user := {| search_results := Some (t :: ts); page := Some 0 |}]>
            (user_data w)
      | _ => user_data w
      end
  end.
Proof.
  unfold search_command. destruct args as [|a args]; [reflexivity|].
  destruct (search_youtube env _ 20) as [[|t ts]|e]; try reflexivity.
  match goal with
  | |- context [send_results_page ?w0 user ?m] =>
      pose proof (send_results_page_state w0 user m) as [Hud _];
      destruct (send_results_page w0 user m) as [w' r]
  end.
  simpl in Hud. rewrite user_data_of_set in Hud.
  assert (Hfin : user_data
            (fst (match r with
                  | Ok _ => (w', Ok tt)
                  | Raise e => (emit w' (EditText StatusMsg (msg_error ++ exn_text e) None), Ok tt)
                  end)) = user_data w')
    by (destruct r; reflexivity).
  rewrite Hfin, Hud. simpl. apply insert_insert_eq.
Qed.

(** What a pressed button does to the store. *)
Lemma button_handler_user_data (env : Env) (w : World) (user : Z) (data : pystr) :
  user_data (fst (button_handler env w user data)) =
  if startswith (lit "page_") data then
    match callback_arg data with
    | Ok target =>
        <[user := {| search_results := search_results (user_data_of w user);
                     page := Some target |}]> (user_data w)
    | Raise _ => user_data w
    end
  else user_data w.
Proof.
  unfold button_handler. destruct (startswith (lit "page_") data).
  - destruct (callback_arg data) as [target|e]; [|reflexivity].
    match goal with
    | |- context [send_results_page ?w0 user ?m] =>
        pose proof (send_results_page_state w0 user m) as [Hud _]
    end.
    rewrite Hud. reflexivity.
  - destruct (startswith (lit "dl_") data); [|reflexivity].
    destruct (callback_arg data) as [idx|e]; [|reflexivity].
    case_match; [reflexivity|].
    destruct (index _ _) as [track|e]; [|reflexivity].
    now rewrite download_job_user_data.
Qed.

(** The invariant reads the store only. *)
Lemma session_invariant_ext (w w' : World) (user : Z) :
  user_data w' = user_data w -> session_invariant w user -> session_invariant w' user.
Proof.
  unfold session_invariant, results_of, page_of. intros H.
  now rewrite (user_data_of_eq _ _ user H).
Qed.

Lemma user_data_of_insert (w w' : World) (user : Z) (ud : UserData) :
  user_data w' = <[user := ud]> (user_data w) -> user_data_of w' user = ud.
Proof. unfold user_data_of. intros ->. now rewrite lookup_insert_eq. Qed.

(** A page at or beyond the page total has no items. *)
Lemma page_tracks_beyond (tracks : list Track) (page : Z) :
  page_count (Z.of_nat (length tracks)) <= page -> page_tracks tracks page = [].
Proof.
  unfold page_tracks, slice, end_index, start_index, page_count, RESULTS_PER_PAGE.
  intros H. set (total := Z.of_nat (length tracks)) in *.
  assert (Htot : 0 <= total) by (subst total; lia).
  assert (Hge : total <= page * 10) by (Z.div_mod_to_equations; lia).
  match goal with
  | |- firstn (Z.to_nat ?d) _ = _ => assert (Hd : Z.to_nat d = 0%nat)
  end.
  { unfold clamp_index.
    repeat match goal with
           | |- context [?a <? ?b] => destruct (Z.ltb_spec a b)
           end; lia. }
  now rewrite Hd.
Qed.

Lemma render_empty_page (tracks : list Track) (page : Z) :
  page_tracks tracks page = [] -> exists text keyboard,
    render_page tracks page = Ok (text, keyboard).
Proof. unfold render_page. intros ->. simpl. eauto. Qed.

(** *** Callback data *)

Lemma callback_arg_encode_dl (rank : Z) : callback_arg (encode_dl rank) = Ok rank.
Proof.
  unfold callback_arg, encode_dl.
  change (lit "dl_") with [100; 108; 95]%N. cbn [app].
  erewrite split_cons_other; [| discriminate |].
  2: { erewrite split_cons_other; [reflexivity | discriminate |].
       rewrite split_cons_sep, split_no_sep by apply str_int_no_underscore.
       reflexivity. }
  simpl. apply int_str_int.
Qed.

Lemma callback_arg_encode_page (target : Z) :
  callback_arg (encode_page target) = Ok target.
Proof.
  unfold callback_arg, encode_page.
  change (lit "page_") with [112; 97; 103; 101; 95]%N. cbn [app].
  erewrite split_cons_other; [| discriminate |].
  2: { erewrite split_cons_other; [reflexivity | discriminate |].
       erewrite split_cons_other; [reflexivity | discriminate |].
       erewrite split_cons_other; [reflexivity | discriminate |].
       rewrite split_cons_sep, split_no_sep by apply str_int_no_underscore.
       reflexivity. }
  simpl. apply int_str_int.
Qed.

(** The button of the track at position [rank], on the page that shows it. *)
Lemma render_page_button (tracks : list Track) (page rank : Z) (track : Track)
    (text : pystr) (keyboard : Keyboard) :
  0 <= page ->
  start_index page <= rank < start_index page + RESULTS_PER_PAGE ->
  tracks !! Z.to_nat rank = Some track ->
  render_page tracks page = Ok (text, keyboard) ->
  keyboard !! Z.to_nat (rank - start_index page) =
  Some [ {| label := str_int (rank + 1) ++ lit ". " ++ prefix (tr_full_name track) 40;
            callback_data := encode_dl rank |} ].
Proof.
  intros Hpage Hrank Htrack Hrender.
  assert (Hlen : rank < Z.of_nat (length tracks)).
  { apply lookup_lt_Some in Htrack. lia. }
  assert (Hstart : 0 <= start_index page) by (unfold start_index, RESULTS_PER_PAGE; lia).
  set (k := Z.to_nat (rank - start_index page)).
  assert (Hitem : page_tracks tracks page !! k = Some track).
  { unfold page_tracks. rewrite slice_lookup.
    - rewrite <- Htrack. f_equal. subst k. lia.
    - exact Hstart.
    - unfold end_index. lia.
    - unfold end_index. subst k. lia. }
  unfold render_page in Hrender. apply bind_ok in Hrender.
  destruct Hrender as (rows & Hrows & Hout). injection Hout as _ <-.
  destruct (mapM_lookup _ _ rows k (start_index page + 1 + Z.of_nat k, track) Hrows)
    as (row & Hrow & Hrender).
  { now rewrite enumerate_lookup, Hitem. }
  apply lookup_app_l_Some. rewrite lookup_map, Hrow. simpl. f_equal.
  unfold render_row in Hrender. apply bind_ok in Hrender.
  destruct Hrender as (duration_str & _ & Hout). injection Hout as <-. simpl.
  replace (start_index page + 1 + Z.of_nat k) with (rank + 1) by (subst k; lia).
  now replace (rank + 1 - 1) with rank by lia.
Qed.

(** *** The download job *)

(** Whenever the engine has written the file and the delivery raises, the
    file outlives the job. *)
Lemma failed_delivery_keeps_file (env : Env) (w : World) (track : Track)
    (fs : gset pystr) (e : exn) :
  ydl_download env (lit "https://www.youtube.com/watch?v=" ++ tr_video_id track)
    (output_template env track) (files w) = (fs, Ok true) ->
  downloaded_file env track ∈ fs ->
  send_audio env = Raise e ->
  downloaded_file env track ∈ files (fst (download_job env w track)).
Proof.
  intros Hdl Hin Hsend.
  unfold download_job, download_and_send, download_track_as_mp3.
  cbn [emit files]. rewrite Hdl. cbn [set_files files].
  rewrite !decide_True by exact Hin. rewrite Hsend.
  destruct (val_prefix (tr_title track) 200);
    [destruct (val_prefix (tr_artist track) 200)|]; exact Hin.
Qed.

(** When the delivery succeeds, the file is removed. *)
Lemma delivery_removes_file (env : Env) (w : World) (track : Track)
    (fs : gset pystr) (title performer : pystr) :
  ydl_download env (lit "https://www.youtube.com/watch?v=" ++ tr_video_id track)
    (output_template env track) (files w) = (fs, Ok true) ->
  downloaded_file env track ∈ fs ->
  tr_title track = VStr title -> tr_artist track = VStr performer ->
  send_audio env = Ok tt ->
  files (fst (download_job env w track)) = fs ∖ {[ downloaded_file env track ]}.
Proof.
  intros Hdl Hin Htitle Hartist Hsend.
  unfold download_job, download_and_send, download_track_as_mp3.
  cbn [emit files]. rewrite Hdl. cbn [set_files files].
  rewrite !decide_True by exact Hin. rewrite Htitle, Hartist, Hsend.
  reflexivity.
Qed.

End BotFacts.






(* ===================================================================== *)
(** ** Properties of the specification *)
(* ===================================================================== *)

Import Py Bot PyFacts BotFacts.

Ltac in_literal H :=
  vm_compute in H; repeat (destruct H as [H|H]; try discriminate H); try contradiction.

(** C10, as the claim states it, fails in its second half: a NUL character
    in the display name passes through the cleaning into the path, and what
    follows /tmp/ is then no path component. *)
Lemma nul_passes_into_path :
  forallb is_hex (uuid4_hex Scenario.env_quiet) = true
  /\ downloaded_file Scenario.env_quiet MoreScenario.track_nul
     = lit "/tmp/" ++ (lit "Band - a" ++ [0%N] ++ lit "b_01234567.mp3")
  /\ path_component (lit "Band - a" ++ [0%N] ++ lit "b_01234567.mp3") = false.
Proof. repeat split; vm_compute; reflexivity. Qed.

(** C10, amended: for every input string, [clean_filename] returns the
    string without the characters backslash, slash, star, question mark,
    colon, double quote, less-than, greater-than and bar, every other
    character kept in its place in the order; and for a display name without
    a NUL character, the temp path built from it and the random hexadecimal
    suffix is /tmp/ followed by one path component. *)
Theorem clean_filename_safe_path (title : pystr) :
  let listed := lit "\/*?:" ++ [34%N] ++ lit "<>|" in
  forallb (fun c => negb (mem c listed)) (clean_filename title) = true
  /\ clean_filename title = List.filter (fun c => negb (mem c listed)) title
  /\ forall (env : Env) (track : Track),
       tr_full_name track = title ->
       forallb is_hex (uuid4_hex env) = true ->
       ~ In 0%N title ->
       exists name,
         downloaded_file env track = lit "/tmp/" ++ name
         /\ path_component name = true.
Proof.
  intros listed.
  assert (Hclass : forall c, mem c listed = mem c forbidden_chars).
  { intros c. unfold mem, listed, forbidden_chars.
    change (lit "\/*?:" ++ [34%N] ++ lit "<>|")
      with [92; 47; 42; 63; 58; 34; 60; 62; 124]%N.
    reflexivity. }
  assert (Hfilter : List.filter (fun c => negb (mem c listed)) title
                    = List.filter (fun c => negb (mem c forbidden_chars)) title).
  { apply filter_ext. intros c. now rewrite Hclass. }
  split; [|split].
  - apply forallb_forall. intros c Hc.
    apply clean_filename_chars in Hc. destruct Hc as [_ Hc].
    now rewrite Hclass, Hc.
  - rewrite Hfilter. apply clean_filename_filter.
  - intros env track Htitle Hhex Hnul.
    eexists. split; [apply downloaded_file_shape|].
    rewrite Htitle.
    assert (Hnone : forall bad, mem bad forbidden_chars = true \/ bad = 0%N ->
              bad <> 95%N -> bad <> 46%N -> bad <> 109%N -> bad <> 112%N ->
              bad <> 51%N -> bad <> 37%N -> bad <> 40%N -> bad <> 101%N ->
              bad <> 120%N -> bad <> 116%N -> bad <> 41%N -> bad <> 115%N ->
              is_hex bad = false ->
              ~ In bad (replace (lit ".%(ext)s") (lit ".mp3")
                          (clean_filename title ++ lit "_"
                             ++ prefix (uuid4_hex env) 8 ++ lit ".%(ext)s"))).
    { intros bad Hbad H95 H46 H109 H112 H51 H37 H40 H101 H120 H116 H41 H115 Hh Hin.
      apply replace_chars in Hin; [|exact ext_pattern_nonempty].
      destruct Hin as [Hin|Hin];
        [|vm_compute in Hin; intuition congruence].
      apply in_app_or in Hin. destruct Hin as [Hin|Hin].
      { apply clean_filename_chars in Hin. destruct Hin as [Hin Hc].
        destruct Hbad as [Hbad| ->]; [congruence | contradiction]. }
      apply in_app_or in Hin.
      destruct Hin as [Hin|Hin]; [vm_compute in Hin; intuition congruence|].
      apply in_app_or in Hin.
      destruct Hin as [Hin|Hin]; [|vm_compute in Hin; intuition congruence].
      apply In_slice in Hin.
      rewrite forallb_forall in Hhex. apply Hhex in Hin. congruence. }
    apply path_component_intro.
    + apply Hnone; try discriminate; [left|]; reflexivity.
    + apply Hnone; try discriminate; [right|]; reflexivity.
    + apply replace_keeps; [exact ext_pattern_nonempty | intros Hin; in_literal Hin |].
      apply in_or_app. right. now left.
Qed.

(** The display name AC/DC - T.N.T. <live> 1/2. *)
Lemma clean_filename_safe_path_witness :
  clean_filename (lit "AC/DC - T.N.T. <live> 1/2") = lit "ACDC - T.N.T. live 12"
  /\ exists name,
       downloaded_file Scenario.env_quiet Scenario.track_acdc = lit "/tmp/" ++ name
       /\ path_component name = true.
Proof.
  destruct (clean_filename_safe_path (lit "AC/DC - T.N.T. <live> 1/2"))
    as (_ & Hfilter & Hpath).
  split; [rewrite Hfilter; reflexivity|].
  apply (Hpath Scenario.env_quiet Scenario.track_acdc).
  - reflexivity.
  - vm_compute. reflexivity.
  - intros Hin. in_literal Hin.
Defined.



(** C5, as the claim states it, fails: a search that succeeds without
    finding anything does not touch the store.  User 1 holds 20 results and
    looks at page 1; the new search ends normally with no track, and the 20
    results and page 1 are still stored. *)
Lemma empty_search_keeps_old_session :
  search_youtube Scenario.env_quiet (join (lit " ") [lit "Believer"]) 20 = Ok []
  /\ snd (search_command Scenario.env_quiet MoreScenario.world20_page1 1 [lit "Believer"])
     = Ok tt
  /\ user_data_of
       (fst (search_command Scenario.env_quiet MoreScenario.world20_page1 1
               [lit "Believer"])) 1
     = {| search_results := Some Scenario.tracks20; page := Some 1 |}.
Proof. repeat split; vm_compute; reflexivity. Qed.

(** C5, amended: after a search that found at least one track, the session
    of the user is exactly the new result set with page 0, whatever was
    stored before (no merge); after a search that found no track, the
    session of the user is what it was; the sessions of the other users are
    as they were in both cases. *)
Theorem search_replaces_session (env : Env) (w : World) (user : Z)
    (args : list pystr) (tracks : list Track) :
  args <> [] ->
  search_youtube env (join (lit " ") args) 20 = Ok tracks ->
  let w' := fst (search_command env w user args) in
  user_data_of w' user
  = match tracks with
    | [] => user_data_of w user
    | _ :: _ => {| search_results := Some tracks; page := Some 0 |}
    end
  /\ snd (search_command env w user args) = Ok tt
  /\ forall other, other <> user -> user_data w' !! other = user_data w !! other.
Proof.
  intros Hargs Hsearch w'.
  pose proof (search_command_user_data env w user args) as Hud.
  destruct args as [|a args]; [congruence|].
  rewrite Hsearch in Hud. fold w' in Hud.
  split; [|split].
  - destruct tracks as [|t ts].
    + now apply user_data_of_eq.
    + now apply (user_data_of_insert w).
  - unfold search_command. rewrite Hsearch. destruct tracks as [|t ts]; [reflexivity|].
    destruct (send_results_page _ user _) as [w1 [u|e]]; reflexivity.
  - intros other Hother. rewrite Hud. destruct tracks as [|t ts]; [reflexivity|].
    now apply lookup_insert_ne.
Qed.

(** A search with three results replaces the 20-track session of user 1. *)
Lemma search_replaces_session_witness :
  let w' := fst (search_command Scenario.env_three Scenario.world20 1 [lit "Believer"]) in
  user_data_of w' 1 =
    {| search_results := Some [Scenario.track 0; Scenario.track 1; Scenario.track 2];
       page := Some 0 |}
  /\ snd (search_command Scenario.env_three Scenario.world20 1 [lit "Believer"]) = Ok tt
  /\ forall other, other <> 1 ->
       user_data w' !! other = user_data Scenario.world20 !! other.
Proof.
  apply (search_replaces_session Scenario.env_three Scenario.world20 1
           [lit "Believer"]
           [Scenario.track 0; Scenario.track 1; Scenario.track 2]).
  - discriminate.
  - vm_compute. reflexivity.
Defined.

(** C3, as the claim states it, fails: after the new search with three
    results, the button to page 1 of the earlier keyboard is pressed; the
    request is handled without complaint and leaves page 1 stored, though
    1 * 10 is not below 3. *)
Lemma navigation_breaks_invariant :
  session_invariant Scenario.world_after_new_search 1
  /\ ~ session_invariant
         (fst (button_handler Scenario.env_three Scenario.world_after_new_search 1
                 (encode_page 1))) 1.
Proof.
  split.
  - intros _. vm_compute. reflexivity.
  - intros H. assert (Hne : results_of
        (fst (button_handler Scenario.env_three Scenario.world_after_new_search 1
                (encode_page 1))) 1 <> [])
      by (vm_compute; discriminate).
    specialize (H Hne). vm_compute in H. discriminate H.
Qed.

(** C3, amended: the invariant currentPage * pageSize < len(results) for a
    non-empty result set is kept by every update the router dispatches
    (start, search, download, navigation), provided a navigation update
    carries a target page within 0 <= target < pageCount; the handler itself
    does not check the target. *)
Theorem session_invariant_preserved (env : Env) (w : World) (user : Z) (u : Update) :
  session_invariant w user ->
  navigation_in_range w user u ->
  session_invariant (fst (dispatch env w user u)) user.
Proof.
  intros Hinv Hnav.
  destruct u as [name args | data]; unfold dispatch, navigation_in_range in *.
  - destruct (decide (name = lit "start")); [exact Hinv|].
    destruct (decide (name = lit "search")); [|exact Hinv].
    pose proof (search_command_user_data env w user args) as Hud.
    destruct args as [|a args]; [eapply session_invariant_ext; eauto|].
    destruct (search_youtube env _ 20) as [[|t ts]|err];
      try (eapply session_invariant_ext; eauto; fail).
    unfold session_invariant, results_of, page_of.
    rewrite (user_data_of_insert w _ user _ Hud). simpl.
    intros _. unfold RESULTS_PER_PAGE. lia.
  - pose proof (button_handler_user_data env w user data) as Hud.
    destruct (startswith (lit "page_") data);
      [|eapply session_invariant_ext; eauto].
    destruct (callback_arg data) as [target|err];
      [|eapply session_invariant_ext; eauto].
    specialize (Hnav eq_refl target eq_refl).
    apply valid_page_start in Hnav. destruct Hnav as [_ Hlt].
    unfold session_invariant, results_of, page_of.
    rewrite (user_data_of_insert w _ user _ Hud). simpl.
    intros _. exact Hlt.
Qed.

(** Going to page 1 of 20 results keeps the invariant. *)
Lemma session_invariant_preserved_witness :
  session_invariant
    (fst (dispatch Scenario.env_quiet Scenario.world20 1 (Callback (encode_page 1)))) 1.
Proof.
  apply (session_invariant_preserved Scenario.env_quiet Scenario.world20 1
           (Callback (encode_page 1))).
  - intros _. vm_compute. reflexivity.
  - intros _ target Harg. vm_compute in Harg.
    injection Harg as <-. split; [lia | reflexivity].
Defined.

(** C2, as the claim states it, fails: page 1 is no page of three results,
    yet the request ends normally and 1 becomes the stored page. *)
Lemma out_of_range_page_accepted :
  length (results_of Scenario.world_after_new_search 1) = 3%nat
  /\ ~ valid_page 3 1
  /\ snd (button_handler Scenario.env_three Scenario.world_after_new_search 1
            (encode_page 1)) = Ok tt
  /\ page (user_data_of
             (fst (button_handler Scenario.env_three Scenario.world_after_new_search 1
                     (encode_page 1)))
             1) = Some 1.
Proof.
  split; [|split; [|split]].
  - vm_compute. reflexivity.
  - intros [_ H]. vm_compute in H. discriminate H.
  - vm_compute. reflexivity.
  - vm_compute. reflexivity.
Qed.

(** C2, amended: a page-navigation request is never rejected.  Whatever
    integer the callback data page_N carries, in range or not, the handler
    stores it as the current page and leaves the result set as it is; for a
    target at or beyond pageCount the page has no items and the request ends
    normally (no clamping, no OutOfRange). *)
Theorem navigation_never_rejected (env : Env) (w : World) (user : Z)
    (data : pystr) (target : Z) :
  startswith (lit "page_") data = true ->
  callback_arg data = Ok target ->
  let w' := fst (button_handler env w user data) in
  page (user_data_of w' user) = Some target
  /\ search_results (user_data_of w' user) = search_results (user_data_of w user)
  /\ (page_count (Z.of_nat (length (results_of w user))) <= target ->
      page_tracks (results_of w user) target = []
      /\ snd (button_handler env w user data) = Ok tt).
Proof.
  intros Hpre Harg w'.
  pose proof (button_handler_user_data env w user data) as Hud.
  rewrite Hpre, Harg in Hud.
  rewrite (user_data_of_insert w w' user _ Hud). simpl.
  split; [reflexivity | split; [reflexivity|]].
  intros Hbeyond. pose proof (page_tracks_beyond _ _ Hbeyond) as Hempty.
  split; [exact Hempty|].
  unfold button_handler. rewrite Hpre, Harg.
  unfold send_results_page. rewrite user_data_of_set. simpl.
  rewrite user_data_of_emit.
  fold (results_of w user). destruct (results_of w user) as [|t ts] eqn:E;
    [reflexivity|].
  destruct (render_empty_page _ _ Hempty) as (text & keyboard & ->).
  reflexivity.
Qed.

(** Page 1 requested on three results. *)
Lemma navigation_never_rejected_witness :
  let w := Scenario.world_after_new_search in
  let w' := fst (button_handler Scenario.env_three w 1 (encode_page 1)) in
  page (user_data_of w' 1) = Some 1
  /\ search_results (user_data_of w' 1) = search_results (user_data_of w 1)
  /\ (page_count (Z.of_nat (length (results_of w 1))) <= 1 ->
      page_tracks (results_of w 1) 1 = []
      /\ snd (button_handler Scenario.env_three w 1 (encode_page 1)) = Ok tt).
Proof.
  apply (navigation_never_rejected Scenario.env_three Scenario.world_after_new_search 1
           (encode_page 1) 1).
  - reflexivity.
  - vm_compute. reflexivity.
Defined.

(** C9, as the claim states it, fails for navigation: a user who never
    searched presses page_1 and nothing visible is sent; the only event is
    the acknowledgement of the callback. *)
Lemma navigation_without_session_is_silent :
  search_results (user_data_of Scenario.empty_world 7) = None
  /\ outbox (fst (button_handler Scenario.env_quiet Scenario.empty_world 7 (encode_page 1)))
     = [AnswerCallback]
  /\ existsb user_visible
       (outbox (fst (button_handler Scenario.env_quiet Scenario.empty_world 7
                       (encode_page 1)))) = false.
Proof. repeat split; vm_compute; reflexivity. Qed.

(** C9, amended: for a user with no stored result set, a download request
    is answered with the visible track-not-found message, a navigation
    request is answered with nothing visible (only the callback is
    acknowledged); neither touches the download pipeline: the files are as
    before and the outcome does not depend on the engine or the transport. *)
Theorem requests_without_session (env : Env) (w : World) (user : Z)
    (data : pystr) (arg : Z) :
  search_results (user_data_of w user) = None ->
  callback_arg data = Ok arg ->
  let r := button_handler env w user data in
  files (fst r) = files w
  /\ snd r = Ok tt
  /\ (forall env', button_handler env' w user data = r)
  /\ outbox (fst r) =
     outbox w ++ AnswerCallback ::
       (if startswith (lit "page_") data then []
        else if startswith (lit "dl_") data
             then [EditText QueryMsg msg_track_not_found None]
             else []).
Proof.
  intros Hnone Harg r. subst r. unfold button_handler.
  rewrite Harg. unfold send_results_page.
  rewrite user_data_of_set, !user_data_of_emit, Hnone. cbn [search_results get].
  assert (Hidx : (arg <? 0) || (arg >=? Z.of_nat (@length Track [])) = true).
  { rewrite Z.geb_leb. destruct (Z.ltb_spec arg 0); [reflexivity|].
    simpl. apply Z.leb_le. assumption. }
  rewrite Hidx.
  destruct (startswith (lit "page_") data); [|destruct (startswith (lit "dl_") data)];
    simpl; rewrite <- ?app_assoc; auto.
Qed.

(** A download request of a user who never searched. *)
Lemma requests_without_session_witness :
  let r := button_handler Scenario.env_quiet Scenario.empty_world 7 (encode_dl 2) in
  files (fst r) = files Scenario.empty_world
  /\ snd r = Ok tt
  /\ (forall env', button_handler env' Scenario.empty_world 7 (encode_dl 2) = r)
  /\ outbox (fst r) =
     outbox Scenario.empty_world ++ AnswerCallback ::
       (if startswith (lit "page_") (encode_dl 2) then []
        else if startswith (lit "dl_") (encode_dl 2)
             then [EditText QueryMsg msg_track_not_found None]
             else []).
Proof.
  apply (requests_without_session Scenario.env_quiet Scenario.empty_world 7
           (encode_dl 2) 2).
  - vm_compute. reflexivity.
  - vm_compute. reflexivity.
Defined.

(** C4, as the claim states it, fails in its second half: when the engine
    cannot be reached the search does not fail; it returns the empty list,
    the very value it returns when the engine finds nothing. *)
Lemma engine_failure_looks_like_no_results :
  ydl_search Scenario.env_engine_down (lit "ytsearch20:Believer")
    = Raise (Exn EngineError (lit "network unreachable"))
  /\ search_youtube Scenario.env_engine_down (lit "Believer") 20 = Ok []
  /\ search_youtube Scenario.env_engine_down (lit "Believer") 20
     = search_youtube Scenario.env_quiet (lit "Believer") 20.
Proof. repeat split; vm_compute; reflexivity. Qed.

(** C4, amended: the catalog search never throws.  It returns the empty
    sequence when the engine finds nothing and also when the engine fails in
    transport or parsing (the failure is logged); the caller cannot tell the
    two apart. *)
Theorem search_never_throws (env : Env) (query : pystr) (max_results : Z) :
  (exists tracks, search_youtube env query max_results = Ok tracks)
  /\ match ydl_search env (lit "ytsearch" ++ str_int max_results ++ lit ":" ++ query) with
     | Raise _ | Ok None | Ok (Some None) | Ok (Some (Some [])) =>
         search_youtube env query max_results = Ok []
     | Ok (Some (Some (_ :: _))) => True
     end.
Proof.
  split; [apply search_youtube_total|].
  unfold search_youtube, search_youtube_try.
  destruct (ydl_search env _) as [[[[|entry entries]|]|]|e]; simpl; auto.
Qed.

(** C1 fails on the code.  The download succeeds and writes the mp3, then
    the delivery to the user raises: the handler reports the error and ends
    normally, and the temp file is still there.  With a delivery that
    succeeds, the same request leaves no file. *)
Theorem temp_file_left_after_failed_delivery :
  let job_path := downloaded_file Scenario.env_delivery_fails (Scenario.track 3) in
  let r := button_handler Scenario.env_delivery_fails Scenario.world20 1 (encode_dl 3) in
  files Scenario.world20 = ∅
  /\ snd r = Ok tt
  /\ last (outbox (fst r))
     = Some (EditText StatusMsg (msg_download_error ++ lit "Timed out") None)
  /\ files (fst r) = {[ job_path ]}
  /\ files (fst (button_handler Scenario.env_three Scenario.world20 1 (encode_dl 3))) = ∅.
Proof.
  repeat split; vm_compute; reflexivity.
Qed.

(** C6 fails on the code: a track of five seconds is shown as the single
    character 5, which is not of the form mm:ss (205 seconds are shown as
    3:25, 10 seconds as 10).  An absent or zero duration gives the marker,
    and a duration of an hour or more has the form h:mm:ss. *)
Theorem five_seconds_shown_bare :
  format_duration (DInt 5) = Ok (lit "5")
  /\ form_mm_ss (lit "5") = false
  /\ format_duration (DInt 10) = Ok (lit "10")
  /\ format_duration (DInt 205) = Ok (lit "3:25")
  /\ format_duration DNone = Ok unknown_duration
  /\ format_duration (DInt 0) = Ok unknown_duration
  /\ format_duration (DInt 3725) = Ok (lit "1:02:05")
  /\ form_h_mm_ss (lit "1:02:05") = true.
Proof. repeat split; vm_compute; reflexivity. Qed.

(** C7: on a session that has a track at absolute rank R (0-based, so at
    least R+1 results), the callback data made for rank R decodes to exactly
    R; the handler resolves it to the track stored at position R, whatever
    page is current in the session; and it is this data that the page showing
    rank R puts on the button of that track. *)
Theorem download_rank_round_trip (env : Env) (w : World) (user : Z)
    (tracks : list Track) (rank : Z) (track : Track) :
  search_results (user_data_of w user) = Some tracks ->
  0 <= rank ->
  tracks !! Z.to_nat rank = Some track ->
  callback_arg (encode_dl rank) = Ok rank
  /\ button_handler env w user (encode_dl rank)
     = download_job env (emit w AnswerCallback) track
  /\ forall page text keyboard,
       0 <= page ->
       start_index page <= rank < start_index page + RESULTS_PER_PAGE ->
       render_page tracks page = Ok (text, keyboard) ->
       exists lbl,
         keyboard !! Z.to_nat (rank - start_index page)
         = Some [ {| label := lbl; callback_data := encode_dl rank |} ].
Proof.
  intros Hres Hrank Htrack. split; [apply callback_arg_encode_dl | split].
  - unfold button_handler.
    change (startswith (lit "page_") (encode_dl rank)) with false.
    change (startswith (lit "dl_") (encode_dl rank)) with true. cbv iota.
    rewrite callback_arg_encode_dl, user_data_of_emit, Hres. cbn [get].
    pose proof (lookup_lt_Some _ _ _ Htrack) as Hlt.
    destruct (Z.ltb_spec rank 0); [lia|].
    rewrite Z.geb_leb. destruct (Z.leb_spec (Z.of_nat (length tracks)) rank); [lia|].
    cbn [orb]. unfold index. now rewrite Htrack.
  - intros page text keyboard Hpage Hin Hrender. eexists.
    eapply render_page_button; eauto.
Qed.

(** Rank 13 of the 20-track session. *)
Lemma download_rank_round_trip_witness :
  callback_arg (encode_dl 13) = Ok 13
  /\ button_handler Scenario.env_quiet Scenario.world20 1 (encode_dl 13)
     = download_job Scenario.env_quiet (emit Scenario.world20 AnswerCallback)
         (Scenario.track 13)
  /\ forall page text keyboard,
       0 <= page ->
       start_index page <= 13 < start_index page + RESULTS_PER_PAGE ->
       render_page Scenario.tracks20 page = Ok (text, keyboard) ->
       exists lbl,
         keyboard !! Z.to_nat (13 - start_index page)
         = Some [ {| label := lbl; callback_data := encode_dl 13 |} ].
Proof.
  apply (download_rank_round_trip Scenario.env_quiet Scenario.world20 1
           Scenario.tracks20 13 (Scenario.track 13)).
  - vm_compute. reflexivity.
  - lia.
  - vm_compute. reflexivity.
Defined.

(* ===================================================================== *)
(** ** Further facts: numerals, durations, pages, the handlers *)
(* ===================================================================== *)

Module MoreFacts.
Import Py Bot PyFacts BotFacts.

(** *** Leading digits and stripping *)

Lemma digits_of_head (fuel : nat) : forall n,
  0 < n < 10 ^ Z.of_nat (S fuel) ->
  exists d rest, digits_of (S fuel) n = digit_char d :: rest /\ 1 <= d <= 9.
Proof.
  induction fuel as [|f IH]; intros n Hn;
    rewrite digits_of_S; destruct (Z.ltb_spec n 10) as [Hlt|Hge].
  1, 3: exists n, []; split; [reflexivity | lia].
  - change (Z.of_nat 1) with 1 in Hn. rewrite Z.pow_1_r in Hn. lia.
  - destruct (IH (n / 10)) as (d & rest & Heq & Hd).
    { split; [apply Z.div_str_pos; lia|].
      apply Z.div_lt_upper_bound; [lia|].
      rewrite (Nat2Z.inj_succ (S f)), Z.pow_succ_r in Hn; lia. }
    rewrite Heq. exists d, (rest ++ [digit_char (n mod 10)]). now split.
Qed.

Lemma str_nonneg_head (n : Z) :
  0 < n -> exists d rest, str_nonneg n = digit_char d :: rest /\ 1 <= d <= 9.
Proof.
  intros Hn. apply digits_of_head. split; [assumption | apply fuel_enough; lia].
Qed.

(** A positive number is printed without anything [lstrip("0:")] removes. *)
Lemma lstrip_zero_colon_str (n : Z) (tail : pystr) :
  0 < n -> lstrip (lit "0:") (str_nonneg n ++ tail) = str_nonneg n ++ tail.
Proof.
  intros Hn. destruct (str_nonneg_head n Hn) as (d & rest & -> & Hd).
  cbn [app]. apply lstrip_head. apply mem_false.
  unfold digit_char. change (lit "0:") with [48; 58]%N. simpl. lia.
Qed.

Lemma lstrip_zero_colon_pad2 (n : Z) (tail : pystr) :
  0 < n -> lstrip (lit "0:") (pad2 n ++ tail) = str_nonneg n ++ tail.
Proof.
  intros Hn. unfold pad2. destruct (n <? 10).
  - change (lit "0") with [48%N]. cbn [app lstrip].
    change (mem 48%N (lit "0:")) with true. cbv iota.
    now apply lstrip_zero_colon_str.
  - now apply lstrip_zero_colon_str.
Qed.

Lemma timedelta_same_day (n : Z) :
  0 <= n < 86400 -> timedelta n = Ok (0, n).
Proof.
  intros Hn. unfold timedelta.
  rewrite Z.div_small, Z.mod_small by lia. reflexivity.
Qed.

Lemma format_duration_int (n : Z) :
  0 < n < 86400 ->
  format_duration (DInt n) =
  Ok (lstrip (lit "0:")
        (str_int (n / 60 / 60) ++ lit ":" ++ pad2 (n / 60 mod 60) ++ lit ":"
           ++ pad2 (n mod 60))).
Proof.
  intros Hn. unfold format_duration, dur_truthy.
  destruct (Z.eqb_spec n 0); [lia|]. cbn [negb dur_int bind].
  rewrite timedelta_same_day by lia. reflexivity.
Qed.

(** *** Splitting once more *)

Lemma split_app_sep (sep : codepoint) (s rest : pystr) :
  ~ In sep s -> split sep (s ++ sep :: rest) = s :: split sep rest.
Proof.
  induction s as [|c s IH]; intros Hn.
  - apply split_cons_sep.
  - cbn [app]. apply split_cons_other.
    + intros ->. apply Hn. now left.
    + apply IH. intros Hin. apply Hn. now right.
Qed.

Lemma split_prefixed (p s rest : pystr) :
  ~ In 95%N p -> ~ In 95%N s ->
  split 95%N (p ++ 95%N :: s ++ 95%N :: rest) = p :: s :: split 95%N rest.
Proof.
  intros Hp Hs. rewrite split_app_sep by assumption.
  now rewrite split_app_sep by assumption.
Qed.

(** *** Loops and pages *)

Lemma mapM_length {A B} (f : A -> Res B) (l : list A) (rs : list B) :
  mapM f l = Ok rs -> length rs = length l.
Proof.
  revert rs. induction l as [|x l IH]; intros rs HM; simpl in HM.
  - now injection HM as <-.
  - apply bind_ok in HM. destruct HM as (b & _ & HM).
    apply bind_ok in HM. destruct HM as (bs & Hbs & HM).
    injection HM as <-. simpl. f_equal. now apply IH.
Qed.

Lemma enumerate_length {A} (l : list A) (start : Z) :
  length (enumerate l start) = length l.
Proof.
  revert start. induction l as [|x l IH]; intros start; simpl; [reflexivity|].
  now rewrite IH.
Qed.

(** A page with a non-negative index is the chunk of ten items at its start. *)
Lemma page_tracks_chunk (tracks : list Track) (page : Z) :
  0 <= page ->
  page_tracks tracks page = firstn 10 (skipn (Z.to_nat (page * 10)) tracks).
Proof.
  intros Hpage.
  unfold page_tracks, slice, end_index, start_index, RESULTS_PER_PAGE, clamp_index.
  set (len := Z.of_nat (length tracks)). set (a := page * 10).
  assert (Ha : 0 <= a) by (subst a; lia).
  assert (Hlen : 0 <= len) by (subst len; lia).
  destruct (Z.ltb_spec a 0); [lia|].
  destruct (Z.ltb_spec (Z.min (a + 10) len) 0); [lia|].
  destruct (Z_le_gt_dec len a) as [Hbeyond|Hinside].
  - rewrite (skipn_all2 (n := Z.to_nat (Z.min a len))) by (subst len; lia).
    rewrite (skipn_all2 (n := Z.to_nat a)) by (subst len; lia).
    now rewrite !firstn_nil.
  - replace (Z.min a len) with a by lia.
    destruct (Z_le_gt_dec (a + 10) len) as [Hfull|Hshort].
    + f_equal. lia.
    + assert (Hl : length (skipn (Z.to_nat a) tracks)
                   = Z.to_nat (Z.min (Z.min (a + 10) len) len - a)).
      { rewrite length_skipn. subst len. lia. }
      rewrite <- Hl, firstn_all. symmetry. apply firstn_all2. rewrite Hl. lia.
Qed.

Lemma page_tracks_length (tracks : list Track) (page : Z) :
  0 <= page ->
  Z.of_nat (length (page_tracks tracks page))
  = Z.max 0 (Z.min 10 (Z.of_nat (length tracks) - page * 10)).
Proof.
  intros Hpage. rewrite page_tracks_chunk by assumption.
  rewrite length_firstn, length_skipn. lia.
Qed.

Lemma page_tracks_lookup (tracks : list Track) (page : Z) (k : nat) (track : Track) :
  0 <= page ->
  page_tracks tracks page !! k = Some track ->
  tracks !! Z.to_nat (page * 10 + Z.of_nat k) = Some track /\ (k < 10)%nat.
Proof.
  intros Hpage. rewrite page_tracks_chunk by assumption. intros Hk.
  apply lookup_take_Some in Hk. destruct Hk as [Hk Hlt].
  rewrite lookup_drop in Hk. split; [|exact Hlt].
  rewrite <- Hk. f_equal. lia.
Qed.

(** Cutting a list into chunks of ten and gluing them gives the list back. *)
Lemma chunks_concat {A} (n : nat) : forall l : list A,
  (length l <= 10 * n)%nat ->
  concat (map (fun p => firstn 10 (skipn (10 * p) l)) (seq 0 n)) = l.
Proof.
  induction n as [|n IH]; intros l Hlen.
  - destruct l; [reflexivity | simpl in Hlen; lia].
  - cbn [seq map concat]. rewrite <- seq_shift, map_map.
    transitivity (firstn 10 l ++ skipn 10 l); [|apply firstn_skipn].
    f_equal.
    etransitivity; [|apply (IH (skipn 10 l)); rewrite length_skipn; lia].
    f_equal. apply map_ext. intros p.
    rewrite skipn_skipn. do 2 f_equal. lia.
Qed.

(** *** The handlers, case by case *)

(** A search with arguments, spelled out by what the engine answers and by
    whether the first page can be rendered. *)
Lemma search_command_cases (env : Env) (w : World) (user : Z)
    (a : pystr) (args : list pystr) :
  let query := join (lit " ") (a :: args) in
  let w1 := emit w (ReplyText (msg_searching ++ query ++ lit "...") None) in
  search_command env w user (a :: args) =
  match search_youtube env query 20 with
  | Raise e => (emit w1 (EditText StatusMsg (msg_error ++ exn_text e) None), Ok tt)
  | Ok [] => (emit w1 (EditText StatusMsg msg_nothing_found None), Ok tt)
  | Ok (t :: ts) =>
      let w2 := set_user_data w1 user
                  {| search_results := Some (t :: ts); page := Some 0 |} in
      match render_page (t :: ts) 0 with
      | Ok (text, keyboard) =>
          (emit w2 (EditText StatusMsg text (Some keyboard)), Ok tt)
      | Raise e =>
          (emit w2 (EditText StatusMsg (msg_error ++ exn_text e) None), Ok tt)
      end
  end.
Proof.
  intros query w1. unfold search_command. fold query. fold w1.
  destruct (search_youtube env query 20) as [[|t ts]|e]; try reflexivity.
  unfold send_results_page. rewrite !user_data_of_set. cbn [search_results page get].
  assert (Hw : set_user_data
                 (set_user_data w1 user
                    {| search_results := Some (t :: ts);
                       page := page (user_data_of w1 user) |})
                 user {| search_results := Some (t :: ts); page := Some 0 |}
               = set_user_data w1 user
                   {| search_results := Some (t :: ts); page := Some 0 |}).
  { unfold set_user_data. cbn [user_data files outbox]. f_equal.
    apply insert_insert_eq. }
  rewrite Hw.
  destruct (render_page (t :: ts) 0) as [[text keyboard]|e]; reflexivity.
Qed.

Lemma search_command_files (env : Env) (w : World) (user : Z) (args : list pystr) :
  files (fst (search_command env w user args)) = files w.
Proof.
  destruct args as [|a args]; [reflexivity|].
  rewrite search_command_cases.
  destruct (search_youtube env _ 20) as [[|t ts]|e]; try reflexivity.
  destruct (render_page (t :: ts) 0) as [[text keyboard]|e]; reflexivity.
Qed.

(** The download step: what is left in the world, and what is returned. *)
Lemma download_track_cases (env : Env) (w : World) (video_id : pystr) (track : Track) :
  let out := ydl_download env (lit "https://www.youtube.com/watch?v=" ++ video_id)
               (output_template env track) (files w) in
  download_track_as_mp3 env w video_id track =
  (set_files w (fst out),
   match snd out with
   | Ok true =>
       if decide (downloaded_file env track ∈ fst out)
       then Some (downloaded_file env track) else None
   | _ => None
   end).
Proof.
  intros out. unfold download_track_as_mp3. fold out.
  destruct out as [fs [[|]|e]]; cbn [fst snd set_files files]; try reflexivity.
  now destruct (decide (downloaded_file env track ∈ fs)).
Qed.

(** *** The loop of the search *)

Lemma track_of_entry_ok (entry : Entry) (track : Track) :
  track_of_entry entry = Ok track ->
  e_id entry = Some (tr_id track)
  /\ tr_video_id track = tr_id track
  /\ tr_source track = lit "youtube"
  /\ tr_title track = get (e_title entry) (VStr (lit "Unknown Title"))
  /\ tr_duration track = get (e_duration entry) (DInt 0)
  /\ tr_full_name track = fmt (tr_artist track) ++ lit " - " ++ fmt (tr_title track).
Proof.
  unfold track_of_entry. destruct (e_id entry) as [i|]; [|discriminate].
  cbn [getitem bind]. intros H. injection H as <-. cbn. repeat split.
Qed.

Lemma track_of_entry_with_id (entry : Entry) (i : pystr) :
  e_id entry = Some i -> exists track, track_of_entry entry = Ok track.
Proof. unfold track_of_entry. intros ->. cbn [getitem bind]. eauto. Qed.

(** With ids everywhere, the loop appends one track per truthy entry. *)
Lemma collect_tracks_all (entries : list (option Entry)) : forall acc,
  Forall (fun entry => e_id entry <> None) (omap id entries) ->
  exists tracks,
    collect_tracks entries acc = Ok (acc ++ tracks)
    /\ Forall2 (fun entry track => track_of_entry entry = Ok track)
         (omap id entries) tracks.
Proof.
  induction entries as [|[entry|] entries IH]; intros acc Hall.
  - exists []. split; [now rewrite app_nil_r | constructor].
  - cbn [omap list_omap id] in Hall. apply Forall_cons in Hall.
    destruct Hall as [Hid Hall].
    destruct (e_id entry) as [i|] eqn:Ei; [|congruence].
    destruct (track_of_entry_with_id entry i Ei) as [track Htrack].
    destruct (IH (acc ++ [track]) Hall) as (tracks & Hcollect & Hshape).
    exists (track :: tracks). split.
    + cbn [collect_tracks]. rewrite Htrack. cbn [bind]. rewrite Hcollect.
      now rewrite <- List.app_assoc.
    + cbn [omap list_omap id]. now constructor.
  - apply IH. exact Hall.
Qed.

(** One entry without id makes the loop raise, wherever it stands. *)
Lemma collect_tracks_missing_id (entries : list (option Entry)) : forall acc entry,
  In (Some entry) entries -> e_id entry = None ->
  exists e, collect_tracks entries acc = Raise e.
Proof.
  induction entries as [|[first|] entries IH]; intros acc entry Hin Hid.
  - destruct Hin.
  - cbn [collect_tracks]. destruct (track_of_entry first) as [track|e] eqn:E.
    + destruct Hin as [Heq|Hin].
      * injection Heq as ->. unfold track_of_entry in E. rewrite Hid in E.
        discriminate E.
      * cbn [bind]. eapply IH; eauto.
    + cbn [bind]. eauto.
  - destruct Hin as [Heq|Hin]; [discriminate|]. cbn [collect_tracks]. eapply IH; eauto.
Qed.

(** Whatever the loop returns extends the accumulator by well-formed tracks. *)
Lemma collect_tracks_shape (entries : list (option Entry)) : forall acc tracks,
  collect_tracks entries acc = Ok tracks ->
  exists more, tracks = acc ++ more
    /\ Forall (fun track => exists entry, In (Some entry) entries
                                        /\ track_of_entry entry = Ok track) more.
Proof.
  induction entries as [|[first|] entries IH]; intros acc tracks H.
  - injection H as <-. exists []. split; [now rewrite app_nil_r | constructor].
  - cbn [collect_tracks] in H. apply bind_ok in H. destruct H as (track & Htrack & H).
    apply IH in H. destruct H as (more & -> & Hmore).
    exists (track :: more). split; [now rewrite <- List.app_assoc|].
    constructor.
    + exists first. split; [now left | exact Htrack].
    + eapply Forall_impl; [exact Hmore|]. intros t (entry & Hin & Ht).
      exists entry. split; [now right | exact Ht].
  - cbn [collect_tracks] in H. apply IH in H. destruct H as (more & -> & Hmore).
    exists more. split; [reflexivity|].
    eapply Forall_impl; [exact Hmore|]. intros t (entry & Hin & Ht).
    exists entry. split; [now right | exact Ht].
Qed.

(** *** Paths without a percent sign *)

Lemma replace_only_tail (s : pystr) :
  ~ In 37%N s ->
  replace (lit ".%(ext)s") (lit ".mp3") (s ++ lit ".%(ext)s") = s ++ lit ".mp3".
Proof.
  induction s as [|c s IH]; intros Hn; [reflexivity|].
  cbn [app]. rewrite replace_cons.
  - f_equal. apply IH. intros Hin. apply Hn. now right.
  - change (lit ".%(ext)s") with [46; 37; 40; 101; 120; 116; 41; 115]%N.
    cbn [startswith]. destruct (N.eqb_spec 46 c) as [<-|]; [|reflexivity].
    destruct s as [|d s]; [reflexivity|]. cbn [app andb startswith].
    destruct (N.eqb_spec 37 d) as [<-|]; [|reflexivity].
    exfalso. apply Hn. right. now left.
Qed.

(** *** Strings [int] rejects *)

Lemma lstrip_keeps (chars s : pystr) (c : codepoint) :
  In c s -> mem c chars = false -> In c (lstrip chars s).
Proof.
  induction s as [|x s IH]; intros Hin Hc; [destruct Hin|].
  cbn [lstrip]. destruct (mem x chars) eqn:Ex; [|exact Hin].
  destruct Hin as [->|Hin]; [congruence | now apply IH].
Qed.

Lemma rstrip_keeps (chars s : pystr) (c : codepoint) :
  In c s -> mem c chars = false -> In c (rstrip chars s).
Proof.
  intros Hin Hc. unfold rstrip. apply in_rev. rewrite rev_involutive.
  apply lstrip_keeps; [now apply in_rev in Hin | exact Hc].
Qed.

Lemma parse_digits_bad (s : pystr) (c : codepoint) : forall acc,
  In c s -> is_digit c = false -> parse_digits acc s = None.
Proof.
  induction s as [|x s IH]; intros acc Hin Hc; [destruct Hin|].
  cbn [parse_digits]. destruct (is_digit x) eqn:Ex; [|reflexivity].
  destruct Hin as [->|Hin]; [congruence | now apply IH].
Qed.

Lemma parse_unsigned_bad (s : pystr) (c : codepoint) :
  In c s -> is_digit c = false -> parse_unsigned s = None.
Proof.
  intros Hin Hc. destruct s as [|x s]; [reflexivity|].
  now apply (parse_digits_bad _ c).
Qed.

(** A character that, once [to_ascii] has seen it, is neither a digit, nor
    whitespace, nor a sign, makes [int] raise. *)
Lemma int_bad_char (s : pystr) (c : codepoint) :
  In c s -> is_digit (to_ascii c) = false -> mem (to_ascii c) whitespace = false ->
  to_ascii c <> 45%N -> to_ascii c <> 43%N ->
  int s = Raise (invalid_literal s).
Proof.
  intros Hin Hd Hws Hminus Hplus. unfold int.
  apply (in_map to_ascii) in Hin.
  assert (Hbody : In (to_ascii c)
                    (rstrip whitespace (lstrip whitespace (map to_ascii s)))).
  { apply rstrip_keeps; [|exact Hws]. now apply lstrip_keeps. }
  destruct (rstrip whitespace (lstrip whitespace (map to_ascii s))) as [|x rest];
    [destruct Hbody|].
  destruct (N.eqb_spec x 45) as [->|Hx45].
  - destruct Hbody as [Heq|Hrest]; [congruence|].
    now rewrite (parse_unsigned_bad rest (to_ascii c)).
  - destruct (N.eqb_spec x 43) as [->|Hx43].
    + destruct Hbody as [Heq|Hrest]; [congruence|].
      now rewrite (parse_unsigned_bad rest (to_ascii c)).
    + now rewrite (parse_unsigned_bad (x :: rest) (to_ascii c)).
Qed.

(** For an ASCII character the test can be made on the character itself. *)
Lemma ascii_bad_char (c : codepoint) :
  (c < 128)%N ->
  (is_digit c || mem c (whitespace ++ lit "+-")) = false ->
  is_digit (to_ascii c) = false /\ mem (to_ascii c) whitespace = false
  /\ to_ascii c <> 45%N /\ to_ascii c <> 43%N.
Proof.
  intros Hascii Hbad. apply orb_false_iff in Hbad. destruct Hbad as [Hd Hmem].
  destruct (N.eq_dec c 127%N) as [->|Hne]; [repeat split; discriminate|].
  rewrite to_ascii_below_del by lia.
  apply mem_false in Hmem. repeat split.
  - exact Hd.
  - apply mem_false. intros Hws. apply Hmem. apply in_or_app. now left.
  - intros ->. apply Hmem. apply in_or_app. right. right. now left.
  - intros ->. apply Hmem. apply in_or_app. right. now left.
Qed.

Lemma callback_arg_prefixed (s : pystr) :
  ~ In 95%N s ->
  callback_arg (lit "page_" ++ s) = int s /\ callback_arg (lit "dl_" ++ s) = int s.
Proof.
  intros Hs. unfold callback_arg. split.
  - change (lit "page_" ++ s) with (lit "page" ++ 95%N :: s).
    rewrite split_app_sep by (intros Hin; in_literal Hin).
    now rewrite split_no_sep by assumption.
  - change (lit "dl_" ++ s) with (lit "dl" ++ 95%N :: s).
    rewrite split_app_sep by (intros Hin; in_literal Hin).
    now rewrite split_no_sep by assumption.
Qed.

(** *** Resolving a download request *)

Lemma button_handler_download (env : Env) (w : World) (user : Z)
    (tracks : list Track) (rank : Z) (track : Track) :
  search_results (user_data_of w user) = Some tracks ->
  0 <= rank ->
  tracks !! Z.to_nat rank = Some track ->
  button_handler env w user (encode_dl rank)
  = download_job env (emit w AnswerCallback) track.
Proof.
  intros Hres Hrank Htrack. unfold button_handler.
  change (startswith (lit "page_") (encode_dl rank)) with false.
  change (startswith (lit "dl_") (encode_dl rank)) with true. cbv iota.
  rewrite callback_arg_encode_dl, user_data_of_emit, Hres. cbn [get].
  pose proof (lookup_lt_Some _ _ _ Htrack) as Hlt.
  destruct (Z.ltb_spec rank 0); [lia|].
  rewrite Z.geb_leb. destruct (Z.leb_spec (Z.of_nat (length tracks)) rank); [lia|].
  cbn [orb]. unfold index. now rewrite Htrack.
Qed.

Lemma prefix_firstn {A} (l : list A) (n : Z) :
  0 <= n -> prefix l n = firstn (Z.to_nat n) l.
Proof.
  intros Hn. unfold prefix, slice, clamp_index.
  change (0 <? 0) with false. cbv iota.
  destruct (Z.ltb_spec n 0); [lia|].
  replace (Z.min 0 (Z.of_nat (length l))) with 0 by lia.
  change (Z.to_nat 0) with 0%nat. change (skipn 0 l) with l. rewrite Z.sub_0_r.
  destruct (Z_le_gt_dec n (Z.of_nat (length l))).
  - f_equal. lia.
  - rewrite !firstn_all2 by lia. reflexivity.
Qed.

End MoreFacts.

(* ===================================================================== *)
(** ** Facts about the handlers with a fallible transport *)
(* ===================================================================== *)

Module FallibleFacts.
Import Py Bot PyFacts BotFacts MoreFacts.

Definition not_audio (ev : Event) : Prop :=
  match ev with
  | ReplyAudio _ => False
  | _ => True
  end.

(** A call that is not the audio delivery goes through or is refused, as
    the transport says. *)
Lemma send_cases (env : Fallible.Env) (ev : Event) (w : World) :
  not_audio ev ->
  (Fallible.transport env (outbox w) ev = Ok tt
   /\ Fallible.send env ev w = (emit w ev, Ok tt))
  \/ (exists e, Fallible.transport env (outbox w) ev = Raise e
                /\ Fallible.send env ev w = (w, Raise e)).
Proof.
  intros Hev. unfold Fallible.send.
  destruct ev; try contradiction;
    match goal with
    | |- context [Fallible.transport env ?d ?ev] =>
        destruct (Fallible.transport env d ev) as [[]|err]
    end; eauto.
Qed.

Lemma send_accepted (env : Fallible.Env) (ev : Event) (w : World) :
  Fallible.accepts_all env -> not_audio ev ->
  Fallible.send env ev w = (emit w ev, Ok tt).
Proof.
  intros Hall Hev. destruct (send_cases env ev w Hev) as [[_ H]|(e & He & _)];
    [exact H|]. rewrite Hall in He. discriminate He.
Qed.

Lemma send_audio_eq (env : Fallible.Env) (audio : Audio) (w : World) :
  Fallible.send env (ReplyAudio audio) w =
  match send_audio (Fallible.engine env) with
  | Ok _ => (emit w (ReplyAudio audio), Ok tt)
  | Raise e => (w, Raise e)
  end.
Proof. reflexivity. Qed.

Lemma send_files (env : Fallible.Env) (ev : Event) (w : World) :
  files (fst (Fallible.send env ev w)) = files w.
Proof.
  unfold Fallible.send.
  destruct (match ev with
            | ReplyAudio _ => send_audio (Fallible.engine env)
            | _ => Fallible.transport env (outbox w) ev
            end); reflexivity.
Qed.

(** With a transport that accepts everything, the handlers are those of
    [Bot]. *)
Lemma send_results_page_accepted (env : Fallible.Env) (w : World) (user : Z)
    (m : option MsgRef) :
  Fallible.accepts_all env ->
  Fallible.send_results_page env user m w = send_results_page w user m.
Proof.
  intros Hall. unfold Fallible.send_results_page, send_results_page.
  destruct (get (search_results (user_data_of w user)) []) as [|t ts]; [reflexivity|].
  unfold Fallible.mbind, Fallible.lift.
  destruct (render_page _ _) as [[text keyboard]|err]; [|reflexivity].
  cbn [fst snd]. destruct m; now rewrite send_accepted.
Qed.

Lemma search_command_accepted (env : Fallible.Env) (w : World) (user : Z)
    (args : list pystr) :
  Fallible.accepts_all env ->
  Fallible.search_command env user args w
  = search_command (Fallible.engine env) w user args.
Proof.
  intros Hall. unfold Fallible.search_command, search_command.
  destruct args as [|a args]; [now rewrite send_accepted|].
  unfold Fallible.mbind, Fallible.try_except, Fallible.lift, Fallible.modify.
  rewrite send_accepted by (auto; exact I).
  destruct (search_youtube _ _ 20) as [[|t ts]|err].
  - now rewrite send_accepted.
  - rewrite send_results_page_accepted by assumption.
    destruct (send_results_page _ user _) as [w1 [[]|err]]; [reflexivity|].
    now rewrite send_accepted.
  - now rewrite send_accepted.
Qed.

Lemma download_job_accepted (env : Fallible.Env) (w : World) (track : Track) :
  Fallible.accepts_all env ->
  Fallible.download_job env track w = download_job (Fallible.engine env) w track.
Proof.
  intros Hall.
  unfold Fallible.download_job, download_job, Fallible.download_and_send,
    download_and_send, Fallible.download_track_as_mp3.
  unfold Fallible.mbind, Fallible.try_except, Fallible.lift, Fallible.modify.
  rewrite send_accepted by (auto; exact I).
  destruct (download_track_as_mp3 _ _ _ _) as [w1 [path|]]; cbn [fst snd].
  - destruct (decide (path ∈ files w1)).
    + destruct (val_prefix (tr_title track) 200) as [title|err];
        [|now rewrite send_accepted].
      destruct (val_prefix (tr_artist track) 200) as [performer|err];
        [|now rewrite send_accepted].
      unfold Fallible.send at 1.
      destruct (send_audio (Fallible.engine env)) as [[]|err];
        [|now rewrite send_accepted].
      now rewrite send_accepted.
    + now rewrite send_accepted.
  - now rewrite send_accepted.
Qed.

Lemma button_handler_accepted (env : Fallible.Env) (w : World) (user : Z)
    (data : pystr) :
  Fallible.accepts_all env ->
  Fallible.button_handler env user data w
  = button_handler (Fallible.engine env) w user data.
Proof.
  intros Hall. unfold Fallible.button_handler, button_handler.
  unfold Fallible.mbind at 1. rewrite send_accepted by (auto; exact I).
  destruct (startswith (lit "page_") data).
  - unfold Fallible.mbind, Fallible.lift, Fallible.modify.
    destruct (callback_arg data) as [target|err]; [|reflexivity].
    now rewrite send_results_page_accepted.
  - destruct (startswith (lit "dl_") data); [|reflexivity].
    unfold Fallible.mbind, Fallible.lift.
    destruct (callback_arg data) as [idx|err]; [|reflexivity].
    destruct ((idx <? 0) || (idx >=? _)); [now rewrite send_accepted|].
    destruct (index _ _) as [track|err]; [|reflexivity].
    now apply download_job_accepted.
Qed.

Lemma dispatch_accepted (env : Fallible.Env) (w : World) (user : Z) (u : Update) :
  Fallible.accepts_all env ->
  Fallible.dispatch env user u w = dispatch (Fallible.engine env) w user u.
Proof.
  intros Hall. unfold Fallible.dispatch, dispatch.
  destruct u as [name args|data].
  - destruct (decide (name = lit "start")).
    + unfold Fallible.start, start. now rewrite send_accepted.
    + destruct (decide (name = lit "search")); [|reflexivity].
      now apply search_command_accepted.
  - now apply button_handler_accepted.
Qed.

(** How a search with arguments can end: the status reply is refused; or
    it ends normally with the status message and one edit of it; or the edit
    of the except handler is refused. *)
Lemma search_command_outcomes (env : Fallible.Env) (w : World) (user : Z)
    (a : pystr) (args : list pystr) :
  let first := ReplyText (msg_searching ++ join (lit " ") (a :: args) ++ lit "...") None in
  let r := Fallible.search_command env user (a :: args) w in
  (exists e, Fallible.transport env (outbox w) first = Raise e /\ r = (w, Raise e))
  \/ (exists w2 text markup,
        r = (w2, Ok tt) /\ files w2 = files w
        /\ outbox w2 = outbox w ++ [first; EditText StatusMsg text markup])
  \/ (exists w2 e e0,
        r = (w2, Raise e) /\ files w2 = files w
        /\ Fallible.transport env (outbox w2)
             (EditText StatusMsg (msg_error ++ exn_text e0) None) = Raise e).
Proof.
  intros first r. subst r. unfold Fallible.search_command. fold first.
  unfold Fallible.try_except, Fallible.mbind, Fallible.lift, Fallible.modify.
  destruct (send_cases env first w I) as [[_ Hs]|(err & Ht & Hs)]; rewrite Hs;
    cbv beta iota.
  2: { left. eauto. }
  right. set (w1 := emit w first).
  assert (Hrecover : forall w2 e0,
            files w2 = files w -> outbox w2 = outbox w ++ [first] ->
            (exists w3 text markup,
               Fallible.send env (EditText StatusMsg (msg_error ++ exn_text e0) None) w2
                 = (w3, Ok tt)
               /\ files w3 = files w
               /\ outbox w3 = outbox w ++ [first; EditText StatusMsg text markup])
            \/ (exists w3 e,
                  Fallible.send env (EditText StatusMsg (msg_error ++ exn_text e0) None) w2
                    = (w3, Raise e)
                  /\ files w3 = files w
                  /\ Fallible.transport env (outbox w3)
                       (EditText StatusMsg (msg_error ++ exn_text e0) None) = Raise e)).
  { intros w2 e0 Hf Ho.
    destruct (send_cases env (EditText StatusMsg (msg_error ++ exn_text e0) None) w2 I)
      as [[_ H]|(err & Ht & H)]; rewrite H.
    - left. eexists _, _, _. split; [reflexivity|]. split; [exact Hf|].
      cbn [emit outbox]. rewrite Ho, <- List.app_assoc. reflexivity.
    - right. eexists _, _. split; [reflexivity|]. split; [exact Hf | exact Ht]. }
  assert (Hfinish : forall w2 e0,
            files w2 = files w -> outbox w2 = outbox w ++ [first] ->
            let r := Fallible.send env
                       (EditText StatusMsg (msg_error ++ exn_text e0) None) w2 in
            (exists w3 text markup,
               r = (w3, Ok tt) /\ files w3 = files w
               /\ outbox w3 = outbox w ++ [first; EditText StatusMsg text markup])
            \/ (exists w3 e e1,
                  r = (w3, Raise e) /\ files w3 = files w
                  /\ Fallible.transport env (outbox w3)
                       (EditText StatusMsg (msg_error ++ exn_text e1) None) = Raise e)).
  { intros w2 e0 Hf Ho r.
    destruct (Hrecover w2 e0 Hf Ho) as [(w3 & t & mk & H1 & H2 & H3)|(w3 & e & H1 & H2 & H3)].
    - left. eauto 10.
    - right. eauto 10. }
  clear Hrecover.
  destruct (search_youtube (Fallible.engine env) _ 20) as [[|t ts]|e0].
  - destruct (send_cases env (EditText StatusMsg msg_nothing_found None) w1 I)
      as [[_ H]|(err & _ & H)]; rewrite H; cbv beta iota.
    + left. eexists _, _, _. split; [reflexivity|]. split; [reflexivity|].
      cbn [emit outbox w1]. subst w1. cbn [emit outbox].
      rewrite <- List.app_assoc. reflexivity.
    + apply Hfinish; reflexivity.
  - unfold Fallible.send_results_page. rewrite !user_data_of_set.
    cbn [search_results page get]. unfold Fallible.mbind, Fallible.lift.
    destruct (render_page (t :: ts) 0) as [[text keyboard]|e0]; cbn [fst snd].
    + match goal with
      | |- context [Fallible.send env ?ev ?w2] =>
          destruct (send_cases env ev w2 I) as [[_ H]|(err & _ & H)]; rewrite H;
            cbv beta iota
      end.
      * left. eexists _, _, _. split; [reflexivity|]. split; [reflexivity|].
        subst w1. cbn [emit outbox set_user_data].
        rewrite <- List.app_assoc. reflexivity.
      * apply Hfinish; reflexivity.
    + apply Hfinish; reflexivity.
  - apply Hfinish; reflexivity.
Qed.

(** How a download job can end. *)
Lemma download_job_outcomes (env : Fallible.Env) (w : World) (track : Track) :
  let status := ReplyText (msg_downloading ++ tr_full_name track ++ lit "...") None in
  let r := Fallible.download_job env track w in
  (exists e, Fallible.transport env (outbox w) status = Raise e /\ r = (w, Raise e))
  \/ (exists w2 tail,
        r = (w2, Ok tt) /\ outbox w2 = outbox w ++ status :: tail
        /\ ((exists audio, tail = [ReplyAudio audio; DeleteMessage StatusMsg])
            \/ tail = [EditText StatusMsg msg_download_failed None]
            \/ (exists e0, tail = [EditText StatusMsg (msg_download_error ++ exn_text e0) None])
            \/ (exists audio e0,
                  tail = [ReplyAudio audio;
                          EditText StatusMsg (msg_download_error ++ exn_text e0) None])))
  \/ (exists w2 e e0,
        r = (w2, Raise e)
        /\ Fallible.transport env (outbox w2)
             (EditText StatusMsg (msg_download_error ++ exn_text e0) None) = Raise e).
Proof.
  intros status r. subst r. unfold Fallible.download_job. fold status.
  unfold Fallible.try_except, Fallible.download_and_send, Fallible.download_track_as_mp3,
    Fallible.mbind, Fallible.lift, Fallible.modify.
  destruct (send_cases env status w I) as [[_ Hs]|(err & Ht & Hs)]; rewrite Hs;
    cbv beta iota.
  2: { left. eauto. }
  right. set (w1 := emit w status).
  assert (Hfinish : forall w2 e0 (sent : list Event),
            outbox w2 = outbox w ++ status :: sent ->
            (sent = [] \/ exists audio, sent = [ReplyAudio audio]) ->
            let r := Fallible.send env
                       (EditText StatusMsg (msg_download_error ++ exn_text e0) None) w2 in
            (exists w3 tail,
               r = (w3, Ok tt) /\ outbox w3 = outbox w ++ status :: tail
               /\ ((exists audio, tail = [ReplyAudio audio; DeleteMessage StatusMsg])
                   \/ tail = [EditText StatusMsg msg_download_failed None]
                   \/ (exists e1, tail = [EditText StatusMsg
                                            (msg_download_error ++ exn_text e1) None])
                   \/ (exists audio e1,
                         tail = [ReplyAudio audio;
                                 EditText StatusMsg
                                   (msg_download_error ++ exn_text e1) None])))
            \/ (exists w3 e e1,
                  r = (w3, Raise e)
                  /\ Fallible.transport env (outbox w3)
                       (EditText StatusMsg (msg_download_error ++ exn_text e1) None)
                     = Raise e)).
  { intros w2 e0 sent Ho Hsent r.
    destruct (send_cases env
                (EditText StatusMsg (msg_download_error ++ exn_text e0) None) w2 I)
      as [[_ H]|(err & Ht & H)]; subst r; rewrite H.
    - left. eexists _, _. split; [reflexivity|]. split.
      + cbn [emit outbox]. rewrite Ho, <- List.app_assoc. reflexivity.
      + destruct Hsent as [->|[audio ->]]; cbn [app]; eauto 10.
    - right. eauto 10. }
  fold w1. rewrite download_track_cases. cbn [fst snd].
  set (out := ydl_download (Fallible.engine env) _ _ (files w1)).
  set (w2 := set_files w1 (fst out)).
  assert (Ho2 : outbox w2 = outbox w ++ status :: [])
    by (subst w2 w1; reflexivity).
  assert (Hfailed :
            let r := match Fallible.send env
                             (EditText StatusMsg msg_download_failed None) w2 with
                     | (w', Ok a) => (w', Ok a)
                     | (w', Raise e) =>
                         Fallible.send env
                           (EditText StatusMsg (msg_download_error ++ exn_text e) None) w'
                     end in
            (exists w3 tail,
               r = (w3, Ok tt) /\ outbox w3 = outbox w ++ status :: tail
               /\ ((exists audio, tail = [ReplyAudio audio; DeleteMessage StatusMsg])
                   \/ tail = [EditText StatusMsg msg_download_failed None]
                   \/ (exists e1, tail = [EditText StatusMsg
                                            (msg_download_error ++ exn_text e1) None])
                   \/ (exists audio e1,
                         tail = [ReplyAudio audio;
                                 EditText StatusMsg
                                   (msg_download_error ++ exn_text e1) None])))
            \/ (exists w3 e e1,
                  r = (w3, Raise e)
                  /\ Fallible.transport env (outbox w3)
                       (EditText StatusMsg (msg_download_error ++ exn_text e1) None)
                     = Raise e)).
  { intros r. subst r.
    destruct (send_cases env (EditText StatusMsg msg_download_failed None) w2 I)
      as [[_ H]|(err & _ & H)]; rewrite H; cbv beta iota.
    - left. eexists _, _. split; [reflexivity|]. split.
      + cbn [emit outbox]. rewrite Ho2, <- List.app_assoc. reflexivity.
      + right. left. reflexivity.
    - apply (Hfinish w2 err []); [exact Ho2 | now left]. }
  destruct (snd out) as [[|]|e0]; try exact Hfailed.
  destruct (decide (downloaded_file (Fallible.engine env) track ∈ fst out)) as [Hin|Hout];
    [|exact Hfailed].
  assert (Hin2 : downloaded_file (Fallible.engine env) track ∈ files w2)
    by (subst w2; exact Hin).
  rewrite decide_True by exact Hin2. clear Hfailed.
  destruct (val_prefix (tr_title track) 200) as [title|e0];
    [|apply (Hfinish w2 e0 []); [exact Ho2 | now left]].
  destruct (val_prefix (tr_artist track) 200) as [performer|e0];
    [|apply (Hfinish w2 e0 []); [exact Ho2 | now left]].
  rewrite send_audio_eq.
  destruct (send_audio (Fallible.engine env)) as [[]|e0]; cbv beta iota;
    [|apply (Hfinish w2 e0 []); [exact Ho2 | now left]].
  match goal with
  | |- context [Fallible.send env (DeleteMessage StatusMsg) ?w3] =>
      destruct (send_cases env (DeleteMessage StatusMsg) w3 I)
        as [[_ H]|(err & _ & H)]; rewrite H; cbv beta iota
  end.
  - left. eexists _, _. split; [reflexivity|]. split.
    + cbn [emit outbox set_files]. rewrite Ho2, <- !List.app_assoc. reflexivity.
    + left. eauto.
  - eapply Hfinish.
    + cbn [emit outbox set_files]. rewrite Ho2, <- !List.app_assoc. reflexivity.
    + right. eauto.
Qed.

End FallibleFacts.

(* ===================================================================== *)
(** ** Further properties of the code *)
(* ===================================================================== *)

Import MoreFacts.

(** X1: what [format_duration] shows for a whole number of seconds below one
    day: under a minute the bare seconds, under an hour the minutes without
    padding and the seconds on two digits, from an hour on hours, minutes and
    seconds. *)
Theorem format_duration_below_a_day (n : Z) :
  0 < n < 86400 ->
  format_duration (DInt n) =
  Ok (if n <? 60 then str_int n
      else if n <? 3600 then str_int (n / 60) ++ lit ":" ++ pad2 (n mod 60)
      else str_int (n / 3600) ++ lit ":" ++ pad2 (n / 60 mod 60) ++ lit ":"
             ++ pad2 (n mod 60)).
Proof.
  intros Hn. rewrite format_duration_int by assumption. f_equal.
  assert (Hstr : forall k, 0 <= k -> str_int k = str_nonneg k).
  { intros k Hk. unfold str_int. destruct (Z.ltb_spec k 0); [lia | reflexivity]. }
  destruct (Z.ltb_spec n 60) as [H60|H60]; [|destruct (Z.ltb_spec n 3600) as [H3600|H3600]].
  - replace (n / 60 / 60) with 0 by (Z.div_mod_to_equations; lia).
    replace (n / 60 mod 60) with 0 by (Z.div_mod_to_equations; lia).
    rewrite (Z.mod_small n 60) by lia.
    change (str_int 0 ++ lit ":" ++ pad2 0 ++ lit ":" ++ pad2 n)
      with ([48; 58; 48; 48; 58]%N ++ pad2 n).
    cbn [app lstrip]. change (mem 48%N (lit "0:")) with true.
    change (mem 58%N (lit "0:")) with true. cbv iota.
    rewrite <- (app_nil_r (pad2 n)), lstrip_zero_colon_pad2 by lia.
    rewrite app_nil_r. symmetry. apply Hstr. lia.
  - replace (n / 60 / 60) with 0 by (Z.div_mod_to_equations; lia).
    rewrite (Z.mod_small (n / 60) 60) by (Z.div_mod_to_equations; lia).
    change (str_int 0 ++ lit ":" ++ pad2 (n / 60) ++ lit ":" ++ pad2 (n mod 60))
      with ([48; 58]%N ++ pad2 (n / 60) ++ lit ":" ++ pad2 (n mod 60)).
    cbn [app lstrip]. change (mem 48%N (lit "0:")) with true.
    change (mem 58%N (lit "0:")) with true. cbv iota.
    rewrite lstrip_zero_colon_pad2 by (Z.div_mod_to_equations; lia).
    rewrite Hstr by (Z.div_mod_to_equations; lia). reflexivity.
  - rewrite Z.div_div by lia. change (60 * 60) with 3600.
    rewrite Hstr by (Z.div_mod_to_equations; lia).
    apply lstrip_zero_colon_str. Z.div_mod_to_equations; lia.
Qed.

(** Three minutes and 25 seconds. *)
Lemma format_duration_below_a_day_witness :
  format_duration (DInt 205) =
  Ok (if 205 <? 60 then str_int 205
      else if 205 <? 3600 then str_int (205 / 60) ++ lit ":" ++ pad2 (205 mod 60)
      else str_int (205 / 3600) ++ lit ":" ++ pad2 (205 / 60 mod 60) ++ lit ":"
             ++ pad2 (205 mod 60)).
Proof. apply (format_duration_below_a_day 205). lia. Defined.

(** X2: a duration that is not zero but shorter than one second (a float
    such as 0.5 or -0.5) is rendered as the empty string: it passes the
    zero test, [int] truncates it to 0, and the strip removes all of
    0:00:00. *)
Theorem format_duration_fraction_is_empty (q : Q) :
  Qnum q <> 0 ->
  Z.abs (Qnum q) < Z.pos (Qden q) ->
  format_duration (DFloat q) = Ok [].
Proof.
  intros Hnz Hsmall. unfold format_duration, dur_truthy.
  destruct (Z.eqb_spec (Qnum q) 0); [contradiction|]. cbn [negb dur_int bind].
  assert (Hq : Z.quot (Qnum q) (Z.pos (Qden q)) = 0).
  { apply Z.quot_small_iff; [discriminate | lia]. }
  rewrite Hq. reflexivity.
Qed.

(** Half a second. *)
Lemma format_duration_fraction_is_empty_witness :
  format_duration (DFloat (1 # 2)) = Ok [].
Proof.
  apply (format_duration_fraction_is_empty (1 # 2)).
  - discriminate.
  - reflexivity.
Defined.

(** X3: the callback data of a page button round-trips for every integer,
    negative ones included: it is recognised as a navigation request, decodes
    to the target, and the handler stores exactly that target; fields after
    a second underscore are ignored. *)
Theorem page_callback_round_trip (env : Env) (w : World) (user : Z)
    (target : Z) (rest : pystr) :
  startswith (lit "page_") (encode_page target) = true
  /\ callback_arg (encode_page target) = Ok target
  /\ callback_arg (encode_page target ++ lit "_" ++ rest) = Ok target
  /\ page (user_data_of (fst (button_handler env w user (encode_page target))) user)
     = Some target.
Proof.
  split; [reflexivity|]. split; [apply callback_arg_encode_page|]. split.
  - unfold callback_arg, encode_page.
    change (lit "page_" ++ str_int target)
      with (lit "page" ++ 95%N :: str_int target).
    change (lit "_" ++ rest) with (95%N :: rest).
    rewrite <- List.app_assoc. cbn [app].
    change (112 :: 97 :: 103 :: 101 :: 95 :: str_int target ++ 95 :: rest)%N
      with (lit "page" ++ 95%N :: str_int target ++ 95%N :: rest).
    rewrite split_prefixed;
      [| intros Hin; in_literal Hin | apply str_int_no_underscore].
    simpl. apply int_str_int.
  - pose proof (button_handler_user_data env w user (encode_page target)) as Hud.
    change (startswith (lit "page_") (encode_page target)) with true in Hud.
    rewrite callback_arg_encode_page in Hud.
    now rewrite (user_data_of_insert w _ user _ Hud).
Qed.

(** X4: the navigation buttons of a valid page lead to valid pages only:
    each carries page_N with N the page before or after, N decodes back, and
    N is again a page of the result set. *)
Theorem nav_buttons_stay_in_range (total page : Z) (b : Button) :
  valid_page total page ->
  In b (nav_buttons total page) ->
  exists target,
    callback_data b = encode_page target
    /\ callback_arg (callback_data b) = Ok target
    /\ (target = page - 1 \/ target = page + 1)
    /\ valid_page total target.
Proof.
  intros Hvalid Hin. unfold nav_buttons in Hin.
  rewrite has_prev_spec, has_next_spec in Hin.
  unfold valid_page in *.
  apply in_app_or in Hin. destruct Hin as [Hin|Hin].
  - destruct (Z.ltb_spec 0 page); [|destruct Hin].
    destruct Hin as [<-|[]]. exists (page - 1). cbn [callback_data].
    split; [reflexivity|]. split; [apply callback_arg_encode_page|].
    split; [now left | lia].
  - destruct (Z.ltb_spec page (page_count total - 1)); [|destruct Hin].
    destruct Hin as [<-|[]]. exists (page + 1). cbn [callback_data].
    split; [reflexivity|]. split; [apply callback_arg_encode_page|].
    split; [now right | lia].
Qed.

(** The next button of the first page of 20 results. *)
Lemma nav_buttons_stay_in_range_witness :
  exists target,
    callback_data {| label := label_next; callback_data := encode_page 1 |}
      = encode_page target
    /\ callback_arg
         (callback_data {| label := label_next; callback_data := encode_page 1 |})
       = Ok target
    /\ (target = 0 - 1 \/ target = 0 + 1)
    /\ valid_page 20 target.
Proof.
  apply (nav_buttons_stay_in_range 20 0
           {| label := label_next; callback_data := encode_page 1 |}).
  - split; [lia | reflexivity].
  - vm_compute. left. reflexivity.
Defined.

(** X5: the page total of the header is the ceiling of the number of
    results over the page size: at least one page when there are results,
    the last page is not empty, and the pages cover all results. *)
Theorem page_count_bounds (total : Z) :
  0 < total ->
  1 <= page_count total
  /\ (page_count total - 1) * RESULTS_PER_PAGE < total
  /\ total <= page_count total * RESULTS_PER_PAGE.
Proof.
  intros H. unfold page_count, RESULTS_PER_PAGE.
  Z.div_mod_to_equations. lia.
Qed.

(** Eleven results make two pages. *)
Lemma page_count_bounds_witness :
  1 <= page_count 11
  /\ (page_count 11 - 1) * RESULTS_PER_PAGE < 11
  /\ 11 <= page_count 11 * RESULTS_PER_PAGE.
Proof. apply (page_count_bounds 11). lia. Defined.

(** X6: a download request whose rank is negative or not below the number
    of stored results is answered with the track-not-found text and nothing
    else happens: no file, no change of the store, and the engine and the
    transport of audio play no part. *)
Theorem download_rank_out_of_range (env : Env) (w : World) (user : Z) (rank : Z) :
  rank < 0 \/ Z.of_nat (length (results_of w user)) <= rank ->
  button_handler env w user (encode_dl rank)
  = (emit (emit w AnswerCallback) (EditText QueryMsg msg_track_not_found None), Ok tt).
Proof.
  intros Hout. unfold button_handler.
  change (startswith (lit "page_") (encode_dl rank)) with false.
  change (startswith (lit "dl_") (encode_dl rank)) with true. cbv iota.
  rewrite callback_arg_encode_dl, user_data_of_emit.
  fold (results_of w user).
  assert (Hc : (rank <? 0) || (rank >=? Z.of_nat (length (results_of w user))) = true).
  { rewrite Z.geb_leb. apply orb_true_iff.
    destruct Hout; [left; now apply Z.ltb_lt | right; now apply Z.leb_le]. }
  now rewrite Hc.
Qed.

(** The button of rank 15 of the earlier 20 results, pressed after the new
    search with three results. *)
Lemma download_rank_out_of_range_witness :
  button_handler Scenario.env_three Scenario.world_after_new_search 1 (encode_dl 15)
  = (emit (emit Scenario.world_after_new_search AnswerCallback)
       (EditText QueryMsg msg_track_not_found None), Ok tt).
Proof.
  apply (download_rank_out_of_range Scenario.env_three
           Scenario.world_after_new_search 1 15).
  right. vm_compute. discriminate.
Defined.

(** X7: pressing a button never changes a result set, of the pressing user
    or of anyone else, and changes nothing at all in the data of other
    users. *)
Theorem button_handler_keeps_results (env : Env) (w : World) (user : Z)
    (data : pystr) (other : Z) :
  let w' := fst (button_handler env w user data) in
  search_results (user_data_of w' other) = search_results (user_data_of w other)
  /\ (other <> user -> user_data w' !! other = user_data w !! other).
Proof.
  intros w'. pose proof (button_handler_user_data env w user data) as Hud.
  fold w' in Hud. unfold user_data_of. rewrite Hud.
  destruct (startswith (lit "page_") data); [|now split].
  destruct (callback_arg data) as [target|e]; [|now split].
  split.
  - destruct (decide (other = user)) as [->|Hne].
    + now rewrite lookup_insert_eq.
    + now rewrite lookup_insert_ne.
  - intros Hne. now rewrite lookup_insert_ne.
Qed.

(** X8: a valid page is never empty and never longer than the page size:
    it has min(10, total - 10 * page) items, so every page but the last has
    exactly ten. *)
Theorem valid_page_size (tracks : list Track) (page : Z) :
  valid_page (Z.of_nat (length tracks)) page ->
  let total := Z.of_nat (length tracks) in
  let shown := Z.of_nat (length (page_tracks tracks page)) in
  shown = Z.min 10 (total - page * 10)
  /\ 1 <= shown <= 10
  /\ (page < page_count total - 1 -> shown = 10).
Proof.
  intros Hvalid total shown. subst shown.
  pose proof Hvalid as Hv. apply valid_page_start in Hv.
  unfold start_index, RESULTS_PER_PAGE in Hv. destruct Hv as [Hpage Hstart].
  rewrite page_tracks_length by assumption. fold total.
  split; [lia|]. split; [lia|].
  intros Hlast. unfold page_count, RESULTS_PER_PAGE in Hlast.
  Z.div_mod_to_equations. lia.
Qed.

(** The second page of 20 results. *)
Lemma valid_page_size_witness :
  let total := Z.of_nat (length Scenario.tracks20) in
  let shown := Z.of_nat (length (page_tracks Scenario.tracks20 1)) in
  shown = Z.min 10 (total - 1 * 10)
  /\ 1 <= shown <= 10
  /\ (1 < page_count total - 1 -> shown = 10).
Proof.
  apply (valid_page_size Scenario.tracks20 1).
  split; [lia | reflexivity].
Defined.

(** X9: the pages 0 .. pageCount-1, one after the other, are the stored
    result list: paging loses no track, repeats none and keeps the order. *)
Theorem pages_partition_results (tracks : list Track) :
  concat (map (fun p => page_tracks tracks (Z.of_nat p))
            (seq 0 (Z.to_nat (page_count (Z.of_nat (length tracks))))))
  = tracks.
Proof.
  rewrite <- (chunks_concat (Z.to_nat (page_count (Z.of_nat (length tracks)))) tracks) at 2.
  - f_equal. apply map_ext. intros p. rewrite page_tracks_chunk by lia.
    do 2 f_equal. lia.
  - unfold page_count, RESULTS_PER_PAGE. Z.div_mod_to_equations. lia.
Qed.

(** X10: on a rendered page with a non-negative index, the keyboard has one
    row per shown track, then the navigation row if there is a button for
    it; the button in row k decodes to the rank start + k, and that rank
    holds, in the stored list, the very track shown in row k. *)
Theorem page_keyboard_rows (tracks : list Track) (page : Z)
    (text : pystr) (keyboard : Keyboard) :
  0 <= page ->
  render_page tracks page = Ok (text, keyboard) ->
  let total := Z.of_nat (length tracks) in
  length keyboard
  = (length (page_tracks tracks page)
     + (if has_prev page || has_next total page then 1 else 0))%nat
  /\ forall k track,
       page_tracks tracks page !! k = Some track ->
       exists b,
         keyboard !! k = Some [b]
         /\ callback_arg (callback_data b) = Ok (start_index page + Z.of_nat k)
         /\ tracks !! Z.to_nat (start_index page + Z.of_nat k) = Some track.
Proof.
  intros Hpage Hrender total. split.
  - unfold render_page in Hrender. apply bind_ok in Hrender.
    destruct Hrender as (rows & Hrows & Hout). injection Hout as _ <-.
    apply mapM_length in Hrows. rewrite enumerate_length in Hrows.
    rewrite length_app, length_map, Hrows. f_equal.
    fold total. unfold nav_buttons.
    destruct (has_prev page), (has_next total page); reflexivity.
  - intros k track Hk.
    destruct (page_tracks_lookup _ _ _ _ Hpage Hk) as [Htrack Hk10].
    change (start_index page) with (page * 10).
    set (rank := page * 10 + Z.of_nat k) in *.
    exists {| label := str_int (rank + 1) ++ lit ". " ++ prefix (tr_full_name track) 40;
              callback_data := encode_dl rank |}.
    split; [|split; [apply callback_arg_encode_dl | exact Htrack]].
    replace k with (Z.to_nat (rank - start_index page)) at 1
      by (unfold start_index, RESULTS_PER_PAGE; lia).
    eapply render_page_button; eauto.
    unfold start_index, RESULTS_PER_PAGE. lia.
Qed.

(** The first page of 20 results as the handler renders it. *)
Lemma page_keyboard_rows_witness :
  exists text keyboard,
    render_page Scenario.tracks20 0 = Ok (text, keyboard)
    /\ length keyboard = 11%nat
    /\ forall k track,
         page_tracks Scenario.tracks20 0 !! k = Some track ->
         exists b,
           keyboard !! k = Some [b]
           /\ callback_arg (callback_data b) = Ok (start_index 0 + Z.of_nat k)
           /\ Scenario.tracks20 !! Z.to_nat (start_index 0 + Z.of_nat k) = Some track.
Proof.
  destruct (render_page Scenario.tracks20 0) as [[text keyboard]|e] eqn:E;
    [|vm_compute in E; discriminate E].
  exists text, keyboard. split; [reflexivity|].
  apply (page_keyboard_rows Scenario.tracks20 0 text keyboard).
  - lia.
  - exact E.
Defined.

(** X11: the search command lets an exception escape only when the
    transport refuses a message: the first reply, which is sent before the
    try block, or the error edit made inside the except handler; whatever the
    search or the rendering raises is caught.  When it ends normally it has
    sent the usage hint (no arguments) or the status message followed by
    exactly one edit of it; with a transport that accepts everything it
    always ends normally.  It never touches the files. *)
Theorem search_command_always_answers (env : Fallible.Env) (w : World) (user : Z)
    (args : list pystr) :
  let first :=
    match args with
    | [] => ReplyText msg_usage None
    | _ :: _ => ReplyText (msg_searching ++ join (lit " ") args ++ lit "...") None
    end in
  let r := Fallible.search_command env user args w in
  files (fst r) = files w
  /\ (forall e, snd r = Raise e ->
        Fallible.transport env (outbox w) first = Raise e
        \/ exists delivered e0,
             Fallible.transport env delivered
               (EditText StatusMsg (msg_error ++ exn_text e0) None) = Raise e)
  /\ (snd r = Ok tt ->
        exists text markup,
          outbox (fst r) =
          outbox w ++
          match args with
          | [] => [first]
          | _ :: _ => [first; EditText StatusMsg text markup]
          end)
  /\ (Fallible.accepts_all env -> snd r = Ok tt).
Proof.
  intros first r. destruct args as [|a args].
  - subst r. unfold Fallible.search_command. fold first.
    destruct (FallibleFacts.send_cases env first w I) as [[_ H]|(err & Ht & H)];
      rewrite H; cbn [fst snd emit files outbox].
    + split; [reflexivity|]. split; [discriminate|]. split; [|reflexivity].
      intros _. exists [], None. reflexivity.
    + split; [reflexivity|]. split; [|split].
      * intros e He. injection He as <-. now left.
      * discriminate.
      * intros Hall. rewrite Hall in Ht. discriminate Ht.
  - destruct (FallibleFacts.search_command_outcomes env w user a args)
      as [(e1 & Ht & Hr)|[(w2 & text & markup & Hr & Hf & Ho)|(w2 & e1 & e0 & Hr & Hf & Ht)]];
      subst r first; rewrite Hr; cbn [fst snd].
    + split; [reflexivity|]. split; [|split].
      * intros e He. injection He as <-. now left.
      * discriminate.
      * intros Hall. rewrite Hall in Ht. discriminate Ht.
    + split; [exact Hf|]. split; [discriminate|]. split; [|reflexivity].
      intros _. exists text, markup. exact Ho.
    + split; [exact Hf|]. split; [|split].
      * intros e He. injection He as <-. right. eauto.
      * discriminate.
      * intros Hall. rewrite Hall in Ht. discriminate Ht.
Qed.

(** X12: a search that yields no track (the engine found nothing, could not
    be reached, or gave an entry without id) tells the user that nothing was
    found and leaves the store as it was: the previous result set and page of
    the user stay in force. *)
Theorem search_without_tracks_keeps_session (env : Env) (w : World) (user : Z)
    (args : list pystr) :
  args <> [] ->
  search_youtube env (join (lit " ") args) 20 = Ok [] ->
  search_command env w user args =
  (emit (emit w (ReplyText (msg_searching ++ join (lit " ") args ++ lit "...") None))
     (EditText StatusMsg msg_nothing_found None),
   Ok tt).
Proof.
  intros Hargs Hnone. destruct args as [|a args]; [congruence|].
  rewrite search_command_cases. now rewrite Hnone.
Qed.

(** The engine is down while user 1 holds 20 results. *)
Lemma search_without_tracks_keeps_session_witness :
  search_command Scenario.env_engine_down Scenario.world20 1 [lit "Believer"] =
  (emit (emit Scenario.world20
           (ReplyText (msg_searching ++ join (lit " ") [lit "Believer"] ++ lit "...") None))
     (EditText StatusMsg msg_nothing_found None),
   Ok tt).
Proof.
  apply (search_without_tracks_keeps_session Scenario.env_engine_down
           Scenario.world20 1 [lit "Believer"]).
  - discriminate.
  - vm_compute. reflexivity.
Defined.

(** X13: [download_track_as_mp3] never raises and touches only the files.
    When it returns a path, that path is the template with its extension
    replaced by mp3 and the file exists; when the engine raises or gives no
    info it returns None. *)
Theorem download_track_returns_existing_file (env : Env) (w : World)
    (video_id : pystr) (track : Track) :
  let out := ydl_download env (lit "https://www.youtube.com/watch?v=" ++ video_id)
               (output_template env track) (files w) in
  let r := download_track_as_mp3 env w video_id track in
  user_data (fst r) = user_data w
  /\ outbox (fst r) = outbox w
  /\ files (fst r) = fst out
  /\ (forall path, snd r = Some path ->
        path = downloaded_file env track /\ path ∈ files (fst r)
        /\ snd out = Ok true)
  /\ (snd out <> Ok true -> snd r = None).
Proof.
  intros out r. subst r. rewrite download_track_cases. fold out.
  cbn [fst snd set_files user_data outbox files].
  split; [reflexivity|]. split; [reflexivity|]. split; [reflexivity|]. split.
  - intros path Hsome. destruct (snd out) as [[|]|e]; try discriminate Hsome.
    destruct (decide (downloaded_file env track ∈ fst out)) as [Hin|Hout];
      [|discriminate Hsome].
    injection Hsome as <-. now repeat split.
  - intros Hne. destruct (snd out) as [[|]|e]; try reflexivity. congruence.
Qed.

(** X14: a download job lets an exception escape only when the transport
    refuses a message: the status reply, which is sent before the try block,
    or the error edit made inside the except handler.  When it ends normally,
    what it sent after the status message is one of: the audio and the
    deletion of the status message; the could-not-download edit; an error
    edit; the audio and then an error edit (the audio went out and the
    deletion was refused).  With a transport that accepts everything it
    always ends normally. *)
Theorem download_job_always_answers (env : Fallible.Env) (w : World) (track : Track) :
  let status := ReplyText (msg_downloading ++ tr_full_name track ++ lit "...") None in
  let r := Fallible.download_job env track w in
  (forall e, snd r = Raise e ->
     Fallible.transport env (outbox w) status = Raise e
     \/ exists delivered e0,
          Fallible.transport env delivered
            (EditText StatusMsg (msg_download_error ++ exn_text e0) None) = Raise e)
  /\ (snd r = Ok tt ->
        exists tail,
          outbox (fst r) = outbox w ++ status :: tail
          /\ ((exists audio, tail = [ReplyAudio audio; DeleteMessage StatusMsg])
              \/ tail = [EditText StatusMsg msg_download_failed None]
              \/ (exists e0,
                    tail = [EditText StatusMsg (msg_download_error ++ exn_text e0) None])
              \/ (exists audio e0,
                    tail = [ReplyAudio audio;
                            EditText StatusMsg
                              (msg_download_error ++ exn_text e0) None])))
  /\ (Fallible.accepts_all env -> snd r = Ok tt).
Proof.
  intros status r.
  destruct (FallibleFacts.download_job_outcomes env w track)
    as [(e1 & Ht & Hr)|[(w2 & tail & Hr & Ho & Htail)|(w2 & e1 & e0 & Hr & Ht)]];
    subst r status; rewrite Hr; cbn [fst snd].
  - split; [|split].
    + intros e He. injection He as <-. now left.
    + discriminate.
    + intros Hall. rewrite Hall in Ht. discriminate Ht.
  - split; [discriminate|]. split; [|reflexivity].
    intros _. exists tail. split; [exact Ho | exact Htail].
  - split; [|split].
    + intros e He. injection He as <-. right. eauto.
    + discriminate.
    + intros Hall. rewrite Hall in Ht. discriminate Ht.
Qed.

(** X15: when the engine has written the file and the audio is delivered,
    the job removes exactly its own file: the files afterwards are those the
    engine left, without the job's path; the last thing done is to delete the
    status message. *)
Theorem delivered_file_removed (env : Env) (w : World) (track : Track)
    (fs : gset pystr) (title performer : pystr) :
  ydl_download env (lit "https://www.youtube.com/watch?v=" ++ tr_video_id track)
    (output_template env track) (files w) = (fs, Ok true) ->
  downloaded_file env track ∈ fs ->
  tr_title track = VStr title ->
  tr_artist track = VStr performer ->
  send_audio env = Ok tt ->
  let w' := fst (download_job env w track) in
  files w' = fs ∖ {[ downloaded_file env track ]}
  /\ (downloaded_file env track ∉ files w')
  /\ last (outbox w') = Some (DeleteMessage StatusMsg).
Proof.
  intros Hdl Hin Htitle Hartist Hsend w'.
  pose proof (delivery_removes_file env w track fs title performer
                Hdl Hin Htitle Hartist Hsend) as Hfiles.
  fold w' in Hfiles. split; [exact Hfiles|]. split.
  - rewrite Hfiles. intros Hmem. apply elem_of_difference in Hmem.
    destruct Hmem as [_ Hmem]. apply Hmem. now apply elem_of_singleton.
  - subst w'. unfold download_job, download_and_send, download_track_as_mp3.
    cbn [emit files]. rewrite Hdl. cbn [set_files files].
    rewrite !decide_True by exact Hin. rewrite Htitle, Hartist, Hsend.
    cbn [val_prefix fst emit outbox set_files]. apply last_snoc.
Qed.

(** Track 3 of the 20 results, downloaded and delivered. *)
Lemma delivered_file_removed_witness :
  let env := Scenario.env_three in
  let track := Scenario.track 3 in
  let w' := fst (download_job env Scenario.world20 track) in
  files w' = ({[ downloaded_file env track ]} ∪ ∅) ∖ {[ downloaded_file env track ]}
  /\ (downloaded_file env track ∉ files w')
  /\ last (outbox w') = Some (DeleteMessage StatusMsg).
Proof.
  apply (delivered_file_removed Scenario.env_three Scenario.world20 (Scenario.track 3)
           ({[ downloaded_file Scenario.env_three (Scenario.track 3) ]} ∪ ∅)
           (lit "Song 3") (lit "Band")).
  - reflexivity.
  - apply elem_of_union_l, elem_of_singleton. reflexivity.
  - reflexivity.
  - reflexivity.
  - reflexivity.
Defined.

(** X16: a track whose title is None (the key was there, without a value)
    cannot be delivered: the file is downloaded, slicing the title raises,
    the user gets the error text, no audio is sent and the file stays. *)
Theorem none_title_blocks_delivery (env : Env) (w : World) (track : Track)
    (fs : gset pystr) :
  ydl_download env (lit "https://www.youtube.com/watch?v=" ++ tr_video_id track)
    (output_template env track) (files w) = (fs, Ok true) ->
  downloaded_file env track ∈ fs ->
  tr_title track = VNone ->
  download_job env w track =
  (emit (set_files
           (emit w (ReplyText (msg_downloading ++ tr_full_name track ++ lit "...") None))
           fs)
     (EditText StatusMsg
        (msg_download_error ++ lit "'NoneType' object is not subscriptable") None),
   Ok tt).
Proof.
  intros Hdl Hin Htitle.
  unfold download_job, download_and_send, download_track_as_mp3.
  cbn [emit files]. rewrite Hdl. cbn [set_files files].
  rewrite !decide_True by exact Hin. rewrite Htitle. reflexivity.
Qed.

(** The untitled track, requested by a user. *)
Lemma none_title_blocks_delivery_witness :
  let env := Scenario.env_three in
  let track := MoreScenario.track_untitled in
  download_job env Scenario.empty_world track =
  (emit (set_files
           (emit Scenario.empty_world
              (ReplyText (msg_downloading ++ tr_full_name track ++ lit "...") None))
           ({[ downloaded_file env track ]} ∪ ∅))
     (EditText StatusMsg
        (msg_download_error ++ lit "'NoneType' object is not subscriptable") None),
   Ok tt).
Proof.
  apply (none_title_blocks_delivery Scenario.env_three Scenario.empty_world
           MoreScenario.track_untitled
           ({[ downloaded_file Scenario.env_three MoreScenario.track_untitled ]} ∪ ∅)).
  - reflexivity.
  - apply elem_of_union_l, elem_of_singleton. reflexivity.
  - reflexivity.
Defined.

(** X17: whatever update a user sends, the data of every other user stays
    as it is. *)
Theorem dispatch_keeps_other_users (env : Env) (w : World) (user other : Z)
    (u : Update) :
  other <> user ->
  user_data (fst (dispatch env w user u)) !! other = user_data w !! other.
Proof.
  intros Hne. destruct u as [name args|data]; unfold dispatch.
  - destruct (decide (name = lit "start")); [reflexivity|].
    destruct (decide (name = lit "search")); [|reflexivity].
    rewrite search_command_user_data. destruct args as [|a args]; [reflexivity|].
    destruct (search_youtube env _ 20) as [[|t ts]|err]; try reflexivity.
    now rewrite lookup_insert_ne.
  - rewrite button_handler_user_data.
    destruct (startswith (lit "page_") data); [|reflexivity].
    destruct (callback_arg data) as [target|err]; [|reflexivity].
    now rewrite lookup_insert_ne.
Qed.

(** User 1 searches; user 2 is not affected. *)
Lemma dispatch_keeps_other_users_witness :
  user_data (fst (dispatch Scenario.env_three Scenario.world20 1
                    (Command (lit "search") [lit "Believer"]))) !! 2
  = user_data Scenario.world20 !! 2.
Proof.
  apply (dispatch_keeps_other_users Scenario.env_three Scenario.world20 1 2
           (Command (lit "search") [lit "Believer"])).
  lia.
Defined.

(** X18: only a download request can create or remove files: every command
    and every callback that is a navigation request or has an unknown prefix
    leaves the files as they are. *)
Theorem only_downloads_touch_files (env : Env) (w : World) (user : Z) (u : Update) :
  match u with
  | Command _ _ => True
  | Callback data =>
      startswith (lit "page_") data = true \/ startswith (lit "dl_") data = false
  end ->
  files (fst (dispatch env w user u)) = files w.
Proof.
  intros Hu. destruct u as [name args|data]; unfold dispatch.
  - destruct (decide (name = lit "start")); [reflexivity|].
    destruct (decide (name = lit "search")); [|reflexivity].
    apply search_command_files.
  - unfold button_handler.
    destruct (startswith (lit "page_") data) eqn:Epage.
    + destruct (callback_arg data) as [target|err]; [|reflexivity].
      match goal with
      | |- context [send_results_page ?w0 user ?m] =>
          pose proof (send_results_page_state w0 user m) as [_ Hf]
      end.
      rewrite Hf. reflexivity.
    + destruct Hu as [Hu|Hu]; [discriminate|]. now rewrite Hu.
Qed.

(** A navigation request while a file of another job lies in /tmp. *)
Lemma only_downloads_touch_files_witness :
  files (fst (dispatch Scenario.env_three Scenario.world20 1 (Callback (encode_page 1))))
  = files Scenario.world20.
Proof.
  apply (only_downloads_touch_files Scenario.env_three Scenario.world20 1
           (Callback (encode_page 1))).
  left. reflexivity.
Defined.

(** X19: one entry without the id key spoils the whole search: wherever it
    stands among the entries, the KeyError is caught by the outer handler
    and the search returns the empty list, the complete entries before it
    included. *)
Theorem search_entry_without_id_empties_result (env : Env) (query : pystr)
    (max_results : Z) (entries : list (option Entry)) (entry : Entry) :
  ydl_search env (lit "ytsearch" ++ str_int max_results ++ lit ":" ++ query)
    = Ok (Some (Some entries)) ->
  In (Some entry) entries ->
  e_id entry = None ->
  search_youtube env query max_results = Ok [].
Proof.
  intros Hengine Hin Hid. unfold search_youtube, search_youtube_try.
  rewrite Hengine. cbn [bind].
  destruct (collect_tracks_missing_id entries [] entry Hin Hid) as [e ->].
  reflexivity.
Qed.

(** A complete entry, a falsy one, and one without id. *)
Lemma search_entry_without_id_empties_result_witness :
  search_youtube MoreScenario.env_broken_entry (lit "Believer") 20 = Ok [].
Proof.
  apply (search_entry_without_id_empties_result MoreScenario.env_broken_entry
           (lit "Believer") 20
           [Some (Scenario.entry 0); None; Some MoreScenario.entry_without_id]
           MoreScenario.entry_without_id).
  - reflexivity.
  - right. right. left. reflexivity.
  - reflexivity.
Defined.

(** X20: when every non-empty entry has an id, the search returns one track
    per non-empty entry, in the order of the engine, falsy entries skipped;
    each track has the id of its entry, the title of its entry or Unknown
    Title, and the duration of its entry or 0. *)
Theorem search_lists_entries_in_order (env : Env) (query : pystr)
    (max_results : Z) (entries : list (option Entry)) :
  ydl_search env (lit "ytsearch" ++ str_int max_results ++ lit ":" ++ query)
    = Ok (Some (Some entries)) ->
  Forall (fun entry => e_id entry <> None) (omap id entries) ->
  exists tracks,
    search_youtube env query max_results = Ok tracks
    /\ map (fun track => Some (tr_id track)) tracks = map e_id (omap id entries)
    /\ map tr_title tracks
       = map (fun entry => get (e_title entry) (VStr (lit "Unknown Title")))
           (omap id entries)
    /\ map tr_duration tracks
       = map (fun entry => get (e_duration entry) (DInt 0)) (omap id entries).
Proof.
  intros Hengine Hall.
  destruct (collect_tracks_all entries [] Hall) as (tracks & Hcollect & Hshape).
  exists tracks. split.
  - unfold search_youtube, search_youtube_try. rewrite Hengine. cbn [bind].
    now rewrite Hcollect.
  - clear Hcollect Hall. induction Hshape as [|entry track es ts Htrack _ IH].
    + repeat split.
    + destruct IH as (IH1 & IH2 & IH3).
      destruct (track_of_entry_ok _ _ Htrack) as (Hid & _ & _ & Htitle & Hdur & _).
      cbn [map]. rewrite IH1, IH2, IH3, Hid, Htitle, Hdur. repeat split.
Qed.

(** A falsy entry between two complete ones. *)
Lemma search_lists_entries_in_order_witness :
  exists tracks,
    search_youtube MoreScenario.env_gap (lit "Believer") 20 = Ok tracks
    /\ map (fun track => Some (tr_id track)) tracks
       = [Some (lit "id0"); Some (lit "id1")]
    /\ map tr_title tracks = [VStr (lit "Song 0"); VStr (lit "Song 1")]
    /\ map tr_duration tracks = [DInt 5; DInt 65].
Proof.
  apply (search_lists_entries_in_order MoreScenario.env_gap (lit "Believer") 20
           [Some (Scenario.entry 0); None; Some (Scenario.entry 1)]).
  - reflexivity.
  - repeat constructor; discriminate.
Defined.

(** X21: every track a search returns is well formed: its video id is its
    id, its source is youtube, and its display name is artist, space dash
    space, title, as an f-string shows them (None for a missing value). *)
Theorem search_results_well_formed (env : Env) (query : pystr) (max_results : Z)
    (tracks : list Track) :
  search_youtube env query max_results = Ok tracks ->
  Forall (fun track =>
            tr_video_id track = tr_id track
            /\ tr_source track = lit "youtube"
            /\ tr_full_name track
               = fmt (tr_artist track) ++ lit " - " ++ fmt (tr_title track))
         tracks.
Proof.
  unfold search_youtube, search_youtube_try. intros H.
  destruct (ydl_search env _) as [[[entries|]|]|e]; cbn [bind] in H;
    try (injection H as <-; constructor).
  destruct (collect_tracks entries []) as [ts|e] eqn:E;
    [|injection H as <-; constructor].
  injection H as <-. apply collect_tracks_shape in E.
  destruct E as (more & -> & Hmore). cbn [app].
  eapply Forall_impl; [exact Hmore|]. intros track (entry & _ & Htrack).
  destruct (track_of_entry_ok _ _ Htrack) as (_ & Hv & Hs & _ & _ & Hn).
  now repeat split.
Qed.

(** The three tracks of the scenario. *)
Lemma search_results_well_formed_witness :
  Forall (fun track =>
            tr_video_id track = tr_id track
            /\ tr_source track = lit "youtube"
            /\ tr_full_name track
               = fmt (tr_artist track) ++ lit " - " ++ fmt (tr_title track))
         [Scenario.track 0; Scenario.track 1; Scenario.track 2].
Proof.
  apply (search_results_well_formed Scenario.env_three (lit "Believer") 20).
  vm_compute. reflexivity.
Defined.

(** X22: the artist of a track.  A channel that is there and not empty is
    the artist.  A channel that is there but None or empty gives way to the
    uploader, or to Unknown Artist without one.  An entry without the channel
    key gets Unknown Artist at once, even when it has an uploader. *)
Theorem artist_fallback (entry : Entry) (track : Track) :
  track_of_entry entry = Ok track ->
  tr_artist track =
  match e_channel entry with
  | None => VStr (lit "Unknown Artist")
  | Some channel =>
      if truthy channel then channel
      else match e_uploader entry with
           | Some uploader => uploader
           | None => VStr (lit "Unknown Artist")
           end
  end.
Proof.
  unfold track_of_entry. destruct (e_id entry) as [i|]; [|discriminate].
  cbn [getitem bind]. intros H. injection H as <-. cbn [tr_artist].
  destruct (e_channel entry) as [channel|]; cbn [get]; [|reflexivity].
  destruct (truthy channel); cbn [negb]; [reflexivity|].
  now destruct (e_uploader entry).
Qed.

(** An entry with an uploader and no channel key. *)
Lemma artist_fallback_witness :
  tr_artist
    {| tr_id := lit "id9"; tr_title := VStr (lit "Unknown Title");
       tr_artist := VStr (lit "Unknown Artist");
       tr_full_name := lit "Unknown Artist - Unknown Title";
       tr_source := lit "youtube"; tr_duration := DInt 0;
       tr_video_id := lit "id9" |}
  = VStr (lit "Unknown Artist").
Proof.
  apply (artist_fallback
           {| e_id := Some (lit "id9"); e_title := None; e_channel := None;
              e_uploader := Some (VStr (lit "Some Uploader")); e_duration := None |}).
  reflexivity.
Defined.

(** X23: [clean_filename] is idempotent, works piece by piece on a
    concatenation, never lengthens, and returns its argument unchanged
    exactly when the argument has none of the nine characters. *)
Theorem clean_filename_algebra (s t : pystr) :
  clean_filename (clean_filename s) = clean_filename s
  /\ clean_filename (s ++ t) = clean_filename s ++ clean_filename t
  /\ (length (clean_filename s) <= length s)%nat
  /\ (clean_filename s = s
      <-> forallb (fun c => negb (mem c forbidden_chars)) s = true).
Proof.
  rewrite !clean_filename_filter. split; [|split; [|split]].
  - induction s as [|c s IH]; [reflexivity|]. cbn [List.filter].
    destruct (negb (mem c forbidden_chars)) eqn:E; [|exact IH].
    cbn [List.filter]. rewrite E. now f_equal.
  - apply List.filter_app.
  - apply List.filter_length_le.
  - split.
    + intros H. rewrite <- H. apply forallb_forall. intros c Hc.
      apply filter_In in Hc. now destruct Hc.
    + intros H. induction s as [|c s IH]; [reflexivity|].
      cbn [forallb] in H. apply andb_prop in H. destruct H as [Hc Hs].
      cbn [List.filter]. rewrite Hc. f_equal. now apply IH.
Qed.

(** X24: for a display name without a percent sign, the path of the job is
    /tmp/, the cleaned name, an underscore, the first eight characters of
    the random hexadecimal string, and .mp3. *)
Theorem downloaded_file_explicit (env : Env) (track : Track) :
  ~ In 37%N (tr_full_name track) ->
  forallb is_hex (uuid4_hex env) = true ->
  downloaded_file env track =
  lit "/tmp/" ++ clean_filename (tr_full_name track) ++ lit "_"
    ++ prefix (uuid4_hex env) 8 ++ lit ".mp3".
Proof.
  intros Hname Hhex. unfold downloaded_file, output_template.
  assert (Hassoc : forall a b c d e : pystr,
            a ++ b ++ c ++ d ++ e = (a ++ b ++ c ++ d) ++ e).
  { intros. now rewrite !List.app_assoc. }
  rewrite Hassoc, replace_only_tail; [now rewrite <- Hassoc|].
  intros Hin. apply in_app_or in Hin. destruct Hin as [Hin|Hin]; [in_literal Hin|].
  apply in_app_or in Hin. destruct Hin as [Hin|Hin].
  { apply clean_filename_chars in Hin. now destruct Hin. }
  apply in_app_or in Hin. destruct Hin as [Hin|Hin]; [in_literal Hin|].
  apply In_slice in Hin. rewrite forallb_forall in Hhex. apply Hhex in Hin.
  vm_compute in Hin. discriminate Hin.
Qed.

(** The track with slashes in its name. *)
Lemma downloaded_file_explicit_witness :
  downloaded_file Scenario.env_quiet Scenario.track_acdc =
  lit "/tmp/" ++ clean_filename (tr_full_name Scenario.track_acdc) ++ lit "_"
    ++ prefix (uuid4_hex Scenario.env_quiet) 8 ++ lit ".mp3".
Proof.
  apply (downloaded_file_explicit Scenario.env_quiet Scenario.track_acdc).
  - intros Hin. in_literal Hin.
  - vm_compute. reflexivity.
Defined.

(** X25: two jobs for the same track share their path only if they drew
    the same eight-character suffix (display name without a percent sign):
    different suffixes, different files. *)
Theorem distinct_suffix_distinct_path (env1 env2 : Env) (track : Track) :
  ~ In 37%N (tr_full_name track) ->
  forallb is_hex (uuid4_hex env1) = true ->
  forallb is_hex (uuid4_hex env2) = true ->
  prefix (uuid4_hex env1) 8 <> prefix (uuid4_hex env2) 8 ->
  downloaded_file env1 track <> downloaded_file env2 track.
Proof.
  intros Hname Hhex1 Hhex2 Hdiff Heq. apply Hdiff.
  pose proof (replace_only_tail
                (lit "/tmp/" ++ clean_filename (tr_full_name track) ++ lit "_"
                   ++ prefix (uuid4_hex env1) 8)) as H1.
  pose proof (replace_only_tail
                (lit "/tmp/" ++ clean_filename (tr_full_name track) ++ lit "_"
                   ++ prefix (uuid4_hex env2) 8)) as H2.
  assert (Hno : forall env, forallb is_hex (uuid4_hex env) = true ->
            ~ In 37%N (lit "/tmp/" ++ clean_filename (tr_full_name track) ++ lit "_"
                         ++ prefix (uuid4_hex env) 8)).
  { intros env Hhex Hin.
    apply in_app_or in Hin. destruct Hin as [Hin|Hin]; [in_literal Hin|].
    apply in_app_or in Hin. destruct Hin as [Hin|Hin].
    { apply clean_filename_chars in Hin. now destruct Hin. }
    apply in_app_or in Hin. destruct Hin as [Hin|Hin]; [in_literal Hin|].
    apply In_slice in Hin. rewrite forallb_forall in Hhex. apply Hhex in Hin.
    vm_compute in Hin. discriminate Hin. }
  specialize (H1 (Hno env1 Hhex1)). specialize (H2 (Hno env2 Hhex2)).
  unfold downloaded_file, output_template in Heq.
  rewrite <- !List.app_assoc in H1, H2.
  rewrite H1, H2 in Heq.
  apply app_inv_head in Heq. apply app_inv_head in Heq. apply app_inv_head in Heq.
  now apply app_inv_tail in Heq.
Qed.

(** Two jobs for track 3 with two draws of the random string. *)
Lemma distinct_suffix_distinct_path_witness :
  downloaded_file Scenario.env_three (Scenario.track 3)
  <> downloaded_file MoreScenario.env_other_suffix (Scenario.track 3).
Proof.
  apply (distinct_suffix_distinct_path Scenario.env_three
           MoreScenario.env_other_suffix (Scenario.track 3)).
  - intros Hin. in_literal Hin.
  - vm_compute. reflexivity.
  - vm_compute. reflexivity.
  - vm_compute. discriminate.
Defined.

(** X26: callback data with the page_ or dl_ prefix whose argument is made
    of ASCII characters and is empty, or has a character that is neither a
    digit, a sign nor whitespace, makes the handler raise ValueError right
    after acknowledging the callback: nothing is stored, nothing else is
    sent, no file is touched. *)
Theorem malformed_callback_raises (env : Env) (w : World) (user : Z) (s : pystr) :
  ~ In 95%N s ->
  forallb (fun c => (c <? 128)%N) s = true ->
  s = [] \/ forallb (fun c => is_digit c || mem c (whitespace ++ lit "+-")) s = false ->
  exists e,
    exn_cls e = ValueError
    /\ button_handler env w user (lit "page_" ++ s) = (emit w AnswerCallback, Raise e)
    /\ button_handler env w user (lit "dl_" ++ s) = (emit w AnswerCallback, Raise e).
Proof.
  intros Hus Hascii Hbad.
  assert (Hint : int s = Raise (invalid_literal s)).
  { destruct Hbad as [->|Hbad]; [reflexivity|].
    assert (Hex : exists c, In c s
              /\ (is_digit c || mem c (whitespace ++ lit "+-")) = false).
    { clear Hus Hascii. induction s as [|x s IH]; [discriminate|].
      cbn [forallb] in Hbad. apply andb_false_iff in Hbad.
      destruct Hbad as [Hx|Hs].
      - exists x. split; [now left | exact Hx].
      - destruct (IH Hs) as (c & Hin & Hc). exists c. split; [now right | exact Hc]. }
    destruct Hex as (c & Hin & Hc).
    rewrite forallb_forall in Hascii. pose proof (Hascii c Hin) as Hc128.
    apply N.ltb_lt in Hc128.
    destruct (ascii_bad_char c Hc128 Hc) as (Hd & Hws & Hminus & Hplus).
    now apply (int_bad_char s c). }
  destruct (callback_arg_prefixed s Hus) as [Hpage Hdl].
  exists (invalid_literal s). split; [reflexivity|].
  unfold button_handler. split.
  - change (startswith (lit "page_") (lit "page_" ++ s)) with true. cbv iota.
    now rewrite Hpage, Hint.
  - change (startswith (lit "page_") (lit "dl_" ++ s)) with false.
    change (startswith (lit "dl_") (lit "dl_" ++ s)) with true. cbv iota.
    now rewrite Hdl, Hint.
Qed.

(** The data page_next, and dl_next. *)
Lemma malformed_callback_raises_witness :
  exists e,
    exn_cls e = ValueError
    /\ button_handler Scenario.env_quiet Scenario.world20 1 (lit "page_" ++ lit "next")
       = (emit Scenario.world20 AnswerCallback, Raise e)
    /\ button_handler Scenario.env_quiet Scenario.world20 1 (lit "dl_" ++ lit "next")
       = (emit Scenario.world20 AnswerCallback, Raise e).
Proof.
  apply (malformed_callback_raises Scenario.env_quiet Scenario.world20 1 (lit "next")).
  - intros Hin. in_literal Hin.
  - reflexivity.
  - right. reflexivity.
Defined.

(** X27: what a successful job delivers: after the status message, one
    audio message with the job's path, the first 200 characters of title and
    of artist (never more, and all of them when there are fewer), the note
    emoji and the display name as caption, and the duration as stored; then
    the status message is deleted. *)
Theorem delivered_audio_fields (env : Env) (w : World) (track : Track)
    (fs : gset pystr) (title performer : pystr) :
  ydl_download env (lit "https://www.youtube.com/watch?v=" ++ tr_video_id track)
    (output_template env track) (files w) = (fs, Ok true) ->
  downloaded_file env track ∈ fs ->
  tr_title track = VStr title ->
  tr_artist track = VStr performer ->
  send_audio env = Ok tt ->
  outbox (fst (download_job env w track)) =
  outbox w ++
  [ReplyText (msg_downloading ++ tr_full_name track ++ lit "...") None;
   ReplyAudio {| au_path := downloaded_file env track;
                 au_title := firstn 200 title;
                 au_performer := firstn 200 performer;
                 au_caption := caption_head ++ tr_full_name track;
                 au_duration := tr_duration track |};
   DeleteMessage StatusMsg]
  /\ (length (firstn 200 title) <= 200)%nat
  /\ (length (firstn 200 performer) <= 200)%nat.
Proof.
  intros Hdl Hin Htitle Hartist Hsend. split; [|split; apply firstn_le_length].
  unfold download_job, download_and_send, download_track_as_mp3.
  cbn [emit files]. rewrite Hdl. cbn [set_files files].
  rewrite !decide_True by exact Hin. rewrite Htitle, Hartist, Hsend.
  cbn [val_prefix fst emit outbox set_files].
  rewrite !prefix_firstn by lia. change (Z.to_nat 200) with 200%nat.
  now rewrite <- !List.app_assoc.
Qed.

(** Track 3 of the 20 results. *)
Lemma delivered_audio_fields_witness :
  let env := Scenario.env_three in
  let track := Scenario.track 3 in
  outbox (fst (download_job env Scenario.world20 track)) =
  outbox Scenario.world20 ++
  [ReplyText (msg_downloading ++ tr_full_name track ++ lit "...") None;
   ReplyAudio {| au_path := downloaded_file env track;
                 au_title := firstn 200 (lit "Song 3");
                 au_performer := firstn 200 (lit "Band");
                 au_caption := caption_head ++ tr_full_name track;
                 au_duration := tr_duration track |};
   DeleteMessage StatusMsg]
  /\ (length (firstn 200 (lit "Song 3")) <= 200)%nat
  /\ (length (firstn 200 (lit "Band")) <= 200)%nat.
Proof.
  apply (delivered_audio_fields Scenario.env_three Scenario.world20 (Scenario.track 3)
           ({[ downloaded_file Scenario.env_three (Scenario.track 3) ]} ∪ ∅)
           (lit "Song 3") (lit "Band")).
  - reflexivity.
  - apply elem_of_union_l, elem_of_singleton. reflexivity.
  - reflexivity.
  - reflexivity.
  - reflexivity.
Defined.

(** X28: search and download compose: after a search that found tracks,
    the button dl_k of the new keyboard starts the job for the k-th track
    (0-based) of the new results, whatever the user had stored before. *)
Theorem search_then_download (env env' : Env) (w : World) (user : Z)
    (args : list pystr) (tracks : list Track) (k : nat) (track : Track) :
  args <> [] ->
  search_youtube env (join (lit " ") args) 20 = Ok tracks ->
  tracks !! k = Some track ->
  let w1 := fst (search_command env w user args) in
  button_handler env' w1 user (encode_dl (Z.of_nat k))
  = download_job env' (emit w1 AnswerCallback) track.
Proof.
  intros Hargs Hsearch Hk w1.
  pose proof (search_command_user_data env w user args) as Hud. fold w1 in Hud.
  destruct args as [|a args]; [congruence|]. rewrite Hsearch in Hud.
  destruct tracks as [|t ts]; [discriminate Hk|].
  apply (button_handler_download env' w1 user (t :: ts)).
  - now rewrite (user_data_of_insert w w1 user _ Hud).
  - lia.
  - now rewrite Nat2Z.id.
Qed.

(** User 1, holding 20 results, searches again and presses the third
    button of the new keyboard. *)
Lemma search_then_download_witness :
  let w1 := fst (search_command Scenario.env_three Scenario.world20 1 [lit "Believer"]) in
  button_handler Scenario.env_three w1 1 (encode_dl (Z.of_nat 2))
  = download_job Scenario.env_three (emit w1 AnswerCallback) (Scenario.track 2).
Proof.
  apply (search_then_download Scenario.env_three Scenario.env_three Scenario.world20 1
           [lit "Believer"]
           [Scenario.track 0; Scenario.track 1; Scenario.track 2] 2 (Scenario.track 2)).
  - discriminate.
  - vm_compute. reflexivity.
  - reflexivity.
Defined.

(** X29: the file is removed before the status message is deleted.  When
    the engine has written the file, the audio goes out and the transport
    then refuses to delete the status message, the job still ends normally:
    the user has the audio and then sees the error text, and the job's file
    is gone. *)
Theorem refused_delete_after_delivery (env : Fallible.Env) (w : World) (track : Track)
    (fs : gset pystr) (title performer : pystr) (e : exn) :
  ydl_download (Fallible.engine env)
    (lit "https://www.youtube.com/watch?v=" ++ tr_video_id track)
    (output_template (Fallible.engine env) track) (files w) = (fs, Ok true) ->
  downloaded_file (Fallible.engine env) track ∈ fs ->
  tr_title track = VStr title ->
  tr_artist track = VStr performer ->
  send_audio (Fallible.engine env) = Ok tt ->
  (forall delivered ev,
     Fallible.transport env delivered ev
     = match ev with
       | DeleteMessage _ => Raise e
       | _ => Ok tt
       end) ->
  let path := downloaded_file (Fallible.engine env) track in
  let r := Fallible.download_job env track w in
  snd r = Ok tt
  /\ files (fst r) = fs ∖ {[ path ]}
  /\ outbox (fst r) =
     outbox w ++
     [ReplyText (msg_downloading ++ tr_full_name track ++ lit "...") None;
      ReplyAudio {| au_path := path;
                    au_title := firstn 200 title;
                    au_performer := firstn 200 performer;
                    au_caption := caption_head ++ tr_full_name track;
                    au_duration := tr_duration track |};
      EditText StatusMsg (msg_download_error ++ exn_text e) None].
Proof.
  intros Hdl Hin Htitle Hartist Hsend Htransport path r. subst r path.
  assert (Hreply : forall text markup w0,
            Fallible.send env (ReplyText text markup) w0
            = (emit w0 (ReplyText text markup), Ok tt)).
  { intros text markup w0. unfold Fallible.send. now rewrite Htransport. }
  assert (Hedit : forall m text markup w0,
            Fallible.send env (EditText m text markup) w0
            = (emit w0 (EditText m text markup), Ok tt)).
  { intros m text markup w0. unfold Fallible.send. now rewrite Htransport. }
  assert (Hdelete : forall w0,
            Fallible.send env (DeleteMessage StatusMsg) w0 = (w0, Raise e)).
  { intros w0. unfold Fallible.send. now rewrite Htransport. }
  unfold Fallible.download_job, Fallible.try_except, Fallible.download_and_send,
    Fallible.download_track_as_mp3, Fallible.mbind, Fallible.lift, Fallible.modify.
  rewrite Hreply. cbv beta iota.
  rewrite download_track_cases. cbn [fst snd].
  change (files (emit w ?x)) with (files w).
  rewrite Hdl. cbn [fst snd set_files files].
  rewrite !decide_True by exact Hin.
  rewrite Htitle, Hartist. cbn [val_prefix]. cbv beta iota.
  rewrite FallibleFacts.send_audio_eq, Hsend. cbv beta iota.
  rewrite Hdelete. cbv beta iota. rewrite Hedit.
  cbn [fst snd emit files outbox set_files].
  rewrite !prefix_firstn by lia. change (Z.to_nat 200) with 200%nat.
  split; [reflexivity|]. split; [reflexivity|].
  now rewrite <- !List.app_assoc.
Qed.

(** Track 3 of the 20 results, with a transport that does not delete. *)
Lemma refused_delete_after_delivery_witness :
  let env := Fallible.env_refuses_delete in
  let track := Scenario.track 3 in
  let path := downloaded_file (Fallible.engine env) track in
  let r := Fallible.download_job env track Scenario.world20 in
  snd r = Ok tt
  /\ files (fst r) = ({[ path ]} ∪ ∅) ∖ {[ path ]}
  /\ outbox (fst r) =
     outbox Scenario.world20 ++
     [ReplyText (msg_downloading ++ tr_full_name track ++ lit "...") None;
      ReplyAudio {| au_path := path;
                    au_title := firstn 200 (lit "Song 3");
                    au_performer := firstn 200 (lit "Band");
                    au_caption := caption_head ++ tr_full_name track;
                    au_duration := tr_duration track |};
      EditText StatusMsg
        (msg_download_error
           ++ exn_text (Exn TransportError (lit "Message can't be deleted"))) None].
Proof.
  apply (refused_delete_after_delivery Fallible.env_refuses_delete Scenario.world20
           (Scenario.track 3)
           ({[ downloaded_file Scenario.env_three (Scenario.track 3) ]} ∪ ∅)
           (lit "Song 3") (lit "Band")
           (Exn TransportError (lit "Message can't be deleted"))).
  - reflexivity.
  - apply elem_of_union_l, elem_of_singleton. reflexivity.
  - reflexivity.
  - reflexivity.
  - reflexivity.
  - intros delivered ev. destruct ev; reflexivity.
Defined.

(** X30: the session is stored before the results page is sent.  When the
    search found tracks and the transport refuses the edit that carries the
    keyboard, the handler ends normally, the user sees the error text, and
    the new result set with page 0 is stored all the same. *)
Theorem refused_page_edit_after_store (env : Fallible.Env) (w : World) (user : Z)
    (a : pystr) (args : list pystr) (t : Track) (ts : list Track)
    (rendered : pystr * Keyboard) (e : exn) :
  search_youtube (Fallible.engine env) (join (lit " ") (a :: args)) 20 = Ok (t :: ts) ->
  render_page (t :: ts) 0 = Ok rendered ->
  (forall delivered ev,
     Fallible.transport env delivered ev
     = match ev with
       | EditText _ _ (Some _) => Raise e
       | _ => Ok tt
       end) ->
  let r := Fallible.search_command env user (a :: args) w in
  snd r = Ok tt
  /\ user_data_of (fst r) user = {| search_results := Some (t :: ts); page := Some 0 |}
  /\ files (fst r) = files w
  /\ outbox (fst r) =
     outbox w ++
     [ReplyText (msg_searching ++ join (lit " ") (a :: args) ++ lit "...") None;
      EditText StatusMsg (msg_error ++ exn_text e) None].
Proof.
  intros Hsearch Hrender Htransport r. subst r.
  assert (Hreply : forall text w0,
            Fallible.send env (ReplyText text None) w0
            = (emit w0 (ReplyText text None), Ok tt)).
  { intros text w0. unfold Fallible.send. now rewrite Htransport. }
  assert (Hplain : forall m text w0,
            Fallible.send env (EditText m text None) w0
            = (emit w0 (EditText m text None), Ok tt)).
  { intros m text w0. unfold Fallible.send. now rewrite Htransport. }
  assert (Hkeyboard : forall m text keyboard w0,
            Fallible.send env (EditText m text (Some keyboard)) w0 = (w0, Raise e)).
  { intros m text keyboard w0. unfold Fallible.send. now rewrite Htransport. }
  unfold Fallible.search_command, Fallible.try_except, Fallible.send_results_page,
    Fallible.mbind, Fallible.lift, Fallible.modify.
  rewrite Hreply. cbv beta iota. rewrite Hsearch. cbv beta iota.
  set (w1 := emit w _).
  set (w2 := set_user_data w1 user _).
  set (w3 := set_user_data w2 user _).
  assert (H3 : user_data_of w3 user
               = {| search_results := Some (t :: ts); page := Some 0 |}).
  { assert (H2 : user_data_of w2 user
                 = {| search_results := Some (t :: ts);
                      page := page (user_data_of w1 user) |})
      by (apply (user_data_of_insert w1); reflexivity).
    apply (user_data_of_insert w2). subst w3. cbn [set_user_data user_data].
    rewrite H2. reflexivity. }
  rewrite H3. cbn [search_results page get]. rewrite Hrender. cbv beta iota.
  rewrite Hkeyboard. cbv beta iota. rewrite Hplain. cbn [fst snd].
  split; [reflexivity|]. split; [|split].
  - rewrite <- H3. apply user_data_of_eq. reflexivity.
  - reflexivity.
  - cbn [emit outbox]. subst w3 w2 w1. cbn [set_user_data emit outbox].
    now rewrite <- List.app_assoc.
Qed.

(** The search for Believer finds three tracks; the transport takes no
    keyboard. *)
Lemma refused_page_edit_after_store_witness :
  let r := Fallible.search_command Fallible.env_refuses_keyboards 1 [lit "Believer"]
             Scenario.world20 in
  snd r = Ok tt
  /\ user_data_of (fst r) 1
     = {| search_results := Some [Scenario.track 0; Scenario.track 1; Scenario.track 2];
          page := Some 0 |}
  /\ files (fst r) = files Scenario.world20
  /\ outbox (fst r) =
     outbox Scenario.world20 ++
     [ReplyText (msg_searching ++ join (lit " ") [lit "Believer"] ++ lit "...") None;
      EditText StatusMsg
        (msg_error ++ exn_text (Exn TransportError (lit "Button_data_invalid"))) None].
Proof.
  destruct (render_page [Scenario.track 0; Scenario.track 1; Scenario.track 2] 0)
    as [rendered|err] eqn:Hrender; [|vm_compute in Hrender; discriminate Hrender].
  apply (refused_page_edit_after_store Fallible.env_refuses_keyboards Scenario.world20 1
           (lit "Believer") [] (Scenario.track 0) [Scenario.track 1; Scenario.track 2]
           rendered (Exn TransportError (lit "Button_data_invalid"))).
  - vm_compute. reflexivity.
  - exact Hrender.
  - intros delivered ev. destruct ev as [| ? ? | ? ? [?|] | ? | ?]; reflexivity.
Defined.

